(** * UKEnergyLive: the BMRS / NESO energy-mix pipeline

    A shallow embedding of [data_pipeline/fetch_data.py].

    The program is written against pandas, so the embedding starts with the
    small part of pandas it uses: typed columns ([Series]), tables as ordered
    lists of named columns ([DataFrame]), column lookup and assignment,
    elementwise addition, row selection, [pivot_table], [merge] and [round].

    Conventions of the model
    - a [float64] value is an exact rational kept in lowest terms; binary
      rounding of the arithmetic is not represented;
    - an [int64] value is a [Z]; arithmetic on integer columns wraps at 64 bits;
    - an instant is a [Z] counting microseconds since the epoch, in UTC; a
      settlement date is held as the instant [pd.to_datetime(..., utc=True)]
      gives it.  Python keeps a [datetime] between the years 1 and 9999 and
      pandas keeps instants and durations as 64-bit counts of nanoseconds:
      the operations that leave these ranges raise, as they do in the code;
    - every entry of a column is present: missing values (NaN, NaT) are not
      represented;
    - a raised exception is a [Raise e] result; the remote services and the
      clock are inputs ([World]). *)

From Stdlib Require Import ZArith QArith Qround Qreduction String Bool Lia Lqa Permutation
  Sorted List.
Import ListNotations.

Open Scope string_scope.
Open Scope Z_scope.

(** ** Exceptions *)

(** [KeyError key] is the exception of a lookup by one label;
    [KeyErrorNotInIndex missing] is the [KeyError] of a lookup by a list of
    labels, whose message names every label of the list that is absent. *)
Inductive error : Type :=
| KeyError (key : string)
| TypeError
| ValueError
| HTTPError
| JSONDecodeError
| ParserError
| KeyErrorNotInIndex (missing : list string)
| OverflowError
| OutOfBoundsTimedelta.

Inductive result (A : Type) : Type :=
| OK (a : A)
| Raise (e : error).

Arguments OK {A} a.
Arguments Raise {A} e.

Definition bind {A B : Type} (r : result A) (k : A -> result B) : result B :=
  match r with
  | OK a => k a
  | Raise e => Raise e
  end.

Declare Scope result_scope.
Delimit Scope result_scope with result.
Notation "x <- r ;; k" := (bind r (fun x => k))
  (at level 61, r at next level, right associativity) : result_scope.

Definition is_ok {A : Type} (r : result A) : bool :=
  match r with OK _ => true | Raise _ => false end.

(** ** Numbers *)

Definition wrap64 (z : Z) : Z := (z + 2 ^ 63) mod 2 ^ 64 - 2 ^ 63.

Definition fadd (a b : Q) : Q := Qred (a + b).

Definition fsum (l : list Q) : Q := fold_left Qplus l (0 # 1)%Q.

(** [numpy.rint]: the nearest integer, a tie going to the even neighbour. *)
Definition rint (q : Q) : Z :=
  let f := Qfloor q in
  match (q - inject_Z f ?= 1 # 2)%Q with
  | Lt => f
  | Gt => f + 1
  | Eq => if Z.even f then f else f + 1
  end.

(** [numpy.round(q, decimals)] for [decimals >= 0]. *)
Definition around (decimals : nat) (q : Q) : Q :=
  let scale := inject_Z (10 ^ Z.of_nat decimals) in
  Qred (inject_Z (rint (q * scale)) / scale).

(** ** Series and data frames *)

Inductive Series : Type :=
| SInt (l : list Z)
| SFloat (l : list Q)
| STime (l : list Z)
| SStr (l : list string).

Definition DataFrame : Type := list (string * Series).

Definition series_len (s : Series) : nat :=
  match s with
  | SInt l => length l
  | SFloat l => length l
  | STime l => length l
  | SStr l => length l
  end.

Definition columns (df : DataFrame) : list string := map fst df.

Definition nrows (df : DataFrame) : nat :=
  match df with
  | [] => 0%nat
  | (_, s) :: _ => series_len s
  end.

(** [df[key]] *)
Fixpoint getitem (df : DataFrame) (key : string) : result Series :=
  match df with
  | [] => Raise (KeyError key)
  | (c, s) :: rest => if String.eqb c key then OK s else getitem rest key
  end.

(** [df[key] = s]: an existing column is replaced where it stands, a new one
    goes last. *)
Fixpoint setitem (df : DataFrame) (key : string) (s : Series) : DataFrame :=
  match df with
  | [] => [(key, s)]
  | (c, s0) :: rest =>
      if String.eqb c key then (c, s) :: rest else (c, s0) :: setitem rest key s
  end.

Fixpoint zip_with {A B C : Type} (f : A -> B -> C) (l1 : list A) (l2 : list B) : list C :=
  match l1, l2 with
  | a :: l1', b :: l2' => f a b :: zip_with f l1' l2'
  | _, _ => []
  end.

(** The numeric view of a column: what [float(x)] gives for each entry. *)
Definition series_num (s : Series) : option (list Q) :=
  match s with
  | SInt l => Some (map inject_Z l)
  | SFloat l => Some l
  | _ => None
  end.

(** An addition pandas carries out entry by entry, on a pair of columns whose
    entries cannot be added: the first pair of entries raises, and with no
    entry there is nothing to raise. *)
Definition add_objects (a b : Series) : result Series :=
  match series_len a, series_len b with
  | S _, S _ => Raise TypeError
  | _, _ => OK (SStr [])
  end.

(** [a + b] on two columns of one frame.  Numeric columns are added as
    arrays, integers wrapping; two text columns are concatenated entry by
    entry; a text column and a column of another type are added entry by
    entry as objects; a datetime column and a numeric or datetime column are
    refused for their types, whatever they hold. *)
Definition series_add (a b : Series) : result Series :=
  match a, b with
  | SInt x, SInt y => OK (SInt (zip_with (fun u v => wrap64 (u + v)) x y))
  | SInt x, SFloat y => OK (SFloat (zip_with fadd (map inject_Z x) y))
  | SFloat x, SInt y => OK (SFloat (zip_with fadd x (map inject_Z y)))
  | SFloat x, SFloat y => OK (SFloat (zip_with fadd x y))
  | SStr x, SStr y => OK (SStr (zip_with append x y))
  | SStr _, _ | _, SStr _ => add_objects a b
  | _, _ => Raise TypeError
  end.

(** [s.round(decimals)]: only a float column changes. *)
Definition series_round (decimals : nat) (s : Series) : Series :=
  match s with
  | SFloat l => SFloat (map (around decimals) l)
  | _ => s
  end.

(** [df.round(decimals)]: a new frame, the receiver is not touched. *)
Definition df_round (decimals : nat) (df : DataFrame) : DataFrame :=
  map (fun cs => (fst cs, series_round decimals (snd cs))) df.

(** The number in row [i] of a column, when there is one. *)
Definition series_at (s : Series) (i : nat) : option Q :=
  match series_num s with
  | Some l => nth_error l i
  | None => None
  end.

(** The number in row [i] of column [c], when there is one. *)
Definition num_at (df : DataFrame) (c : string) (i : nat) : option Q :=
  match getitem df c with
  | OK s => series_at s i
  | Raise _ => None
  end.

(** ** Code that mutates the frame it is given

    [process_merged] assigns columns to its argument.  The argument is an
    object shared with the caller, so the function is a computation over that
    object: it returns the object's final state next to its own result, also
    when it raises. *)

Definition ST (S A : Type) : Type := S -> S * result A.

Definition mbind {S A B : Type} (m : ST S A) (k : A -> ST S B) : ST S B :=
  fun st =>
    match m st with
    | (st', OK a) => k a st'
    | (st', Raise e) => (st', Raise e)
    end.

Definition lift {S A : Type} (r : result A) : ST S A := fun st => (st, r).

(** A computation over the frame the caller passed. *)
Definition Mut (A : Type) : Type := ST DataFrame A.

Definition col (key : string) : Mut Series := fun df => (df, getitem df key).

Definition assign (key : string) (s : Series) : Mut unit :=
  fun df => (setitem df key s, OK tt).

Definition rounded (decimals : nat) : Mut DataFrame :=
  fun df => (df, OK (df_round decimals df)).

Declare Scope mut_scope.
Delimit Scope mut_scope with mut.
Notation "x <- m ;; k" := (mbind m (fun x => k))
  (at level 61, m at next level, right associativity) : mut_scope.
Notation "m ;;; k" := (mbind m (fun _ => k))
  (at level 61, right associativity) : mut_scope.

(** [merged[a] + merged[b]] *)
Definition add2 (a b : string) : Mut Series :=
  (x <- col a ;; y <- col b ;; lift (series_add x y))%mut.

(** [merged[a] + merged[b] + merged[c]] *)
Definition add3 (a b c : string) : Mut Series :=
  (x <- col a ;; y <- col b ;; xy <- lift (series_add x y) ;;
   z <- col c ;; lift (series_add xy z))%mut.

Definition process_merged : Mut DataFrame :=
  (tw <- add2 "WIND" "EMBEDDED_WIND_GENERATION" ;;
   assign "TOTAL_WIND" tw ;;;
   tg <- add2 "CCGT" "OCGT" ;;
   assign "TOTAL_GAS" tg ;;;
   tr <- add3 "TOTAL_WIND" "EMBEDDED_SOLAR_GENERATION" "NPSHYD" ;;
   assign "TOTAL_RENEWABLE" tr ;;;
   tf <- add3 "TOTAL_GAS" "COAL" "OIL" ;;
   assign "TOTAL_FOSSIL_FUELS" tf ;;;
   tl <- add3 "TOTAL_RENEWABLE" "BIOMASS" "NUCLEAR" ;;
   assign "TOTAL_LOW_CARBON" tl ;;;
   rounded 2)%mut.

(** ** Row selection *)

Definition series_rows (f : forall A : Type, list A -> list A) (s : Series) : Series :=
  match s with
  | SInt l => SInt (f Z l)
  | SFloat l => SFloat (f Q l)
  | STime l => STime (f Z l)
  | SStr l => SStr (f string l)
  end.

Fixpoint mask_filter (m : list bool) {A : Type} (l : list A) : list A :=
  match m, l with
  | b :: m', x :: l' => if b then x :: mask_filter m' l' else mask_filter m' l'
  | _, _ => []
  end.

(** [df[mask]] *)
Definition df_mask (df : DataFrame) (m : list bool) : DataFrame :=
  map (fun cs => (fst cs, series_rows (@mask_filter m) (snd cs))) df.

Definition take_rows (idx : list nat) {A : Type} (l : list A) : list A :=
  flat_map (fun i => match nth_error l i with Some x => [x] | None => [] end) idx.

(** The columns named [keys] that the frame has, in the order of [keys]. *)
Fixpoint columns_of (df : DataFrame) (keys : list string) : DataFrame :=
  match keys with
  | [] => []
  | k :: ks =>
      match getitem df k with
      | OK s => (k, s) :: columns_of df ks
      | Raise _ => columns_of df ks
      end
  end.

(** The names of [keys] that the frame lacks, in the order of [keys]. *)
Definition missing_columns (df : DataFrame) (keys : list string) : list string :=
  filter (fun k => negb (is_ok (getitem df k))) keys.

(** [df[[k1, k2, ...]]]: the named columns in the order asked; when the frame
    lacks some of them, one [KeyError] that names all it lacks. *)
Definition select (df : DataFrame) (keys : list string) : result DataFrame :=
  match missing_columns df keys with
  | [] => OK (columns_of df keys)
  | missing => Raise (KeyErrorNotInIndex missing)
  end.

(** ** Time *)

Definition minute : Z := 60 * 1000000.
Definition hour : Z := 60 * minute.

(** The duration of [hours] hours. *)
Definition timedelta_hours (hours : Z) : Z := hours * hour.

(** [timedelta(hours=hours)]: a [timedelta] holds at most 999999999 days,
    either way. *)
Definition timedelta (hours : Z) : result Z :=
  let days := timedelta_hours hours / (24 * hour) in
  if (- 999999999 <=? days) && (days <=? 999999999)
  then OK (timedelta_hours hours)
  else Raise OverflowError.

(** The first and the last instant a [datetime] holds: 0001-01-01 00:00:00
    and 9999-12-31 23:59:59.999999. *)
Definition datetime_min : Z := - 62135596800 * 1000000.
Definition datetime_max : Z := 253402300800 * 1000000 - 1.

(** [t - d] for a [datetime] and a [timedelta]. *)
Definition datetime_sub (t d : Z) : result Z :=
  if (datetime_min <=? t - d) && (t - d <=? datetime_max)
  then OK (t - d)
  else Raise OverflowError.

(** [now - timedelta(hours=hours)] *)
Definition window_start (now hours : Z) : result Z :=
  (d <- timedelta hours ;; datetime_sub now d)%result.

(** pandas holds an instant, and a duration, as a signed 64-bit count of
    nanoseconds, the least 64-bit integer standing for a missing value. *)
Definition in_int64_ns (us : Z) : bool :=
  (- (2 ^ 63 - 1) <=? us * 1000) && (us * 1000 <=? 2 ^ 63 - 1).

(** [pd.to_datetime(s, utc=True)].  The payloads of this model carry their
    dates as instants already, so a datetime column is returned as it is;
    reading dates out of text or numbers is not modelled. *)
Definition to_datetime (s : Series) : result Series :=
  match s with
  | STime l => OK (STime l)
  | _ => Raise ValueError
  end.

(** [s - k] and [s * k] for an integer literal [k]. *)
Definition series_sub_int (s : Series) (k : Z) : result Series :=
  match s with
  | SInt l => OK (SInt (map (fun z => wrap64 (z - k)) l))
  | SFloat l => OK (SFloat (map (fun q => Qred (q - inject_Z k)) l))
  | _ => Raise TypeError
  end.

Definition series_mul_int (s : Series) (k : Z) : result Series :=
  match s with
  | SInt l => OK (SInt (map (fun z => wrap64 (z * k)) l))
  | SFloat l => OK (SFloat (map (fun q => Qred (q * inject_Z k)) l))
  | _ => Raise TypeError
  end.

(** [pd.to_timedelta(s, unit="m")]: durations in microseconds; a count of
    minutes that does not fit the nanosecond range raises.  (The count
    [- 2 ^ 63], which pandas reads as a missing duration, is refused with
    them: missing values are not represented.)  Both feeds number their
    periods with integers; a column of another type is refused here (pandas
    would also take floats). *)
Definition to_timedelta_minutes (s : Series) : result (list Z) :=
  match s with
  | SInt l =>
      if forallb (fun z => in_int64_ns (z * minute)) l
      then OK (map (fun z => z * minute) l)
      else Raise OutOfBoundsTimedelta
  | _ => Raise TypeError
  end.

(** [dates + durations]: a sum that does not fit the nanosecond range
    raises. *)
Definition datetime_add (s : Series) (d : list Z) : result Series :=
  match s with
  | STime l =>
      if forallb in_int64_ns (zip_with Z.add l d)
      then OK (STime (zip_with Z.add l d))
      else Raise OverflowError
  | _ => Raise TypeError
  end.

(** [(s >= lo) & (s <= hi)] *)
Definition between (s : Series) (lo hi : Z) : result (list bool) :=
  match s with
  | STime l => OK (map (fun t => (lo <=? t) && (t <=? hi)) l)
  | _ => Raise TypeError
  end.

(** ** The remote services and the clock *)

(** One object of the FUELINST stream. *)
Record FuelInst : Type := mkFuelInst {
  settlementDate : Z;
  settlementPeriod : Z;
  fuelType : string;
  generation : Z
}.

Inductive Body : Type :=
| NotJSON
| JSONArray (data : list FuelInst).

Record Response : Type := mkResponse {
  status_code : Z;
  body : Body
}.

Record World : Type := mkWorld {
  (** [datetime.now(timezone.utc)] as [fetch_bmrs_fuelinst] reads it *)
  bmrs_now : Z;
  (** [requests.get(BMRS_FUELINST_URL, params)], by the two query parameters
      (whole seconds) *)
  bmrs_get : Z -> Z -> result Response;
  (** [pd.read_csv(NESO_DAILY_DEMAND_URL)] *)
  neso_read_csv : result DataFrame;
  (** [datetime.now(timezone.utc)] as [fetch_neso_demand] reads it *)
  neso_now : Z
}.

(** ["%Y-%m-%dT%H:%M:%SZ"] keeps whole seconds. *)
Definition strftime_seconds (t : Z) : Z := t / 1000000.

Definition raise_for_status (r : Response) : result unit :=
  if (400 <=? status_code r) && (status_code r <? 600) then Raise HTTPError else OK tt.

Definition json (r : Response) : result (list FuelInst) :=
  match body r with
  | NotJSON => Raise JSONDecodeError
  | JSONArray data => OK data
  end.

(** [pd.DataFrame(data)] for a list of objects: no object, no column. *)
Definition DataFrame_of_records (data : list FuelInst) : DataFrame :=
  match data with
  | [] => []
  | _ :: _ =>
      [("settlementDate", STime (map settlementDate data));
       ("settlementPeriod", SInt (map settlementPeriod data));
       ("fuelType", SStr (map fuelType data));
       ("generation", SInt (map generation data))]
  end.

(** The [timestamp] column both fetchers add:
    [df[date] + pd.to_timedelta((df[period] - 1) * 30, unit="m")]. *)
Definition add_timestamp (df : DataFrame) (date period : string) : result DataFrame :=
  (d <- getitem df date ;;
   p <- getitem df period ;;
   p1 <- series_sub_int p 1 ;;
   m <- series_mul_int p1 30 ;;
   td <- to_timedelta_minutes m ;;
   ts <- datetime_add d td ;;
   OK (setitem df "timestamp" ts))%result.

(** [df[(df["timestamp"] >= start) & (df["timestamp"] <= now)]] *)
Definition in_window (df : DataFrame) (start now : Z) : result DataFrame :=
  (ts <- getitem df "timestamp" ;;
   m <- between ts start now ;;
   OK (df_mask df m))%result.

Definition fetch_bmrs_fuelinst (w : World) (hours : Z) : result DataFrame :=
  let now := bmrs_now w in
  (start <- window_start now hours ;;
   resp <- bmrs_get w (strftime_seconds start) (strftime_seconds now) ;;
   _ <- raise_for_status resp ;;
   data <- json resp ;;
   let df := DataFrame_of_records data in
   sd <- getitem df "settlementDate" ;;
   sd <- to_datetime sd ;;
   let df := setitem df "settlementDate" sd in
   df <- add_timestamp df "settlementDate" "settlementPeriod" ;;
   in_window df start now)%result.

Definition fetch_neso_demand (w : World) (hours : Z) : result DataFrame :=
  (df <- neso_read_csv w ;;
   df <- select df ["SETTLEMENT_DATE"; "SETTLEMENT_PERIOD";
                    "EMBEDDED_WIND_GENERATION"; "EMBEDDED_SOLAR_GENERATION"] ;;
   sd <- getitem df "SETTLEMENT_DATE" ;;
   sd <- to_datetime sd ;;
   let df := setitem df "SETTLEMENT_DATE" sd in
   df <- add_timestamp df "SETTLEMENT_DATE" "SETTLEMENT_PERIOD" ;;
   let now := neso_now w in
   start <- window_start now hours ;;
   in_window df start now)%result.

(** ** pivot_table *)

Section Distinct.
Context {A : Type} (eqb : A -> A -> bool) (leb : A -> A -> bool).

(** The distinct entries, each at its first place. *)
Fixpoint distinct (l : list A) : list A :=
  match l with
  | [] => []
  | x :: l' => x :: filter (fun y => negb (eqb x y)) (distinct l')
  end.

Fixpoint place (x : A) (l : list A) : list A :=
  match l with
  | [] => [x]
  | y :: l' => if leb x y then x :: l else y :: place x l'
  end.

Definition ascending (l : list A) : list A := fold_right place [] l.

(** The labels a group-by produces: distinct, in ascending order. *)
Definition group_labels (l : list A) : list A := ascending (distinct l).
End Distinct.

(** The arithmetic mean of a non-empty group; [fill] for an empty one. *)
Definition mean_or (fill : Q) (g : list Q) : Q :=
  match g with
  | [] => fill
  | _ :: _ => Qred (fsum g / inject_Z (Z.of_nat (length g)))
  end.

(** The values of the rows whose keys are [t] and [f]. *)
Fixpoint group (t : Z) (f : string) (ts : list Z) (fs : list string) (vs : list Q) : list Q :=
  match ts, fs, vs with
  | t' :: ts', f' :: fs', v :: vs' =>
      if (t =? t') && String.eqb f f' then v :: group t f ts' fs' vs' else group t f ts' fs' vs'
  | _, _, _ => []
  end.

(** A table with a named index, as [pivot_table] returns it. *)
Record Indexed : Type := mkIndexed {
  index_name : string;
  index_values : list Z;
  table : DataFrame
}.

(** [df.pivot_table(index=index, columns=columns, values=values,
    aggfunc="mean", fill_value=fill)], for a datetime index key and a text
    column key, the dtypes the pipeline passes; other key dtypes are refused
    here. *)
Definition pivot_table (df : DataFrame) (index columns values : string) (fill : Q)
  : result Indexed :=
  (v <- getitem df values ;;
   i <- getitem df index ;;
   c <- getitem df columns ;;
   match i, c, series_num v with
   | STime ts, SStr fs, Some vs =>
       let rows := group_labels Z.eqb Z.leb ts in
       let labels := group_labels String.eqb String.leb fs in
       OK (mkIndexed index rows
             (map (fun f => (f, SFloat (map (fun t => mean_or fill (group t f ts fs vs)) rows)))
                  labels))
   | _, _, _ => Raise TypeError
   end)%result.

(** [.reset_index()]: the index becomes the first column, unless a column
    already has its name. *)
Definition reset_index (p : Indexed) : result DataFrame :=
  if existsb (String.eqb (index_name p)) (columns (table p))
  then Raise ValueError
  else OK ((index_name p, STime (index_values p)) :: table p).

(** ** merge *)

Definition enumerate {A : Type} (l : list A) : list (nat * A) :=
  combine (seq 0 (length l)) l.

(** The pairs of row numbers an inner join keeps: left order first, then right
    order. *)
Definition join_pairs (a b : list Z) : list (nat * nat) :=
  flat_map
    (fun ia => map (fun jb => (fst ia, fst jb))
                   (filter (fun jb => snd ia =? snd jb) (enumerate b)))
    (enumerate a).

(** A column name both sides have, the key apart, gets the side's suffix. *)
Definition suffixed (on : string) (other : DataFrame) (suffix : string) (c : string) : string :=
  if negb (String.eqb c on) && existsb (String.eqb c) (columns other)
  then c ++ suffix else c.

(** [pd.merge(left, right, on=on, how="inner")], for a datetime key. *)
Definition merge_inner (left right : DataFrame) (on : string) : result DataFrame :=
  (rk <- getitem right on ;;
   lk <- getitem left on ;;
   match lk, rk with
   | STime a, STime b =>
       let pairs := join_pairs a b in
       let li := map fst pairs in
       let ri := map snd pairs in
       OK (map (fun cs => (suffixed on right "_x" (fst cs),
                           series_rows (@take_rows li) (snd cs))) left
           ++ map (fun cs => (suffixed on left "_y" (fst cs),
                              series_rows (@take_rows ri) (snd cs)))
                  (filter (fun cs => negb (String.eqb (fst cs) on)) right))%list
   | _, _ => Raise ValueError
   end)%result.

(** The table [merge_datasets] binds to [pivoted]. *)
Definition pivoted (bmrs_fuelinst_df : DataFrame) : result DataFrame :=
  (p <- pivot_table bmrs_fuelinst_df "timestamp" "fuelType" "generation" (0 # 1) ;;
   reset_index p)%result.

Definition merge_datasets (bmrs_fuelinst_df neso_df : DataFrame) : result DataFrame :=
  (pv <- pivoted bmrs_fuelinst_df ;;
   merge_inner pv neso_df "timestamp")%result.

(** ** The output file and the console *)

Inductive cell : Type :=
| CInt (z : Z)
| CFloat (q : Q)
| CTime (t : Z)
| CStr (s : string).

Definition series_cells (s : Series) : list cell :=
  match s with
  | SInt l => map CInt l
  | SFloat l => map CFloat l
  | STime l => map CTime l
  | SStr l => map CStr l
  end.

Definition cell_num (c : cell) : option Q :=
  match c with
  | CInt z => Some (inject_Z z)
  | CFloat q => Some q
  | _ => None
  end.

(** A CSV file: its header line, then one record per row. *)
Record Csv : Type := mkCsv {
  header : list string;
  records : list (list cell)
}.

Definition row_at (df : DataFrame) (i : nat) : list cell :=
  flat_map (fun cs => match nth_error (series_cells (snd cs)) i with
                      | Some c => [c]
                      | None => []
                      end) df.

(** What [df.to_csv(path, index=False)] writes. *)
Definition csv_of (df : DataFrame) : Csv :=
  mkCsv (columns df) (map (row_at df) (seq 0 (nrows df))).

Inductive message : Type :=
| Line (text : string)
| Saved (rows : nat).

Record Env : Type := mkEnv {
  files : string -> option Csv;
  stdout : list message
}.

Definition print (m : message) : ST Env unit :=
  fun env => (mkEnv (files env) (stdout env ++ [m]), OK tt).

(** The file is replaced as a whole; the directory of [path] is taken to
    exist. *)
Definition to_csv (df : DataFrame) (path : string) : ST Env unit :=
  fun env =>
    (mkEnv (fun p => if String.eqb p path then Some (csv_of df) else files env p)
           (stdout env),
     OK tt).

Definition output_path : string := "data_pipeline/Data/combined_energy_data.csv".

Definition fetch_pipeline (w : World) : ST Env unit :=
  (print (Line "Fetching BMRS data...") ;;;
   fuelinst_df <- lift (fetch_bmrs_fuelinst w 24) ;;
   print (Line "Fetching NESO data...") ;;;
   neso_df <- lift (fetch_neso_demand w 24) ;;
   print (Line "Merging datasets...") ;;;
   merged <- lift (merge_datasets fuelinst_df neso_df) ;;
   print (Line "Processing data...") ;;;
   merged <- lift (snd (process_merged merged)) ;;
   to_csv merged output_path ;;;
   print (Saved (nrows merged)))%mut.

(** ** Vocabulary of the statements *)

(** A number with at most two decimal digits: a whole number of hundredths. *)
Definition two_decimals (q : Q) : Prop := exists k : Z, (q == k # 100)%Q.

(** A numeric column whose integers, if it holds integers, stay within [B]. *)
Definition numeric (B : Z) (s : Series) : Prop :=
  match s with
  | SInt l => Forall (fun z => Z.abs z <= B) l
  | SFloat _ => True
  | _ => False
  end.

Definition source_columns : list string :=
  ["WIND"; "EMBEDDED_WIND_GENERATION"; "CCGT"; "OCGT"; "EMBEDDED_SOLAR_GENERATION";
   "NPSHYD"; "COAL"; "OIL"; "BIOMASS"; "NUCLEAR"].

Definition total_columns : list string :=
  ["TOTAL_WIND"; "TOTAL_GAS"; "TOTAL_RENEWABLE"; "TOTAL_FOSSIL_FUELS"; "TOTAL_LOW_CARBON"].


(** The instant the code derives from a settlement date and period. *)
Definition stamp_of (d p : Z) : Z := d + wrap64 (wrap64 (p - 1) * 30) * minute.

(** A frame whose [timestamp] column is derived, row by row, from its date and
    period columns. *)
Definition stamped (df : DataFrame) (date period : string) : Prop :=
  exists D P,
    getitem df date = OK (STime D) /\
    getitem df period = OK (SInt P) /\
    getitem df "timestamp" = OK (STime (zip_with stamp_of D P)).

Definition stamp (r : FuelInst) : Z := stamp_of (settlementDate r) (settlementPeriod r).

(** An integer that a 64-bit column holds. *)
Definition int64 (z : Z) : bool := (- 2 ^ 63 <=? z) && (z <? 2 ^ 63).

(** The offset of period [p] is a duration pandas holds. *)
Definition offset_ok (p : Z) : bool := in_int64_ns (wrap64 (wrap64 (p - 1) * 30) * minute).

(** A period number and a settlement date that the feeds can deliver and the
    code can stamp: the number fits 64 bits and its offset is a duration
    pandas holds; the date, and the instant derived from it and the period,
    are instants pandas holds. *)
Definition period_ok (p : Z) : bool := int64 p && offset_ok p.
Definition stamp_ok (d p : Z) : bool := in_int64_ns d && in_int64_ns (stamp_of d p).

Definition row_ok (r : FuelInst) : bool :=
  period_ok (settlementPeriod r) && stamp_ok (settlementDate r) (settlementPeriod r).

Definition columns_ok (D P : list Z) : bool :=
  forallb period_ok P && forallb in_int64_ns D
  && forallb in_int64_ns (zip_with stamp_of D P).

(** A settlement date: an instant pandas holds, whose last period, 47 half
    hours on, pandas holds too.  Every midnight pandas holds is one. *)
Definition date_ok (d : Z) : Prop :=
  - 9223372036854775 <= d <= 9223372036854775 - 47 * (30 * minute).

(** The frame [fetch_bmrs_fuelinst] returns for the rows it keeps. *)
Definition fuel_frame (rows : list FuelInst) : DataFrame :=
  [("settlementDate", STime (map settlementDate rows));
   ("settlementPeriod", SInt (map settlementPeriod rows));
   ("fuelType", SStr (map fuelType rows));
   ("generation", SInt (map generation rows));
   ("timestamp", STime (map stamp rows))].

(** The frame [fetch_neso_demand] builds before it applies the window. *)
Definition demand_frame (D P : list Z) (wind solar : Series) : DataFrame :=
  [("SETTLEMENT_DATE", STime D);
   ("SETTLEMENT_PERIOD", SInt P);
   ("EMBEDDED_WIND_GENERATION", wind);
   ("EMBEDDED_SOLAR_GENERATION", solar);
   ("timestamp", STime (zip_with stamp_of D P))].

(** The cells of the pivot for a long table with keys [ts], [fs] and values
    [vs]. *)
Definition pivot_cells (ts : list Z) (fs : list string) (vs : list Q) : DataFrame :=
  map (fun f => (f, SFloat (map (fun t => mean_or (0 # 1) (group t f ts fs vs))
                                (group_labels Z.eqb Z.leb ts))))
      (group_labels String.eqb String.leb fs).

(** One of the four steps before the write raises [e]. *)
Definition step_fails (w : World) (e : error) : Prop :=
  fetch_bmrs_fuelinst w 24 = Raise e \/
  (exists a, fetch_bmrs_fuelinst w 24 = OK a /\ fetch_neso_demand w 24 = Raise e) \/
  (exists a b,
      fetch_bmrs_fuelinst w 24 = OK a /\ fetch_neso_demand w 24 = OK b /\
      merge_datasets a b = Raise e) \/
  (exists a b m,
      fetch_bmrs_fuelinst w 24 = OK a /\ fetch_neso_demand w 24 = OK b /\
      merge_datasets a b = OK m /\ snd (process_merged m) = Raise e).

(** All four steps succeed, with [out] the table to write. *)
Definition steps_succeed (w : World) (out : DataFrame) : Prop :=
  exists a b m,
    fetch_bmrs_fuelinst w 24 = OK a /\ fetch_neso_demand w 24 = OK b /\
    merge_datasets a b = OK m /\ snd (process_merged m) = OK out.

(** The columns [fetch_neso_demand] keeps of the download, in its order. *)
Definition neso_columns : list string :=
  ["SETTLEMENT_DATE"; "SETTLEMENT_PERIOD";
   "EMBEDDED_WIND_GENERATION"; "EMBEDDED_SOLAR_GENERATION"].

(** The first source column, in the order [process_merged] reads them, that
    the table lacks. *)
Definition first_missing (df : DataFrame) : option string :=
  find (fun c => negb (is_ok (getitem df c))) source_columns.

(** [s[mask]] *)
Definition series_mask (m : list bool) (s : Series) : Series :=
  series_rows (@mask_filter m) s.

Definition fmap {A B : Type} (f : A -> B) (r : result A) : result B :=
  match r with
  | OK a => OK (f a)
  | Raise e => Raise e
  end.

(** Every column has [n] rows. *)
Definition rectangular (df : DataFrame) (n : nat) : Prop :=
  Forall (fun cs => series_len (snd cs) = n) df.

(** The entry in row [i] of column [c], when there is one. *)
Definition cell_at (df : DataFrame) (c : string) (i : nat) : option cell :=
  match getitem df c with
  | OK s => nth_error (series_cells s) i
  | Raise _ => None
  end.

(** On a frame of [n] rows, [c] leaves a frame of [n] rows, and what it
    returns satisfies [Q]. *)
Definition keeps {A : Type} (n : nat) (Q : A -> Prop) (c : Mut A) : Prop :=
  forall df,
    rectangular df n ->
    rectangular (fst (c df)) n /\ forall a, snd (c df) = OK a -> Q a.

(** ** Example data *)

Definition T0 : Z := 1704067200000000.

(** The row of the end-to-end scenario, as the merge hands it on. *)
Definition scenario_row : DataFrame :=
  [("timestamp", STime [T0]);
   ("BIOMASS", SFloat [3 # 1]%Q); ("CCGT", SFloat [200 # 1]%Q);
   ("COAL", SFloat [10 # 1]%Q); ("NPSHYD", SFloat [2 # 1]%Q);
   ("NUCLEAR", SFloat [400 # 1]%Q); ("OCGT", SFloat [50 # 1]%Q);
   ("OIL", SFloat [5 # 1]%Q); ("WIND", SFloat [100 # 1]%Q);
   ("EMBEDDED_WIND_GENERATION", SInt [20]);
   ("EMBEDDED_SOLAR_GENERATION", SInt [15])].

(** A half hour in which wind and hydro each averaged a sixth of a megawatt. *)
Definition sixths_row : DataFrame :=
  [("timestamp", STime [T0]);
   ("BIOMASS", SFloat [0 # 1]%Q); ("CCGT", SFloat [0 # 1]%Q);
   ("COAL", SFloat [0 # 1]%Q); ("NPSHYD", SFloat [1 # 6]%Q);
   ("NUCLEAR", SFloat [0 # 1]%Q); ("OCGT", SFloat [0 # 1]%Q);
   ("OIL", SFloat [0 # 1]%Q); ("WIND", SFloat [1 # 6]%Q);
   ("EMBEDDED_WIND_GENERATION", SInt [0]);
   ("EMBEDDED_SOLAR_GENERATION", SInt [0])].

(** A look-back window in which no oil-fired unit reported. *)
Definition no_oil_row : DataFrame :=
  [("timestamp", STime [T0]);
   ("BIOMASS", SFloat [3 # 1]%Q); ("CCGT", SFloat [200 # 1]%Q);
   ("COAL", SFloat [10 # 1]%Q); ("NPSHYD", SFloat [2 # 1]%Q);
   ("NUCLEAR", SFloat [400 # 1]%Q); ("OCGT", SFloat [50 # 1]%Q);
   ("WIND", SFloat [100 # 1]%Q);
   ("EMBEDDED_WIND_GENERATION", SInt [20]);
   ("EMBEDDED_SOLAR_GENERATION", SInt [15])].


Definition fuels (d p : Z) : list FuelInst :=
  [mkFuelInst d p "WIND" 100; mkFuelInst d p "CCGT" 200; mkFuelInst d p "OCGT" 50;
   mkFuelInst d p "COAL" 10; mkFuelInst d p "OIL" 5; mkFuelInst d p "NPSHYD" 2;
   mkFuelInst d p "BIOMASS" 3; mkFuelInst d p "NUCLEAR" 400].

Definition demand_csv (periods : list Z) : DataFrame :=
  [("ND", SInt (map (fun _ => 25000) periods));
   ("SETTLEMENT_DATE", STime (map (fun _ => T0) periods));
   ("SETTLEMENT_PERIOD", SInt periods);
   ("EMBEDDED_WIND_GENERATION", SInt (map (fun _ => 20) periods));
   ("EMBEDDED_SOLAR_GENERATION", SInt (map (fun _ => 15) periods))].

(** Both feeds report period 1 of the day; the run happens 45 minutes in. *)
Definition scenario_world : World :=
  mkWorld (T0 + 45 * minute)
          (fun _ _ => OK (mkResponse 200 (JSONArray (fuels T0 1))))
          (OK (demand_csv [1; 2; 3]))
          (T0 + 45 * minute).

(** Replies for an empty query window: the stream answers with an empty
    array. *)
Definition empty_stream_world : World :=
  mkWorld T0
          (fun _ _ => OK (mkResponse 200 (JSONArray [])))
          (OK (demand_csv [1; 2; 3]))
          (T0 + 30 * minute).

(** A run that starts exactly on a settlement-period boundary. *)
Definition on_the_boundary_world : World :=
  mkWorld T0
          (fun _ _ => OK (mkResponse 200 (JSONArray (fuels T0 1))))
          (OK (demand_csv [1; 2; 3]))
          (T0 + 30 * minute).


(** Readings for three consecutive half hours, and estimates for the three
    half hours that start one later. *)
Definition three_half_hours : DataFrame :=
  fuel_frame [mkFuelInst T0 1 "WIND" 100; mkFuelInst T0 2 "WIND" 110;
              mkFuelInst T0 3 "WIND" 120].

Definition later_demand : DataFrame :=
  demand_frame [T0; T0; T0] [2; 3; 4] (SInt [20; 21; 22]) (SInt [15; 16; 17]).

Definition old_csv : Csv := mkCsv ["timestamp"; "WIND"] [[CTime 0; CFloat (1 # 1)]].

Definition stale_env : Env :=
  mkEnv (fun p => if String.eqb p output_path then Some old_csv else None) [].

(** The two feeds report half hours that do not meet: the stream period 1,
    the estimates periods 2 and 3. *)
Definition disjoint_world : World :=
  mkWorld (T0 + 12 * hour)
          (fun _ _ => OK (mkResponse 200 (JSONArray (fuels T0 1))))
          (OK (demand_csv [2; 3]))
          (T0 + 12 * hour).

(** The stream is down: the request is answered with status 503. *)
Definition unavailable_world : World :=
  mkWorld (T0 + 45 * minute)
          (fun _ _ => OK (mkResponse 503 NotJSON))
          (Raise ParserError)
          (T0 + 45 * minute).

(** The stream reports yesterday, today and tomorrow morning; the estimates
    come with national demand and cover four half hours. *)
Definition three_days_world : World :=
  mkWorld (T0 + 45 * minute)
          (fun _ _ => OK (mkResponse 200 (JSONArray
             [mkFuelInst (T0 - 24 * hour) 1 "WIND" 90; mkFuelInst T0 1 "WIND" 100;
              mkFuelInst T0 2 "WIND" 110; mkFuelInst T0 3 "WIND" 120])))
          (OK (demand_csv [1; 2; 3; 4]))
          (T0 + 45 * minute).

(** The stream reports a period number far beyond any day's. *)
Definition far_period_world : World :=
  mkWorld (T0 + 45 * minute)
          (fun _ _ => OK (mkResponse 200 (JSONArray
             [mkFuelInst T0 1 "WIND" 100;
              mkFuelInst T0 307445734561825861 "WIND" 100])))
          (OK (demand_csv [1; 2; 3]))
          (T0 + 45 * minute).

(** A download without the two embedded-generation columns. *)
Definition no_embedded_world : World :=
  mkWorld (T0 + 45 * minute)
          (fun _ _ => OK (mkResponse 200 (JSONArray (fuels T0 1))))
          (OK [("SETTLEMENT_DATE", STime [T0]); ("SETTLEMENT_PERIOD", SInt [1]);
               ("ND", SInt [25000])])
          (T0 + 45 * minute).

(** A download that has lost its solar column. *)
Definition no_solar_world : World :=
  mkWorld (T0 + 45 * minute)
          (fun _ _ => OK (mkResponse 200 (JSONArray (fuels T0 1))))
          (OK [("SETTLEMENT_DATE", STime [T0]); ("SETTLEMENT_PERIOD", SInt [1]);
               ("EMBEDDED_WIND_GENERATION", SInt [20])])
          (T0 + 45 * minute).

(** No oil-fired unit reports in the look-back window. *)
Definition no_oil_world : World :=
  mkWorld (T0 + 45 * minute)
          (fun _ _ => OK (mkResponse 200 (JSONArray
             [mkFuelInst T0 1 "WIND" 100; mkFuelInst T0 1 "CCGT" 200;
              mkFuelInst T0 1 "OCGT" 50; mkFuelInst T0 1 "COAL" 10;
              mkFuelInst T0 1 "NPSHYD" 2; mkFuelInst T0 1 "BIOMASS" 3;
              mkFuelInst T0 1 "NUCLEAR" 400])))
          (OK (demand_csv [1; 2; 3]))
          (T0 + 45 * minute).

(** * Properties *)

(** ** Results and the state monad *)

Lemma bind_OK {A B : Type} (r : result A) (k : A -> result B) (b : B) :
  bind r k = OK b -> exists a, r = OK a /\ k a = OK b.
Proof.
  destruct r as [a|e]; simpl; intro H; [exists a; auto | discriminate].
Qed.

Ltac bind_inv H :=
  let x := fresh "x" in
  let Hx := fresh "Hx" in
  apply bind_OK in H; destruct H as (x & Hx & H).

(** ** Arithmetic of the number model *)

Lemma wrap64_small (z : Z) : - 2 ^ 63 <= z < 2 ^ 63 -> wrap64 z = z.
Proof.
  intro H. unfold wrap64. rewrite Z.mod_small; lia.
Qed.

Lemma fadd_correct (a b : Q) : (fadd a b == a + b)%Q.
Proof. apply Qred_correct. Qed.

Lemma rint_comp (p q : Q) : (p == q)%Q -> rint p = rint q.
Proof.
  intro H. unfold rint.
  rewrite (Qfloor_comp _ _ H).
  assert (E : (p - inject_Z (Qfloor q) ?= 1 # 2)%Q = (q - inject_Z (Qfloor q) ?= 1 # 2)%Q).
  { apply Qcompare_comp; [ rewrite H; reflexivity | reflexivity ]. }
  rewrite E. reflexivity.
Qed.

Lemma rint_Z (n : Z) : rint (inject_Z n) = n.
Proof.
  unfold rint. rewrite Qfloor_Z.
  assert (E : (inject_Z n - inject_Z n ?= 1 # 2)%Q = Lt).
  { rewrite <- Qlt_alt. setoid_replace (inject_Z n - inject_Z n)%Q with 0%Q by ring.
    reflexivity. }
  rewrite E. reflexivity.
Qed.


Lemma around2_Z (n : Z) : (around 2 (inject_Z n) == inject_Z n)%Q.
Proof.
  unfold around. rewrite Qred_correct.
  change (10 ^ Z.of_nat 2) with 100.
  rewrite (rint_comp (inject_Z n * inject_Z 100) (inject_Z (n * 100))).
  - rewrite rint_Z. rewrite inject_Z_mult. field.
  - rewrite inject_Z_mult. reflexivity.
Qed.

Lemma around2_two_decimals (q : Q) : two_decimals (around 2 q).
Proof.
  exists (rint (q * inject_Z 100)). unfold around.
  rewrite Qred_correct. change (10 ^ Z.of_nat 2) with 100.
  rewrite (Qmake_Qdiv (rint (q * inject_Z 100)) 100). reflexivity.
Qed.

Lemma Z_two_decimals (n : Z) : two_decimals (inject_Z n).
Proof.
  exists (n * 100). unfold Qeq. simpl. lia.
Qed.

Lemma rint_near (q : Q) :
  (inject_Z (rint q) - (1 # 2) <= q /\ q <= inject_Z (rint q) + (1 # 2))%Q.
Proof.
  unfold rint.
  pose proof (Qfloor_le q) as Lo. pose proof (Qlt_floor q) as Hi.
  rewrite inject_Z_plus in Hi. change (inject_Z 1) with 1%Q in Hi.
  destruct (Qcompare_spec (q - inject_Z (Qfloor q)) (1 # 2)) as [E|L|G].
  - destruct (Z.even (Qfloor q)).
    + split; lra.
    + rewrite inject_Z_plus. change (inject_Z 1) with 1%Q. split; lra.
  - split; lra.
  - rewrite inject_Z_plus. change (inject_Z 1) with 1%Q. split; lra.
Qed.

Lemma around2_near (q : Q) :
  (around 2 q - (1 # 200) <= q /\ q <= around 2 q + (1 # 200))%Q.
Proof.
  unfold around. change (10 ^ Z.of_nat 2) with 100.
  rewrite Qred_correct.
  destruct (rint_near (q * inject_Z 100)) as (Lo & Hi).
  change (inject_Z 100) with (100 # 1)%Q in *.
  setoid_replace (inject_Z (rint (q * (100 # 1))) / (100 # 1))%Q
    with (inject_Z (rint (q * (100 # 1))) * (1 # 100))%Q by (field).
  split; lra.
Qed.

(** ** Columns of a frame *)

Lemma getitem_cons (c : string) (s : Series) (rest : DataFrame) (k : string) :
  getitem ((c, s) :: rest) k = if String.eqb c k then OK s else getitem rest k.
Proof. reflexivity. Qed.

Lemma getitem_setitem_same (df : DataFrame) (k : string) (s : Series) :
  getitem (setitem df k s) k = OK s.
Proof.
  induction df as [|[c s0] rest IH]; simpl.
  - rewrite String.eqb_refl. reflexivity.
  - destruct (String.eqb c k) eqn:E; simpl; rewrite E; auto.
Qed.

Lemma getitem_setitem_other (df : DataFrame) (k k' : string) (s : Series) :
  k <> k' -> getitem (setitem df k s) k' = getitem df k'.
Proof.
  intro N. induction df as [|[c s0] rest IH]; simpl.
  - apply String.eqb_neq in N. rewrite N. reflexivity.
  - destruct (String.eqb c k) eqn:E; simpl.
    + apply String.eqb_eq in E. subst c.
      apply String.eqb_neq in N. rewrite N. reflexivity.
    + rewrite IH. reflexivity.
Qed.

Lemma getitem_df_round (d : nat) (df : DataFrame) (k : string) :
  getitem (df_round d df) k =
  match getitem df k with
  | OK s => OK (series_round d s)
  | Raise e => Raise e
  end.
Proof.
  induction df as [|[c s0] rest IH]; simpl; auto.
  destruct (String.eqb c k); auto.
Qed.

Lemma nth_error_zip_with {A B C : Type} (f : A -> B -> C) (x : list A) (y : list B) (i : nat) :
  nth_error (zip_with f x y) i =
  match nth_error x i, nth_error y i with
  | Some a, Some b => Some (f a b)
  | _, _ => None
  end.
Proof.
  revert y i. induction x as [|a x IH]; intros [|b y] [|i]; simpl; auto.
  destruct (nth_error x i); reflexivity.
Qed.

Lemma Forall_zip_with {A B C : Type} (f : A -> B -> C)
      (P : A -> Prop) (R : B -> Prop) (S : C -> Prop) (x : list A) (y : list B) :
  (forall a b, P a -> R b -> S (f a b)) ->
  Forall P x -> Forall R y -> Forall S (zip_with f x y).
Proof.
  intros H Hx. revert y. induction Hx as [|a x Pa Hx IH]; intros y Hy; simpl.
  - constructor.
  - destruct Hy as [|b y Rb Hy]; constructor; auto.
Qed.

(** ** Adding numeric columns *)

Lemma series_at_SInt (l : list Z) (i : nat) (x : Q) :
  series_at (SInt l) i = Some x ->
  exists u, nth_error l i = Some u /\ x = inject_Z u.
Proof.
  unfold series_at; simpl. rewrite nth_error_map.
  destruct (nth_error l i) as [u|]; simpl; intro H; inversion H. eauto.
Qed.

Lemma series_add_at (B1 B2 : Z) (a b : Series) :
  numeric B1 a -> numeric B2 b -> B1 + B2 < 2 ^ 63 ->
  exists s,
    series_add a b = OK s /\ numeric (B1 + B2) s /\
    forall i x y,
      series_at a i = Some x -> series_at b i = Some y ->
      exists z, series_at s i = Some z /\ (z == x + y)%Q.
Proof.
  intros Ha Hb HB.
  destruct a as [la|la|la|la]; try contradiction;
    destruct b as [lb|lb|lb|lb]; try contradiction; simpl in Ha, Hb; simpl;
      eexists; (split; [reflexivity|]).
  - split.
    + simpl. eapply Forall_zip_with; [|exact Ha|exact Hb].
      cbv beta. intros u v Hu Hv. rewrite wrap64_small; lia.
    + intros i x y Hx Hy.
      apply series_at_SInt in Hx. destruct Hx as (u & Hu & ->).
      apply series_at_SInt in Hy. destruct Hy as (v & Hv & ->).
      exists (inject_Z (u + v)). split.
      * unfold series_at; simpl. rewrite nth_error_map, nth_error_zip_with, Hu, Hv.
        simpl. rewrite wrap64_small; [reflexivity|].
        apply nth_error_In in Hu, Hv.
        rewrite Forall_forall in Ha, Hb. specialize (Ha _ Hu). specialize (Hb _ Hv).
        cbv beta in Ha, Hb. lia.
      * rewrite inject_Z_plus. reflexivity.
  - split; [exact I|]. intros i x y Hx Hy.
    unfold series_at in *; simpl in *.
    exists (fadd x y). rewrite nth_error_zip_with, Hx, Hy.
    split; [reflexivity | apply fadd_correct].
  - split; [exact I|]. intros i x y Hx Hy.
    unfold series_at in *; simpl in *.
    exists (fadd x y). rewrite nth_error_zip_with, Hx, Hy.
    split; [reflexivity | apply fadd_correct].
  - split; [exact I|]. intros i x y Hx Hy.
    unfold series_at in *; simpl in *.
    exists (fadd x y). rewrite nth_error_zip_with, Hx, Hy.
    split; [reflexivity | apply fadd_correct].
Qed.

Lemma series_round_at (s : Series) (i : nat) (z : Q) :
  series_at s i = Some z ->
  exists z', series_at (series_round 2 s) i = Some z' /\ (z' == around 2 z)%Q.
Proof.
  destruct s as [l|l|l|l]; simpl; intro H; try discriminate.
  - exists z. split; [exact H|].
    apply series_at_SInt in H. destruct H as (u & _ & ->).
    symmetry. apply around2_Z.
  - exists (around 2 z). split; [|reflexivity].
    unfold series_at in *; simpl in *. rewrite nth_error_map, H. reflexivity.
Qed.

(** ** process_merged *)

Ltac frame :=
  repeat first
    [ progress cbv beta iota
    | rewrite getitem_setitem_same
    | rewrite getitem_setitem_other by discriminate
    | match goal with
      | H : getitem _ _ = OK _ |- _ => rewrite H
      | H : series_add _ _ = OK _ |- _ => rewrite H
      end ].


Ltac sum B1 B2 a b Na Nb s A N R :=
  let HB := fresh "HB" in
  assert (HB : B1 + B2 < 2 ^ 63) by lia;
  destruct (series_add_at B1 B2 a b Na Nb HB) as (s & A & N & R); clear HB.




Lemma setitem_cons_other (c k : string) (s s' : Series) (rest : DataFrame) :
  c <> k -> setitem ((c, s) :: rest) k s' = (c, s) :: setitem rest k s'.
Proof.
  intro N. simpl. apply String.eqb_neq in N. rewrite N. reflexivity.
Qed.

Lemma process_merged_state (df out : DataFrame) :
  snd (process_merged df) = OK out ->
  exists tw tg tr tf tl,
    fst (process_merged df) =
    setitem (setitem (setitem (setitem (setitem df
      "TOTAL_WIND" tw) "TOTAL_GAS" tg) "TOTAL_RENEWABLE" tr)
      "TOTAL_FOSSIL_FUELS" tf) "TOTAL_LOW_CARBON" tl.
Proof.
  unfold process_merged, add2, add3, mbind, col, lift, assign, rounded.
  repeat match goal with
         | |- context [match ?r with OK _ => _ | Raise _ => _ end] =>
             destruct r; cbv beta iota; try (simpl; discriminate)
         end.
  simpl. intros _. eexists _, _, _, _, _. reflexivity.
Qed.

Lemma process_merged_returns_rounded (df out : DataFrame) :
  snd (process_merged df) = OK out -> out = df_round 2 (fst (process_merged df)).
Proof.
  unfold process_merged, add2, add3, mbind, col, lift, assign, rounded.
  repeat match goal with
         | |- context [match ?r with OK _ => _ | Raise _ => _ end] =>
             destruct r; cbv beta iota; try (simpl; discriminate)
         end.
  simpl. intro H. inversion H. reflexivity.
Qed.

Lemma series_round_cell (s : Series) (j : nat) (x : cell) (v : Q) :
  nth_error (series_cells (series_round 2 s)) j = Some x ->
  cell_num x = Some v -> two_decimals v.
Proof.
  destruct s as [l|l|l|l]; simpl; rewrite ?nth_error_map.
  - destruct (nth_error l j); simpl; intros H1 H2; inversion H1; subst x.
    inversion H2. apply Z_two_decimals.
  - destruct (nth_error l j); simpl; intros H1 H2; inversion H1; subst x.
    inversion H2. apply around2_two_decimals.
  - destruct (nth_error l j); simpl; intros H1 H2; inversion H1; subst x. discriminate.
  - destruct (nth_error l j); simpl; intros H1 H2; inversion H1; subst x. discriminate.
Qed.

Lemma series_round_two_decimals (s : Series) (i : nat) (v : Q) :
  series_at (series_round 2 s) i = Some v -> two_decimals v.
Proof.
  destruct s as [l|l|l|l]; simpl; intro H; try discriminate.
  - apply series_at_SInt in H. destruct H as (u & _ & ->). apply Z_two_decimals.
  - unfold series_at in H; simpl in H. rewrite nth_error_map in H.
    destruct (nth_error l i); inversion H. apply around2_two_decimals.
Qed.

Lemma In_df_round (d : nat) (df : DataFrame) (cs : string * Series) :
  In cs (df_round d df) -> exists s, snd cs = series_round d s.
Proof.
  unfold df_round. rewrite in_map_iff. intros (x & <- & _). simpl. eauto.
Qed.





Ltac run_merged :=
  unfold process_merged, add2, add3, mbind, col, lift, assign, rounded.

Ltac step_merged :=
  repeat (cbv beta iota;
          repeat rewrite getitem_setitem_same;
          repeat rewrite getitem_setitem_other by discriminate;
          match goal with
          | |- context [match getitem ?d ?k with OK _ => _ | Raise _ => _ end] =>
              destruct (getitem d k) eqn:?
          | |- context [match series_add ?a ?b with OK _ => _ | Raise _ => _ end] =>
              destruct (series_add a b) eqn:?
          end).

Lemma process_merged_other_columns (df : DataFrame) (c : string) :
  ~ In c total_columns ->
  getitem (fst (process_merged df)) c = getitem df c.
Proof.
  intro H. simpl in H.
  assert (N1 : "TOTAL_WIND" <> c) by tauto.
  assert (N2 : "TOTAL_GAS" <> c) by tauto.
  assert (N3 : "TOTAL_RENEWABLE" <> c) by tauto.
  assert (N4 : "TOTAL_FOSSIL_FUELS" <> c) by tauto.
  assert (N5 : "TOTAL_LOW_CARBON" <> c) by tauto.
  run_merged. step_merged; cbv beta iota; simpl fst;
    repeat first [ rewrite (getitem_setitem_other _ _ c _ N1)
                 | rewrite (getitem_setitem_other _ _ c _ N2)
                 | rewrite (getitem_setitem_other _ _ c _ N3)
                 | rewrite (getitem_setitem_other _ _ c _ N4)
                 | rewrite (getitem_setitem_other _ _ c _ N5) ];
    reflexivity.
Qed.

Lemma series_round_from (s : Series) (i : nat) (z' : Q) :
  series_at (series_round 2 s) i = Some z' ->
  exists z, series_at s i = Some z /\ (z' == around 2 z)%Q.
Proof.
  destruct s as [l|l|l|l]; simpl; intro H; try discriminate.
  - exists z'. split; [exact H|].
    apply series_at_SInt in H. destruct H as (u & _ & ->).
    symmetry. apply around2_Z.
  - unfold series_at in *; simpl in *. rewrite nth_error_map in H.
    destruct (nth_error l i) as [z|]; [|discriminate].
    inversion H. exists z. split; reflexivity.
Qed.

(** C5.  Rounding to 2 decimals is the last thing [process_merged] does: what
    it returns is the rounded copy of the table it built.  Every numeric
    value of that table comes back as a whole number of hundredths at most
    half a hundredth away from it, and the returned table has no other
    numeric value; outside the five aggregates the table built holds the
    values of the input.  So every numeric value returned, and written to the
    CSV, has at most 2 decimal digits. *)
Theorem process_merged_two_decimals (df out : DataFrame) :
  snd (process_merged df) = OK out ->
  out = df_round 2 (fst (process_merged df)) /\
  (forall c i v,
      num_at (fst (process_merged df)) c i = Some v ->
      exists v',
        num_at out c i = Some v' /\ two_decimals v' /\
        (v' - (1 # 200) <= v <= v' + (1 # 200))%Q) /\
  (forall c i v',
      num_at out c i = Some v' ->
      two_decimals v' /\
      exists v,
        num_at (fst (process_merged df)) c i = Some v /\
        (v' - (1 # 200) <= v <= v' + (1 # 200))%Q) /\
  (forall c i, ~ In c total_columns ->
               num_at (fst (process_merged df)) c i = num_at df c i) /\
  (forall r x v,
      In r (records (csv_of out)) -> In x r -> cell_num x = Some v -> two_decimals v).
Proof.
  intro H. apply process_merged_returns_rounded in H.
  split; [exact H|].
  split; [|split; [|split]].
  - rewrite H. intros c i v. unfold num_at. rewrite getitem_df_round.
    destruct (getitem (fst (process_merged df)) c) as [s|]; [|discriminate].
    intro V. destruct (series_round_at s i v V) as (v' & V' & E).
    exists v'. split; [exact V'|]. split.
    + eapply series_round_two_decimals; eauto.
    + rewrite E. apply around2_near.
  - rewrite H. intros c i v'. unfold num_at. rewrite getitem_df_round.
    destruct (getitem (fst (process_merged df)) c) as [s|]; [|discriminate].
    intro V'. split; [eapply series_round_two_decimals; eauto|].
    destruct (series_round_from s i v' V') as (v & V & E).
    exists v. split; [exact V|]. rewrite E. apply around2_near.
  - intros c i Hc. unfold num_at.
    rewrite (process_merged_other_columns df c Hc). reflexivity.
  - rewrite H. generalize (fst (process_merged df)). intro df'.
    intros r x v Hr Hx Hv. unfold csv_of in Hr; simpl in Hr.
    apply in_map_iff in Hr. destruct Hr as (j & <- & _).
    unfold row_at in Hx. apply in_flat_map in Hx. destruct Hx as (cs & Hcs & Hx).
    apply In_df_round in Hcs. destruct Hcs as (s & Es). rewrite Es in Hx.
    destruct (nth_error (series_cells (series_round 2 s)) j) as [y|] eqn:E;
      [|contradiction].
    destruct Hx as [<-|[]]. eapply series_round_cell; eauto.
Qed.

Lemma process_merged_two_decimals_witness :
  exists out v',
    snd (process_merged sixths_row) = OK out /\
    num_at sixths_row "WIND" 0 = Some (1 # 6)%Q /\
    num_at out "WIND" 0 = Some v' /\
    v' = (17 # 100)%Q /\
    two_decimals v' /\
    (v' - (1 # 200) <= 1 # 6 <= v' + (1 # 200))%Q.
Proof.
  destruct (process_merged_two_decimals sixths_row _ eq_refl) as (_ & Round & _).
  destruct (Round "WIND" 0%nat (1 # 6)%Q eq_refl) as (v' & V' & T & B).
  eexists. exists v'. split; [reflexivity|]. split; [reflexivity|].
  split; [exact V'|]. split; [|split; [exact T | exact B]].
  vm_compute in V'. inversion V'. reflexivity.
Defined.




(** ** The timestamp column *)

Lemma stamp_of_period (d p : Z) :
  1 <= p <= 48 -> stamp_of d p = d + (p - 1) * (30 * minute).
Proof.
  intro H. unfold stamp_of.
  rewrite (wrap64_small (p - 1)) by lia.
  rewrite wrap64_small by lia.
  unfold minute. lia.
Qed.

Lemma zip_with_offsets (D P : list Z) :
  zip_with Z.add D
    (map (fun z => z * minute)
       (map (fun z => wrap64 (z * 30)) (map (fun z => wrap64 (z - 1)) P)))
  = zip_with stamp_of D P.
Proof.
  revert P. induction D as [|d D IH]; intros [|p P]; simpl; auto.
  rewrite IH. reflexivity.
Qed.

Lemma forallb_of_map {A B : Type} (f : B -> bool) (g : A -> B) (l : list A) :
  forallb f (map g l) = forallb (fun x => f (g x)) l.
Proof.
  induction l as [|a l IH]; simpl; [reflexivity|]. rewrite IH. reflexivity.
Qed.

Lemma forallb_offsets (P : list Z) :
  forallb (fun z => in_int64_ns (z * minute))
          (map (fun z => wrap64 (z * 30)) (map (fun z => wrap64 (z - 1)) P))
  = forallb offset_ok P.
Proof.
  rewrite !forallb_of_map. reflexivity.
Qed.

Lemma in_int64_ns_spec (t : Z) :
  in_int64_ns t = true <-> - 9223372036854775 <= t <= 9223372036854775.
Proof.
  unfold in_int64_ns. rewrite andb_true_iff, !Z.leb_le.
  change (2 ^ 63 - 1) with 9223372036854775807. lia.
Qed.

Lemma period_in_range (d p : Z) :
  date_ok d -> 1 <= p <= 48 -> period_ok p = true /\ stamp_ok d p = true.
Proof.
  intros Hd Hp. unfold period_ok, stamp_ok, offset_ok, int64.
  rewrite (stamp_of_period d p Hp).
  rewrite (wrap64_small (p - 1)) by lia.
  rewrite wrap64_small by lia.
  rewrite !andb_true_iff, !in_int64_ns_spec, Z.leb_le, Z.ltb_lt.
  unfold date_ok, hour, minute in *. lia.
Qed.

Lemma midnight_date_ok (d : Z) :
  d mod (24 * hour) = 0 -> in_int64_ns d = true -> date_ok d.
Proof.
  intros M H. apply in_int64_ns_spec in H.
  apply Z.mod_divide in M; [|unfold hour, minute; lia].
  destruct M as (k & ->). unfold date_ok, hour, minute in *. lia.
Qed.

Lemma row_ok_offsets (l : list FuelInst) :
  forallb row_ok l = true ->
  forallb offset_ok (map settlementPeriod l) = true /\
  forallb in_int64_ns (map stamp l) = true.
Proof.
  rewrite !forallb_forall. intro H. split.
  - intros p Hp. apply in_map_iff in Hp. destruct Hp as (x & <- & Hx).
    specialize (H x Hx). unfold row_ok, period_ok in H.
    rewrite !andb_true_iff in H. tauto.
  - intros t Ht. apply in_map_iff in Ht. destruct Ht as (x & <- & Hx).
    specialize (H x Hx). unfold row_ok, stamp_ok in H.
    rewrite !andb_true_iff in H. tauto.
Qed.

Lemma columns_ok_offsets (D P : list Z) :
  columns_ok D P = true ->
  forallb offset_ok P = true /\ forallb in_int64_ns (zip_with stamp_of D P) = true.
Proof.
  unfold columns_ok. rewrite !andb_true_iff. intros ((Hp & _) & Hs).
  split; [|exact Hs].
  rewrite forallb_forall in *. intros p Hi. specialize (Hp p Hi).
  unfold period_ok in Hp. rewrite andb_true_iff in Hp. tauto.
Qed.

Lemma zip_with_stamp (l : list FuelInst) :
  zip_with stamp_of (map settlementDate l) (map settlementPeriod l) = map stamp l.
Proof.
  induction l as [|r l IH]; simpl; auto. rewrite IH. reflexivity.
Qed.

Lemma add_timestamp_run (df : DataFrame) (date period : string) (D P : list Z) :
  getitem df date = OK (STime D) ->
  getitem df period = OK (SInt P) ->
  forallb offset_ok P = true ->
  forallb in_int64_ns (zip_with stamp_of D P) = true ->
  add_timestamp df date period = OK (setitem df "timestamp" (STime (zip_with stamp_of D P))).
Proof.
  intros HD HP Hp Hs. unfold add_timestamp. rewrite HD, HP.
  cbv beta iota delta [bind series_sub_int series_mul_int to_timedelta_minutes].
  rewrite forallb_offsets, Hp.
  cbv beta iota delta [bind datetime_add].
  rewrite zip_with_offsets, Hs. reflexivity.
Qed.

Lemma mask_filter_zip_with {A B C : Type} (f : A -> B -> C) (m : list bool)
      (x : list A) (y : list B) :
  mask_filter m (zip_with f x y) = zip_with f (mask_filter m x) (mask_filter m y).
Proof.
  revert x y. induction m as [|b m IH]; intros [|a x] [|c y]; simpl; auto.
  - destruct b; simpl; auto. destruct (mask_filter m x); reflexivity.
  - destruct b; simpl; rewrite IH; reflexivity.
Qed.

Lemma mask_filter_pred {A : Type} (p : A -> bool) (l : list A) :
  mask_filter (map p l) l = filter p l.
Proof.
  induction l as [|a l IH]; simpl; auto.
  rewrite IH. reflexivity.
Qed.

Lemma getitem_df_mask (df : DataFrame) (m : list bool) (k : string) :
  getitem (df_mask df m) k =
  match getitem df k with
  | OK s => OK (series_rows (@mask_filter m) s)
  | Raise e => Raise e
  end.
Proof.
  induction df as [|[c s0] rest IH]; simpl; auto.
  destruct (String.eqb c k); auto.
Qed.

(** ** The window *)

Lemma days_of_hours (hours : Z) : timedelta_hours hours / (24 * hour) = hours / 24.
Proof.
  unfold timedelta_hours. apply Z.div_mul_cancel_r; [lia | unfold hour, minute; lia].
Qed.

Lemma window_start_run (now hours : Z) :
  - 999999999 <= hours / 24 <= 999999999 ->
  datetime_min <= now - timedelta_hours hours <= datetime_max ->
  window_start now hours = OK (now - timedelta_hours hours).
Proof.
  intros Hd Hs. unfold window_start, timedelta. cbv zeta. rewrite days_of_hours.
  destruct Hd as (Hd1 & Hd2). apply Z.leb_le in Hd1, Hd2. rewrite Hd1, Hd2. simpl.
  unfold datetime_sub.
  destruct Hs as (Hs1 & Hs2). apply Z.leb_le in Hs1, Hs2. rewrite Hs1, Hs2. reflexivity.
Qed.

Lemma window_start_raise (now hours : Z) :
  ~ (- 999999999 <= hours / 24 <= 999999999 /\
     datetime_min <= now - timedelta_hours hours <= datetime_max) ->
  window_start now hours = Raise OverflowError.
Proof.
  intro N. unfold window_start, timedelta. cbv zeta. rewrite days_of_hours.
  destruct (Z.leb_spec (- 999999999) (hours / 24)); simpl; [|reflexivity].
  destruct (Z.leb_spec (hours / 24) 999999999); simpl; [|reflexivity].
  unfold datetime_sub.
  destruct (Z.leb_spec datetime_min (now - timedelta_hours hours)); simpl; [|reflexivity].
  destruct (Z.leb_spec (now - timedelta_hours hours) datetime_max); simpl; [|reflexivity].
  exfalso. apply N. lia.
Qed.

Lemma window_start_inv (now hours start : Z) :
  window_start now hours = OK start ->
  start = now - timedelta_hours hours /\
  - 999999999 <= hours / 24 <= 999999999 /\
  datetime_min <= start <= datetime_max.
Proof.
  intro H.
  destruct (Z_le_dec (- 999999999) (hours / 24)) as [H1|N];
    [|rewrite window_start_raise in H by tauto; discriminate].
  destruct (Z_le_dec (hours / 24) 999999999) as [H2|N];
    [|rewrite window_start_raise in H by tauto; discriminate].
  destruct (Z_le_dec datetime_min (now - timedelta_hours hours)) as [H3|N];
    [|rewrite window_start_raise in H by tauto; discriminate].
  destruct (Z_le_dec (now - timedelta_hours hours) datetime_max) as [H4|N];
    [|rewrite window_start_raise in H by tauto; discriminate].
  rewrite window_start_run in H by tauto. inversion H. tauto.
Qed.

(** A clock and a window start that pandas holds are within what Python
    computes. *)
Lemma window_start_pandas (now hours : Z) :
  in_int64_ns now = true ->
  in_int64_ns (now - timedelta_hours hours) = true ->
  window_start now hours = OK (now - timedelta_hours hours).
Proof.
  rewrite !in_int64_ns_spec. intros Hn Hs.
  assert (B : - 5200000 <= hours <= 5200000)
    by (unfold timedelta_hours, hour, minute in Hs; lia).
  apply window_start_run.
  - split.
    + apply Z.div_le_lower_bound; lia.
    + apply Z.div_le_upper_bound; lia.
  - unfold datetime_min, datetime_max. lia.
Qed.

(** ** The fetchers on a well-formed reply *)

Lemma mask_filter_map {A B C : Type} (p : B -> bool) (g : A -> B) (f : A -> C) (l : list A) :
  mask_filter (map p (map g l)) (map f l) = map f (filter (fun r => p (g r)) l).
Proof.
  induction l as [|a l IH]; simpl; auto.
  destruct (p (g a)); simpl; rewrite IH; reflexivity.
Qed.

Lemma in_window_fuel_frame (l : list FuelInst) (start now : Z) :
  in_window (fuel_frame l) start now =
  OK (fuel_frame (filter (fun x => (start <=? stamp x) && (stamp x <=? now)) l)).
Proof.
  unfold in_window, fuel_frame. simpl. unfold df_mask. simpl.
  set (p := fun t => (start <=? t) && (t <=? now)).
  rewrite !(mask_filter_map p stamp).
  reflexivity.
Qed.

(** What [fetch_bmrs_fuelinst] does with the objects of a reply, once they
    are a frame. *)
Lemma stamp_records (l : list FuelInst) (start now : Z) :
  (let df := [("settlementDate", STime (map settlementDate l));
              ("settlementPeriod", SInt (map settlementPeriod l));
              ("fuelType", SStr (map fuelType l));
              ("generation", SInt (map generation l))] in
   sd <- getitem df "settlementDate" ;;
   sd <- to_datetime sd ;;
   let df := setitem df "settlementDate" sd in
   df <- add_timestamp df "settlementDate" "settlementPeriod" ;;
   in_window df start now)%result
  = if forallb offset_ok (map settlementPeriod l)
    then if forallb in_int64_ns (map stamp l)
         then OK (fuel_frame (filter (fun x => (start <=? stamp x) && (stamp x <=? now)) l))
         else Raise OverflowError
    else Raise OutOfBoundsTimedelta.
Proof.
  cbv zeta. simpl getitem. cbv beta iota delta [bind to_datetime]. simpl setitem.
  unfold add_timestamp. simpl getitem. cbv beta iota delta [bind series_sub_int series_mul_int].
  unfold to_timedelta_minutes. rewrite forallb_offsets.
  destruct (forallb offset_ok (map settlementPeriod l)); [|reflexivity].
  cbv beta iota delta [bind datetime_add].
  rewrite zip_with_offsets, zip_with_stamp.
  destruct (forallb in_int64_ns (map stamp l)); [|reflexivity].
  cbv beta iota. apply in_window_fuel_frame.
Qed.

Lemma fetch_bmrs_fuelinst_reply (w : World) (hours start : Z) (resp : Response)
      (r : FuelInst) (rs : list FuelInst) :
  let now := bmrs_now w in
  window_start now hours = OK start ->
  bmrs_get w (strftime_seconds start) (strftime_seconds now) = OK resp ->
  raise_for_status resp = OK tt ->
  body resp = JSONArray (r :: rs) ->
  fetch_bmrs_fuelinst w hours
  = if forallb offset_ok (map settlementPeriod (r :: rs))
    then if forallb in_int64_ns (map stamp (r :: rs))
         then OK (fuel_frame (filter (fun x => (start <=? stamp x) && (stamp x <=? now))
                                     (r :: rs)))
         else Raise OverflowError
    else Raise OutOfBoundsTimedelta.
Proof.
  intros now Hstart Hget Hst Hbody.
  unfold fetch_bmrs_fuelinst. fold now.
  rewrite Hstart. cbv beta iota delta [bind]. rewrite Hget.
  cbv beta iota delta [bind]. rewrite Hst.
  unfold json. rewrite Hbody. cbv beta iota.
  exact (stamp_records (r :: rs) start now).
Qed.

Lemma fetch_bmrs_fuelinst_run (w : World) (hours start : Z) (resp : Response)
      (r : FuelInst) (rs : list FuelInst) :
  let now := bmrs_now w in
  window_start now hours = OK start ->
  bmrs_get w (strftime_seconds start) (strftime_seconds now) = OK resp ->
  raise_for_status resp = OK tt ->
  body resp = JSONArray (r :: rs) ->
  forallb row_ok (r :: rs) = true ->
  fetch_bmrs_fuelinst w hours =
  OK (fuel_frame (filter (fun x => (start <=? stamp x) && (stamp x <=? now)) (r :: rs))).
Proof.
  intros now Hstart Hget Hst Hbody Hok.
  destruct (row_ok_offsets _ Hok) as (Hp & Hs).
  rewrite (fetch_bmrs_fuelinst_reply w hours start resp r rs Hstart Hget Hst Hbody).
  rewrite Hp, Hs. reflexivity.
Qed.

Lemma fetch_bmrs_fuelinst_inv (w : World) (hours : Z) (df : DataFrame) :
  fetch_bmrs_fuelinst w hours = OK df ->
  exists resp r rs,
    window_start (bmrs_now w) hours = OK (bmrs_now w - timedelta_hours hours) /\
    bmrs_get w (strftime_seconds (bmrs_now w - timedelta_hours hours))
               (strftime_seconds (bmrs_now w)) = OK resp /\
    raise_for_status resp = OK tt /\
    body resp = JSONArray (r :: rs) /\
    forallb offset_ok (map settlementPeriod (r :: rs)) = true /\
    forallb in_int64_ns (map stamp (r :: rs)) = true /\
    df = fuel_frame (filter (fun x => (bmrs_now w - timedelta_hours hours <=? stamp x)
                                      && (stamp x <=? bmrs_now w)) (r :: rs)).
Proof.
  intro H. pose proof H as H0. unfold fetch_bmrs_fuelinst in H0.
  destruct (window_start (bmrs_now w) hours) as [start|e] eqn:Hs; [|discriminate].
  destruct (window_start_inv _ _ _ Hs) as (E & _). subst start.
  cbv beta iota delta [bind] in H0.
  destruct (bmrs_get w _ _) as [resp|e] eqn:Hget; [|discriminate].
  cbv beta iota delta [bind] in H0.
  destruct (raise_for_status resp) as [[]|e] eqn:S; [|discriminate].
  cbv beta iota delta [bind] in H0.
  unfold json in H0. destruct (body resp) as [|data] eqn:B; [discriminate|].
  cbv beta iota delta [bind] in H0.
  destruct data as [|r rs]; [discriminate|]. clear H0.
  exists resp, r, rs.
  rewrite (fetch_bmrs_fuelinst_reply w hours _ resp r rs Hs Hget S B) in H.
  destruct (forallb offset_ok _); [|discriminate].
  destruct (forallb in_int64_ns _); [|discriminate].
  injection H as <-. repeat split; auto.
Qed.

Lemma fetch_bmrs_fuelinst_stamped (w : World) (hours : Z) (df : DataFrame) :
  fetch_bmrs_fuelinst w hours = OK df -> stamped df "settlementDate" "settlementPeriod".
Proof.
  intro H.
  destruct (fetch_bmrs_fuelinst_inv w hours df H)
    as (_ & r & rs & _ & _ & _ & _ & _ & _ & ->).
  eexists _, _. simpl. rewrite zip_with_stamp. auto.
Qed.

(** ** The download *)

Lemma select_run (df : DataFrame) (keys : list string) :
  missing_columns df keys = [] -> select df keys = OK (columns_of df keys).
Proof.
  unfold select. intros ->. reflexivity.
Qed.

Lemma select_raise (df : DataFrame) (keys : list string) :
  missing_columns df keys <> [] ->
  select df keys = Raise (KeyErrorNotInIndex (missing_columns df keys)).
Proof.
  unfold select. destruct (missing_columns df keys); [congruence | reflexivity].
Qed.

Lemma select_four (df out : DataFrame) (a b c d : string) :
  select df [a; b; c; d] = OK out ->
  exists sa sb sc sd,
    out = [(a, sa); (b, sb); (c, sc); (d, sd)] /\
    getitem df a = OK sa /\ getitem df b = OK sb /\
    getitem df c = OK sc /\ getitem df d = OK sd.
Proof.
  intro H.
  destruct (missing_columns df [a; b; c; d]) as [|k ks] eqn:M.
  - rewrite (select_run _ _ M) in H. inversion H; subst out; clear H.
    unfold missing_columns in M. simpl in M. simpl.
    destruct (getitem df a) as [sa|]; simpl in M; [|discriminate].
    destruct (getitem df b) as [sb|]; simpl in M; [|discriminate].
    destruct (getitem df c) as [sc|]; simpl in M; [|discriminate].
    destruct (getitem df d) as [sd|]; simpl in M; [|discriminate].
    exists sa, sb, sc, sd. auto.
  - rewrite select_raise in H by (rewrite M; discriminate). discriminate.
Qed.

(** What [fetch_neso_demand] does with the four columns it has selected. *)
Lemma stamp_demand (D P : list Z) (wind solar : Series) (now hours : Z) :
  (let df := [("SETTLEMENT_DATE", STime D); ("SETTLEMENT_PERIOD", SInt P);
              ("EMBEDDED_WIND_GENERATION", wind); ("EMBEDDED_SOLAR_GENERATION", solar)] in
   sd <- getitem df "SETTLEMENT_DATE" ;;
   sd <- to_datetime sd ;;
   let df := setitem df "SETTLEMENT_DATE" sd in
   df <- add_timestamp df "SETTLEMENT_DATE" "SETTLEMENT_PERIOD" ;;
   start <- window_start now hours ;;
   in_window df start now)%result
  = if forallb offset_ok P
    then if forallb in_int64_ns (zip_with stamp_of D P)
         then (start <- window_start now hours ;;
               OK (df_mask (demand_frame D P wind solar)
                           (map (fun t => (start <=? t) && (t <=? now))
                                (zip_with stamp_of D P))))%result
         else Raise OverflowError
    else Raise OutOfBoundsTimedelta.
Proof.
  cbv zeta. simpl getitem. cbv beta iota delta [bind to_datetime]. simpl setitem.
  unfold add_timestamp. simpl getitem. cbv beta iota delta [bind series_sub_int series_mul_int].
  unfold to_timedelta_minutes. rewrite forallb_offsets.
  destruct (forallb offset_ok P); [|reflexivity].
  cbv beta iota delta [bind datetime_add].
  rewrite zip_with_offsets.
  destruct (forallb in_int64_ns (zip_with stamp_of D P)); [|reflexivity].
  cbv beta iota. destruct (window_start now hours); reflexivity.
Qed.

Lemma fetch_neso_demand_run (w : World) (hours start : Z) (csv : DataFrame)
      (D P : list Z) (wind solar : Series) :
  let now := neso_now w in
  neso_read_csv w = OK csv ->
  getitem csv "SETTLEMENT_DATE" = OK (STime D) ->
  getitem csv "SETTLEMENT_PERIOD" = OK (SInt P) ->
  getitem csv "EMBEDDED_WIND_GENERATION" = OK wind ->
  getitem csv "EMBEDDED_SOLAR_GENERATION" = OK solar ->
  columns_ok D P = true ->
  window_start now hours = OK start ->
  fetch_neso_demand w hours =
  OK (df_mask (demand_frame D P wind solar)
              (map (fun t => (start <=? t) && (t <=? now)) (zip_with stamp_of D P))).
Proof.
  intros now Hcsv HD HP HW HS Hok Hstart.
  destruct (columns_ok_offsets D P Hok) as (Hp & Hs).
  unfold fetch_neso_demand. fold now.
  rewrite Hcsv. cbv beta iota delta [bind].
  rewrite select_run
    by (unfold missing_columns; simpl; rewrite HD, HP, HW, HS; reflexivity).
  simpl columns_of. rewrite HD, HP, HW, HS.
  etransitivity; [exact (stamp_demand D P wind solar now hours)|].
  rewrite Hp, Hs, Hstart. reflexivity.
Qed.

Lemma fetch_neso_demand_inv (w : World) (hours : Z) (df : DataFrame) :
  fetch_neso_demand w hours = OK df ->
  exists csv D P wind solar,
    neso_read_csv w = OK csv /\
    getitem csv "SETTLEMENT_DATE" = OK (STime D) /\
    getitem csv "SETTLEMENT_PERIOD" = OK (SInt P) /\
    getitem csv "EMBEDDED_WIND_GENERATION" = OK wind /\
    getitem csv "EMBEDDED_SOLAR_GENERATION" = OK solar /\
    df = df_mask (demand_frame D P wind solar)
                 (map (fun t => (neso_now w - timedelta_hours hours <=? t)
                                && (t <=? neso_now w))
                      (zip_with stamp_of D P)) /\
    forallb offset_ok P = true /\
    forallb in_int64_ns (zip_with stamp_of D P) = true /\
    window_start (neso_now w) hours = OK (neso_now w - timedelta_hours hours).
Proof.
  unfold fetch_neso_demand. intro H.
  destruct (neso_read_csv w) as [csv|e]; [|discriminate].
  cbv beta iota delta [bind] in H.
  destruct (select csv _) as [sel|e] eqn:S; [|discriminate].
  apply select_four in S.
  destruct S as (sa & sb & sc & sd & -> & Ga & Gb & Gc & Gd).
  destruct sa as [l|l|D|l]; try discriminate.
  destruct sb as [P|l|l|l]; try discriminate.
  + pose proof (stamp_demand D P sc sd (neso_now w) hours) as E.
    assert (H' : (if forallb offset_ok P
                  then if forallb in_int64_ns (zip_with stamp_of D P)
                       then (start <- window_start (neso_now w) hours ;;
                             OK (df_mask (demand_frame D P sc sd)
                                         (map (fun t => (start <=? t) && (t <=? neso_now w))
                                              (zip_with stamp_of D P))))%result
                       else Raise OverflowError
                  else Raise OutOfBoundsTimedelta) = OK df)
      by (rewrite <- E; exact H).
    clear H E. rename H' into H.
    destruct (forallb offset_ok P) eqn:Hp; [|discriminate].
    destruct (forallb in_int64_ns _) eqn:Hi; [|discriminate].
    destruct (window_start (neso_now w) hours) as [start|e] eqn:Hs; [|discriminate].
    destruct (window_start_inv _ _ _ Hs) as (E & _). subst start.
    cbv beta iota delta [bind] in H. injection H as <-.
    exists csv, D, P, sc, sd. repeat split; auto.
Qed.

Lemma fetch_neso_demand_stamped (w : World) (hours : Z) (df : DataFrame) :
  fetch_neso_demand w hours = OK df -> stamped df "SETTLEMENT_DATE" "SETTLEMENT_PERIOD".
Proof.
  intro H.
  destruct (fetch_neso_demand_inv w hours df H)
    as (csv & D & P & wind & solar & _ & _ & _ & _ & _ & -> & _).
  set (m := map _ _).
  exists (mask_filter m D), (mask_filter m P).
  rewrite !getitem_df_mask. simpl. rewrite mask_filter_zip_with. auto.
Qed.

Lemma stamped_rows (df : DataFrame) (date period : string) :
  stamped df date period ->
  exists D P T,
    getitem df date = OK (STime D) /\
    getitem df period = OK (SInt P) /\
    getitem df "timestamp" = OK (STime T) /\
    forall i d p,
      nth_error D i = Some d -> nth_error P i = Some p -> 1 <= p <= 48 ->
      nth_error T i = Some (d + (p - 1) * (30 * minute)).
Proof.
  intros (D & P & HD & HP & HT).
  exists D, P, (zip_with stamp_of D P). repeat split; auto.
  intros i d p Hd Hp Hr.
  rewrite nth_error_zip_with, Hd, Hp, stamp_of_period; auto.
Qed.

Lemma zip_with_ext_in {A B C : Type} (f g : A -> B -> C) (x : list A) (y : list B) :
  (forall a b, In a x -> In b y -> f a b = g a b) -> zip_with f x y = zip_with g x y.
Proof.
  revert y. induction x as [|a x IH]; intros [|b y] H; simpl; auto.
  rewrite H by (left; reflexivity). f_equal.
  apply IH. intros a' b' Ha Hb. apply H; right; assumption.
Qed.

Lemma length_zip_with {A B C : Type} (f : A -> B -> C) (x : list A) (y : list B) :
  length (zip_with f x y) = Nat.min (length x) (length y).
Proof.
  revert y. induction x as [|a x IH]; intros [|b y]; simpl; auto.
Qed.

Lemma timestamp_of_fuel_frame (l : list FuelInst) :
  getitem (fuel_frame l) "timestamp" = OK (STime (map stamp l)).
Proof. reflexivity. Qed.

Lemma rows_in_range (l : list FuelInst) :
  (forall x, In x l -> date_ok (settlementDate x) /\ 1 <= settlementPeriod x <= 48) ->
  forallb row_ok l = true.
Proof.
  intro H. apply forallb_forall. intros x Hx.
  destruct (H x Hx) as (Hd & Hp).
  destruct (period_in_range _ _ Hd Hp) as (E1 & E2).
  unfold row_ok. rewrite E1, E2. reflexivity.
Qed.

Lemma columns_in_range (D P : list Z) :
  (forall d, In d D -> date_ok d) ->
  (forall p, In p P -> 1 <= p <= 48) ->
  columns_ok D P = true.
Proof.
  intros HD HP.
  assert (d0 : date_ok 0) by (unfold date_ok, minute; lia).
  unfold columns_ok. rewrite !andb_true_iff. split; [split|].
  - apply forallb_forall. intros p Hp.
    apply (period_in_range 0 p d0 (HP p Hp)).
  - apply forallb_forall. intros d Hd.
    apply in_int64_ns_spec. specialize (HD d Hd).
    unfold date_ok, hour, minute in HD. lia.
  - apply forallb_forall. apply Forall_forall.
    apply (Forall_zip_with stamp_of date_ok (fun p => 1 <= p <= 48)).
    + intros d p Hd Hp. destruct (period_in_range d p Hd Hp) as (_ & E).
      unfold stamp_ok in E. rewrite andb_true_iff in E. tauto.
    + apply Forall_forall. exact HD.
    + apply Forall_forall. exact HP.
Qed.

(** C2.  The timestamp of a row with settlement date [d] and period [p]
    between 1 and 48 is [d + (p - 1) * 30 minutes].  The one computation both
    fetchers run gives it to every such row of the frame it is applied to,
    provided the dates, the period offsets and the sums are within the range
    of pandas, as they are for periods 1 to 48 and every date (every midnight)
    pandas holds.  On a good reply of such rows [fetch_bmrs_fuelinst] returns
    the objects whose timestamp, so computed, is in the window, each with
    that timestamp; so does [fetch_neso_demand] on a good download; and every
    row either fetcher ever returns carries it. *)
Theorem timestamp_formula :
  (forall df date period D P,
      getitem df date = OK (STime D) ->
      getitem df period = OK (SInt P) ->
      columns_ok D P = true ->
      exists T,
        add_timestamp df date period = OK (setitem df "timestamp" (STime T)) /\
        length T = Nat.min (length D) (length P) /\
        forall i d p,
          nth_error D i = Some d -> nth_error P i = Some p -> 1 <= p <= 48 ->
          nth_error T i = Some (d + (p - 1) * (30 * minute)))
  /\
  ((forall d p, date_ok d -> 1 <= p <= 48 -> period_ok p = true /\ stamp_ok d p = true) /\
   (forall d, d mod (24 * hour) = 0 -> in_int64_ns d = true -> date_ok d))
  /\
  (forall w hours resp r rs,
      in_int64_ns (bmrs_now w) = true ->
      in_int64_ns (bmrs_now w - timedelta_hours hours) = true ->
      bmrs_get w (strftime_seconds (bmrs_now w - timedelta_hours hours))
                 (strftime_seconds (bmrs_now w)) = OK resp ->
      raise_for_status resp = OK tt ->
      body resp = JSONArray (r :: rs) ->
      (forall x, In x (r :: rs) ->
                 date_ok (settlementDate x) /\ 1 <= settlementPeriod x <= 48) ->
      exists kept,
        fetch_bmrs_fuelinst w hours = OK (fuel_frame kept) /\
        kept = filter (fun x =>
                         (bmrs_now w - timedelta_hours hours
                          <=? settlementDate x + (settlementPeriod x - 1) * (30 * minute))
                         && (settlementDate x + (settlementPeriod x - 1) * (30 * minute)
                             <=? bmrs_now w))
                      (r :: rs) /\
        getitem (fuel_frame kept) "timestamp"
        = OK (STime (map (fun x => settlementDate x
                                   + (settlementPeriod x - 1) * (30 * minute)) kept)))
  /\
  (forall w hours csv D P wind solar,
      in_int64_ns (neso_now w) = true ->
      in_int64_ns (neso_now w - timedelta_hours hours) = true ->
      neso_read_csv w = OK csv ->
      getitem csv "SETTLEMENT_DATE" = OK (STime D) ->
      getitem csv "SETTLEMENT_PERIOD" = OK (SInt P) ->
      getitem csv "EMBEDDED_WIND_GENERATION" = OK wind ->
      getitem csv "EMBEDDED_SOLAR_GENERATION" = OK solar ->
      (forall d, In d D -> date_ok d) ->
      (forall p, In p P -> 1 <= p <= 48) ->
      exists df,
        fetch_neso_demand w hours = OK df /\
        getitem df "timestamp"
        = OK (STime (filter (fun t => (neso_now w - timedelta_hours hours <=? t)
                                      && (t <=? neso_now w))
                            (zip_with (fun d p => d + (p - 1) * (30 * minute)) D P))))
  /\
  (forall w hours df,
      fetch_bmrs_fuelinst w hours = OK df ->
      exists D P T,
        getitem df "settlementDate" = OK (STime D) /\
        getitem df "settlementPeriod" = OK (SInt P) /\
        getitem df "timestamp" = OK (STime T) /\
        forall i d p,
          nth_error D i = Some d -> nth_error P i = Some p -> 1 <= p <= 48 ->
          nth_error T i = Some (d + (p - 1) * (30 * minute)))
  /\
  (forall w hours df,
      fetch_neso_demand w hours = OK df ->
      exists D P T,
        getitem df "SETTLEMENT_DATE" = OK (STime D) /\
        getitem df "SETTLEMENT_PERIOD" = OK (SInt P) /\
        getitem df "timestamp" = OK (STime T) /\
        forall i d p,
          nth_error D i = Some d -> nth_error P i = Some p -> 1 <= p <= 48 ->
          nth_error T i = Some (d + (p - 1) * (30 * minute))).
Proof.
  split; [|split; [|split; [|split; [|split]]]].
  - intros df date period D P HD HP Hok.
    destruct (columns_ok_offsets D P Hok) as (Hp & Hs).
    exists (zip_with stamp_of D P). split; [|split].
    + apply add_timestamp_run; assumption.
    + apply length_zip_with.
    + intros i d p Hd Hpi Hr.
      rewrite nth_error_zip_with, Hd, Hpi, stamp_of_period; auto.
  - split; [exact period_in_range | exact midnight_date_ok].
  - intros w hours resp r rs Hnow Hstart Hget Hst Hbody Hrows.
    pose proof (window_start_pandas _ _ Hnow Hstart) as Hw.
    pose proof (fetch_bmrs_fuelinst_run w hours _ resp r rs Hw Hget Hst Hbody
                  (rows_in_range _ Hrows)) as Run.
    cbv zeta in Run.
    assert (E : forall x, In x (r :: rs) ->
                          stamp x = settlementDate x
                                    + (settlementPeriod x - 1) * (30 * minute)).
    { intros x Hx. apply stamp_of_period. apply (Hrows x Hx). }
    eexists. split; [exact Run|]. split.
    + apply filter_ext_in. intros x Hx. rewrite (E x Hx). reflexivity.
    + rewrite timestamp_of_fuel_frame. do 2 f_equal.
      apply map_ext_in. intros x Hx.
      apply E. apply filter_In in Hx. tauto.
  - intros w hours csv D P wind solar Hnow Hstart Hcsv HD HP HW HS Hd Hp.
    pose proof (window_start_pandas _ _ Hnow Hstart) as Hw.
    pose proof (fetch_neso_demand_run w hours _ csv D P wind solar
                  Hcsv HD HP HW HS (columns_in_range D P Hd Hp) Hw) as Run.
    cbv zeta in Run.
    eexists. split; [exact Run|].
    rewrite getitem_df_mask. simpl. rewrite mask_filter_pred.
    do 3 f_equal. apply zip_with_ext_in. intros d p _ Hpi.
    apply stamp_of_period, Hp, Hpi.
  - intros w hours df H. apply stamped_rows.
    eapply fetch_bmrs_fuelinst_stamped; eauto.
  - intros w hours df H. apply stamped_rows.
    eapply fetch_neso_demand_stamped; eauto.
Qed.

Lemma timestamp_formula_witness :
  (exists df,
      fetch_bmrs_fuelinst three_days_world 24 = OK df /\
      getitem df "settlementPeriod" = OK (SInt [1; 2]) /\
      getitem df "timestamp" = OK (STime [T0; T0 + (2 - 1) * (30 * minute)])) /\
  (exists df,
      fetch_neso_demand three_days_world 24 = OK df /\
      getitem df "timestamp" = OK (STime [T0; T0 + (2 - 1) * (30 * minute)])).
Proof.
  split.
  - destruct (proj1 (proj2 (proj2 timestamp_formula)) three_days_world 24 _ _ _
                eq_refl eq_refl eq_refl eq_refl eq_refl)
      as (kept & Run & K & Ts).
    + intros x Hx. simpl in Hx.
      repeat (destruct Hx as [<-|Hx]; [vm_compute; intuition discriminate|]).
      contradiction.
    + exists (fuel_frame kept). split; [exact Run|].
      rewrite Ts, K. split; reflexivity.
  - destruct (proj1 (proj2 (proj2 (proj2 timestamp_formula))) three_days_world 24
                _ _ _ _ _ eq_refl eq_refl eq_refl eq_refl eq_refl eq_refl eq_refl)
      as (df & Run & Ts).
    + intros d Hd. simpl in Hd.
      repeat (destruct Hd as [<-|Hd]; [vm_compute; intuition discriminate|]).
      contradiction.
    + intros p Hp. simpl in Hp.
      repeat (destruct Hp as [<-|Hp]; [lia|]).
      contradiction.
    + exists df. split; [exact Run|]. rewrite Ts. reflexivity.
Defined.

Lemma window_instant (now t : Z) : (now <=? t) && (t <=? now) = (t =? now).
Proof.
  destruct (Z.eqb_spec t now) as [->|N].
  - rewrite Z.leb_refl. reflexivity.
  - destruct (Z.leb_spec now t), (Z.leb_spec t now); simpl; auto. lia.
Qed.

Lemma mask_filter_none {A B : Type} (p : B -> bool) (s : list B) (l : list A) :
  (forall t, In t s -> p t = false) -> mask_filter (map p s) l = [].
Proof.
  revert l. induction s as [|t s IH]; intros l H; simpl; auto.
  destruct l as [|a l]; auto.
  rewrite (H t) by (left; reflexivity).
  apply IH. intros u Hu. apply H. right. exact Hu.
Qed.

Lemma window_start_zero (now : Z) :
  in_int64_ns now = true -> window_start now 0 = OK now.
Proof.
  intro H.
  assert (E : now - timedelta_hours 0 = now) by (unfold timedelta_hours; lia).
  rewrite <- E at 2. apply window_start_pandas; [exact H | rewrite E; exact H].
Qed.

(** C8, as amended.  With [hours = 0] the window is the single instant [now].
    On a well-formed reply (for the stream: a non-empty array) whose period
    offsets and timestamps are within the range of pandas, as they are for
    periods 1 to 48, neither fetcher raises; each returns exactly the rows
    whose timestamp is [now], hence an empty result when no row falls on that
    instant. *)
Theorem fetch_zero_hours :
  (forall w resp r rs,
      in_int64_ns (bmrs_now w) = true ->
      bmrs_get w (strftime_seconds (bmrs_now w)) (strftime_seconds (bmrs_now w)) = OK resp ->
      raise_for_status resp = OK tt ->
      body resp = JSONArray (r :: rs) ->
      forallb row_ok (r :: rs) = true ->
      fetch_bmrs_fuelinst w 0 =
        OK (fuel_frame (filter (fun x => stamp x =? bmrs_now w) (r :: rs))) /\
      ((forall x, In x (r :: rs) -> stamp x <> bmrs_now w) ->
       fetch_bmrs_fuelinst w 0 = OK (fuel_frame [])))
  /\
  (forall w csv D P wind solar,
      in_int64_ns (neso_now w) = true ->
      neso_read_csv w = OK csv ->
      getitem csv "SETTLEMENT_DATE" = OK (STime D) ->
      getitem csv "SETTLEMENT_PERIOD" = OK (SInt P) ->
      getitem csv "EMBEDDED_WIND_GENERATION" = OK wind ->
      getitem csv "EMBEDDED_SOLAR_GENERATION" = OK solar ->
      columns_ok D P = true ->
      exists df,
        fetch_neso_demand w 0 = OK df /\
        df = df_mask (demand_frame D P wind solar)
                     (map (fun t => t =? neso_now w) (zip_with stamp_of D P)) /\
        getitem df "timestamp"
          = OK (STime (filter (fun t => t =? neso_now w) (zip_with stamp_of D P))) /\
        (~ In (neso_now w) (zip_with stamp_of D P) -> nrows df = 0%nat))
  /\
  (forall x, date_ok (settlementDate x) -> 1 <= settlementPeriod x <= 48 ->
             row_ok x = true)
  /\
  (forall D P, (forall d, In d D -> date_ok d) -> (forall p, In p P -> 1 <= p <= 48) ->
               columns_ok D P = true).
Proof.
  split; [|split; [|split]].
  - intros w resp r rs Hnow Hget Hst Hbody Hok.
    pose proof (fetch_bmrs_fuelinst_run w 0 _ resp r rs
                  (window_start_zero _ Hnow) Hget Hst Hbody Hok) as Run.
    cbv zeta in Run.
    assert (F : filter (fun x => (bmrs_now w <=? stamp x) && (stamp x <=? bmrs_now w)) (r :: rs)
                = filter (fun x => stamp x =? bmrs_now w) (r :: rs)).
    { apply filter_ext. intro x. apply window_instant. }
    rewrite F in Run. split; [exact Run|].
    intro None. rewrite Run. do 2 f_equal.
    assert (G : forall l, (forall x, In x l -> stamp x <> bmrs_now w) ->
                          filter (fun x => stamp x =? bmrs_now w) l = []).
    { induction l as [|a l IH]; intro Hl; simpl; auto.
      destruct (Z.eqb_spec (stamp a) (bmrs_now w)) as [Ea|_].
      - exfalso. apply (Hl a); [left; reflexivity | exact Ea].
      - apply IH. intros x Hx. apply Hl. right. exact Hx. }
    apply G. exact None.
  - intros w csv D P wind solar Hnow Hcsv HD HP HW HS Hok.
    pose proof (fetch_neso_demand_run w 0 _ csv D P wind solar
                  Hcsv HD HP HW HS Hok (window_start_zero _ Hnow)) as Run.
    cbv zeta in Run.
    rewrite (map_ext _ (fun t => t =? neso_now w)) in Run
      by (intro t; apply window_instant).
    eexists. split; [exact Run|]. split; [reflexivity|]. split.
    + rewrite getitem_df_mask. simpl.
      rewrite mask_filter_pred. reflexivity.
    + intro None. simpl.
      rewrite mask_filter_none; [reflexivity|].
      intros t Ht.
      apply Z.eqb_neq. intro Et. apply None. rewrite <- Et. exact Ht.
  - intros x Hd Hp. destruct (period_in_range _ _ Hd Hp) as (E1 & E2).
    unfold row_ok. rewrite E1, E2. reflexivity.
  - exact columns_in_range.
Qed.

Lemma fetch_zero_hours_witness :
  fetch_bmrs_fuelinst on_the_boundary_world 0 = OK (fuel_frame (fuels T0 1)) /\
  exists df,
    fetch_neso_demand scenario_world 0 = OK df /\ nrows df = 0%nat.
Proof.
  split.
  - exact (proj1 (proj1 fetch_zero_hours on_the_boundary_world _ _ _
                    eq_refl eq_refl eq_refl eq_refl eq_refl)).
  - destruct (proj1 (proj2 fetch_zero_hours) scenario_world _ _ _ _ _
                eq_refl eq_refl eq_refl eq_refl eq_refl eq_refl eq_refl)
      as (df & Run & _ & _ & Empty).
    exists df. split; [exact Run|]. apply Empty.
    vm_compute. intros [E|[E|[E|[]]]]; discriminate E.
Defined.

(** C8 as stated fails both ways.  When the stream answers an empty window
    with an empty array, [fetch_bmrs_fuelinst] raises [KeyError]: the frame
    built from no object has no [settlementDate] column.  And when the call
    falls exactly on a period boundary the result is not empty: the rows of
    that instant are inside the window. *)
Lemma fetch_zero_hours_counterexample :
  fetch_bmrs_fuelinst empty_stream_world 0 = Raise (KeyError "settlementDate") /\
  (exists df, fetch_bmrs_fuelinst on_the_boundary_world 0 = OK df /\ nrows df = 8%nat) /\
  (exists df, fetch_neso_demand on_the_boundary_world 0 = OK df /\ nrows df = 1%nat).
Proof.
  split; [reflexivity|].
  split; eexists; (split; [vm_compute; reflexivity | reflexivity]).
Qed.

(** ** Group labels *)

Section DistinctFacts.
Context {A : Type} (eqb : A -> A -> bool) (leb : A -> A -> bool).
Hypothesis eqb_eq : forall x y, eqb x y = true <-> x = y.

Lemma In_distinct (l : list A) (z : A) : In z (distinct eqb l) <-> In z l.
Proof.
  induction l as [|x l IH]; simpl; [tauto|].
  rewrite filter_In, IH. split.
  - intros [E|[H _]]; auto.
  - intros [E|H]; auto.
    destruct (eqb x z) eqn:E.
    + left. apply eqb_eq. exact E.
    + right. auto.
Qed.

Lemma NoDup_distinct (l : list A) : NoDup (distinct eqb l).
Proof.
  induction l as [|x l IH]; simpl; constructor.
  - rewrite filter_In. intros [_ H].
    assert (E : eqb x x = true) by (apply eqb_eq; reflexivity).
    rewrite E in H. discriminate.
  - apply NoDup_filter. exact IH.
Qed.

Lemma place_perm (x : A) (l : list A) : Permutation (place leb x l) (x :: l).
Proof.
  induction l as [|y l IH]; simpl; auto.
  destruct (leb x y); auto.
  rewrite IH. apply perm_swap.
Qed.

Lemma ascending_perm (l : list A) : Permutation (ascending leb l) l.
Proof.
  induction l as [|x l IH]; simpl; auto.
  rewrite place_perm. auto.
Qed.

Lemma In_group_labels (l : list A) (z : A) : In z (group_labels eqb leb l) <-> In z l.
Proof.
  unfold group_labels. split; intro H.
  - apply In_distinct. eapply Permutation_in; [apply ascending_perm | exact H].
  - eapply Permutation_in; [symmetry; apply ascending_perm | apply In_distinct; exact H].
Qed.

Lemma NoDup_group_labels (l : list A) : NoDup (group_labels eqb leb l).
Proof.
  unfold group_labels. eapply Permutation_NoDup.
  - symmetry. apply ascending_perm.
  - apply NoDup_distinct.
Qed.
End DistinctFacts.

(** ** The pivot *)



Lemma existsb_eqb_false (f : string) (l : list string) :
  ~ In f l -> existsb (String.eqb f) l = false.
Proof.
  induction l as [|g l IH]; simpl; auto.
  intro H. destruct (String.eqb_spec f g) as [->|N]; [tauto | apply IH; tauto].
Qed.

Lemma columns_pivot_cells (ts : list Z) (fs : list string) (vs : list Q) :
  columns (pivot_cells ts fs vs) = group_labels String.eqb String.leb fs.
Proof.
  unfold columns, pivot_cells. rewrite map_map. simpl. apply map_id.
Qed.

Lemma pivoted_run (df : DataFrame) (ts : list Z) (fs : list string) (v : Series) (vs : list Q) :
  getitem df "timestamp" = OK (STime ts) ->
  getitem df "fuelType" = OK (SStr fs) ->
  getitem df "generation" = OK v ->
  series_num v = Some vs ->
  ~ In "timestamp" fs ->
  pivoted df =
  OK (("timestamp", STime (group_labels Z.eqb Z.leb ts)) :: pivot_cells ts fs vs).
Proof.
  intros Ht Hf Hv Hn Hno.
  unfold pivoted, pivot_table. rewrite Hv, Ht, Hf. simpl. rewrite Hn. simpl.
  unfold reset_index. simpl index_name. simpl table.
  fold (pivot_cells ts fs vs). rewrite columns_pivot_cells.
  rewrite existsb_eqb_false; [reflexivity|].
  rewrite In_group_labels; [exact Hno | apply String.eqb_eq].
Qed.



Lemma pivot_table_run (df : DataFrame) (ts : list Z) (fs : list string) (v : Series)
      (vs : list Q) :
  getitem df "timestamp" = OK (STime ts) ->
  getitem df "fuelType" = OK (SStr fs) ->
  getitem df "generation" = OK v ->
  series_num v = Some vs ->
  pivot_table df "timestamp" "fuelType" "generation" (0 # 1)
  = OK (mkIndexed "timestamp" (group_labels Z.eqb Z.leb ts) (pivot_cells ts fs vs)).
Proof.
  intros Ht Hf Hv Hn.
  unfold pivot_table. rewrite Hv, Ht, Hf. simpl. rewrite Hn. reflexivity.
Qed.















(** ** The inner join *)

Lemma map_snd_enumerate {A : Type} (l : list A) : map snd (enumerate l) = l.
Proof.
  unfold enumerate. generalize 0%nat.
  induction l as [|a l IH]; intro n; simpl; auto. rewrite IH. reflexivity.
Qed.

Lemma take_rows_app {A : Type} (i j : list nat) (l : list A) :
  take_rows (i ++ j) l = (take_rows i l ++ take_rows j l)%list.
Proof. unfold take_rows. apply flat_map_app. Qed.

Lemma take_rows_const {A B : Type} (i : nat) (x : A) (l : list A) (js : list B) :
  nth_error l i = Some x ->
  take_rows (map (fun _ => i) js) l = map (fun _ => x) js.
Proof.
  intro H. induction js as [|j js IH]; simpl; auto.
  rewrite H. simpl. f_equal. exact IH.
Qed.

(** The left row numbers of the join, read back in the left key column: each
    left key, once per right row with the same key. *)
Lemma take_rows_join_from (p a b : list Z) :
  take_rows
    (map fst
       (flat_map
          (fun ia => map (fun jb => (fst ia, fst jb))
                         (filter (fun jb => snd ia =? snd jb) (enumerate b)))
          (combine (seq (length p) (length a)) a)))
    (p ++ a)
  = flat_map (fun x => map (fun _ => x) (filter (fun jb => x =? snd jb) (enumerate b))) a.
Proof.
  revert p. induction a as [|x a IH]; intro p; simpl; auto.
  rewrite map_app, take_rows_app, map_map. simpl.
  rewrite (take_rows_const (length p) x).
  - f_equal.
    replace (p ++ x :: a)%list with ((p ++ [x]) ++ a)%list
      by (rewrite <- app_assoc; reflexivity).
    replace (S (length p)) with (length (p ++ [x])%list)
      by (rewrite length_app; simpl; lia).
    apply IH.
  - rewrite nth_error_app2 by lia. rewrite Nat.sub_diag. reflexivity.
Qed.

Lemma take_rows_join (a b : list Z) :
  take_rows (map fst (join_pairs a b)) a
  = flat_map (fun x => map (fun _ => x) (filter (fun jb => x =? snd jb) (enumerate b))) a.
Proof.
  exact (take_rows_join_from [] a b).
Qed.

Lemma In_joined (a b : list Z) (t : Z) :
  In t (flat_map (fun x => map (fun _ => x) (filter (fun jb => x =? snd jb) (enumerate b))) a)
  <-> In t a /\ In t b.
Proof.
  rewrite in_flat_map. split.
  - intros (x & Hx & H). apply in_map_iff in H. destruct H as (jb & <- & H).
    apply filter_In in H. destruct H as (H & E). apply Z.eqb_eq in E.
    split; [exact Hx|]. subst x.
    rewrite <- (map_snd_enumerate b). apply in_map. exact H.
  - intros (Ha & Hb). exists t. split; [exact Ha|].
    rewrite <- (map_snd_enumerate b) in Hb. apply in_map_iff in Hb.
    destruct Hb as (jb & E & H).
    apply in_map_iff. exists jb. split; [reflexivity|].
    apply filter_In. split; [exact H|]. apply Z.eqb_eq. symmetry. exact E.
Qed.

Lemma merge_inner_timestamps (rest right : DataFrame) (rows ns : list Z) :
  getitem right "timestamp" = OK (STime ns) ->
  exists merged,
    merge_inner (("timestamp", STime rows) :: rest) right "timestamp" = OK merged /\
    getitem merged "timestamp" = OK (STime (take_rows (map fst (join_pairs rows ns)) rows)) /\
    nrows merged = length (take_rows (map fst (join_pairs rows ns)) rows).
Proof.
  intro H. unfold merge_inner. rewrite H. rewrite getitem_cons.
  simpl String.eqb. cbv iota beta delta [bind].
  eexists. split; [reflexivity|]. split; reflexivity.
Qed.

Lemma In_enumerate_from {A : Type} (l : list A) (s i : nat) (x : A) :
  In (i, x) (combine (seq s (length l)) l) <-> (s <= i)%nat /\ nth_error l (i - s) = Some x.
Proof.
  revert s. induction l as [|a l IH]; intro s; simpl.
  - split; [contradiction|]. intros (_ & H). destruct (i - s)%nat; discriminate.
  - rewrite IH. split.
    + intros [E|(L & H)].
      * inversion E; subst. rewrite Nat.sub_diag. auto.
      * split; [lia|]. replace (i - s)%nat with (S (i - S s)) by lia. exact H.
    + intros (L & H). destruct (Nat.eq_dec s i) as [->|N].
      * rewrite Nat.sub_diag in H. simpl in H. inversion H. auto.
      * right. split; [lia|].
        replace (i - s)%nat with (S (i - S s)) in H by lia. exact H.
Qed.

Lemma In_enumerate {A : Type} (l : list A) (i : nat) (x : A) :
  In (i, x) (enumerate l) <-> nth_error l i = Some x.
Proof.
  unfold enumerate. rewrite In_enumerate_from, Nat.sub_0_r. split; [tauto|].
  intro H. split; [lia | exact H].
Qed.

Lemma In_join_pairs (a b : list Z) (i k : nat) :
  In (i, k) (join_pairs a b) <->
  exists t, nth_error a i = Some t /\ nth_error b k = Some t.
Proof.
  unfold join_pairs. rewrite in_flat_map. split.
  - intros ([i' t] & Ha & H). apply in_map_iff in H.
    destruct H as ([k' t'] & E & H). simpl in *. inversion E; subst.
    apply filter_In in H. destruct H as (Hb & Eq). simpl in Eq.
    apply Z.eqb_eq in Eq. subst t'.
    exists t. split; [apply In_enumerate; exact Ha | apply In_enumerate; exact Hb].
  - intros (t & Ha & Hb). exists (i, t). split; [apply In_enumerate; exact Ha|].
    apply in_map_iff. exists (k, t). split; [reflexivity|].
    apply filter_In. split; [apply In_enumerate; exact Hb | apply Z.eqb_refl].
Qed.

Lemma nth_error_take_rows {A : Type} (idx : list nat) (l : list A) (j : nat) :
  Forall (fun i => (i < length l)%nat) idx ->
  nth_error (take_rows idx l) j =
  match nth_error idx j with
  | Some i => nth_error l i
  | None => None
  end.
Proof.
  intro F. revert j. induction F as [|i idx Hi F IH]; intro j; simpl.
  - destruct j; reflexivity.
  - destruct (nth_error l i) as [x|] eqn:E.
    + destruct j; simpl; [symmetry; exact E | apply IH].
    + apply nth_error_None in E. lia.
Qed.

Lemma length_take_rows {A : Type} (idx : list nat) (l : list A) :
  Forall (fun i => (i < length l)%nat) idx -> length (take_rows idx l) = length idx.
Proof.
  induction 1 as [|i idx Hi F IH]; simpl; auto.
  destruct (nth_error l i) as [x|] eqn:E.
  - simpl. rewrite IH. reflexivity.
  - apply nth_error_None in E. lia.
Qed.

Lemma take_rows_map {A B : Type} (f : A -> B) (idx : list nat) (l : list A) :
  take_rows idx (map f l) = map f (take_rows idx l).
Proof.
  induction idx as [|i idx IH]; simpl; auto.
  rewrite map_app, IH, nth_error_map. destruct (nth_error l i); reflexivity.
Qed.

Lemma series_cells_take (idx : list nat) (s : Series) :
  series_cells (series_rows (@take_rows idx) s) = take_rows idx (series_cells s).
Proof.
  destruct s; simpl; rewrite take_rows_map; reflexivity.
Qed.

Lemma length_series_cells (s : Series) : length (series_cells s) = series_len s.
Proof.
  destruct s; simpl; apply length_map.
Qed.

Lemma series_len_take (idx : list nat) (s : Series) :
  Forall (fun i => (i < series_len s)%nat) idx ->
  series_len (series_rows (@take_rows idx) s) = length idx.
Proof.
  intro F. rewrite <- length_series_cells, series_cells_take.
  apply length_take_rows. rewrite length_series_cells. exact F.
Qed.

Lemma getitem_app (l1 l2 : DataFrame) (c : string) :
  getitem (l1 ++ l2)%list c =
  match getitem l1 c with
  | OK s => OK s
  | Raise _ => getitem l2 c
  end.
Proof.
  induction l1 as [|[k s] l1 IH]; simpl; [reflexivity|].
  destruct (String.eqb k c); [reflexivity | exact IH].
Qed.

Lemma getitem_in (df : DataFrame) (c : string) :
  In c (columns df) -> exists s, getitem df c = OK s /\ In (c, s) df.
Proof.
  induction df as [|[k s] rest IH]; simpl; [contradiction|].
  destruct (String.eqb_spec k c) as [->|N].
  - intros _. exists s. auto.
  - intros [E|H]; [contradiction|].
    destruct (IH H) as (s' & G & I). exists s'. auto.
Qed.

Lemma getitem_not_in (df : DataFrame) (c : string) :
  ~ In c (columns df) -> getitem df c = Raise (KeyError c).
Proof.
  induction df as [|[k s] rest IH]; simpl; [reflexivity|].
  intro H. destruct (String.eqb_spec k c) as [->|N]; [tauto | apply IH; tauto].
Qed.

Lemma getitem_renamed (ren : string -> string) (F : Series -> Series)
      (df : DataFrame) (c : string) :
  (forall k, In k (columns df) -> ren k = k) ->
  getitem (map (fun cs => (ren (fst cs), F (snd cs))) df) c = fmap F (getitem df c).
Proof.
  induction df as [|[k s] rest IH]; simpl; intro H; [reflexivity|].
  rewrite (H k) by (left; reflexivity).
  destruct (String.eqb k c); [reflexivity|].
  apply IH. intros k' Hk'. apply H. right. exact Hk'.
Qed.

Lemma getitem_without (on : string) (df : DataFrame) (c : string) :
  c <> on ->
  getitem (filter (fun cs => negb (String.eqb (fst cs) on)) df) c = getitem df c.
Proof.
  intro N. induction df as [|[k s] rest IH]; simpl; [reflexivity|].
  destruct (String.eqb_spec k on) as [->|Nk]; simpl.
  - apply String.eqb_neq in N. rewrite String.eqb_sym, N. exact IH.
  - destruct (String.eqb k c); [reflexivity | exact IH].
Qed.

Lemma columns_without (on : string) (df : DataFrame) (c : string) :
  In c (columns (filter (fun cs => negb (String.eqb (fst cs) on)) df)) ->
  In c (columns df) /\ c <> on.
Proof.
  unfold columns. rewrite in_map_iff. intros ([k s] & <- & H).
  apply filter_In in H. destruct H as (H & N). simpl in *.
  split; [apply in_map_iff; exists (k, s); auto|].
  apply negb_true_iff, String.eqb_neq in N. exact N.
Qed.

Lemma suffixed_same (on : string) (other : DataFrame) (suffix c : string) :
  (In c (columns other) -> c = on) -> suffixed on other suffix c = c.
Proof.
  intro H. unfold suffixed.
  destruct (String.eqb_spec c on) as [E|N]; simpl; [reflexivity|].
  rewrite existsb_eqb_false; [reflexivity|]. intro I. apply N, H, I.
Qed.

Lemma rectangular_getitem (df : DataFrame) (n : nat) (c : string) (s : Series) :
  rectangular df n -> getitem df c = OK s -> series_len s = n.
Proof.
  intros R G. unfold rectangular in R. rewrite Forall_forall in R.
  induction df as [|[k s0] rest IH]; simpl in G; [discriminate|].
  destruct (String.eqb k c).
  - inversion G; subst. apply (R (k, s)). left. reflexivity.
  - apply IH; [|exact G]. intros x Hx. apply R. right. exact Hx.
Qed.

Lemma cell_at_take (df : DataFrame) (n : nat) (idx : list nat) (c : string) (j i : nat) :
  rectangular df n ->
  Forall (fun i => (i < n)%nat) idx ->
  nth_error idx j = Some i ->
  match fmap (series_rows (@take_rows idx)) (getitem df c) with
  | OK s => nth_error (series_cells s) j
  | Raise _ => None
  end = cell_at df c i.
Proof.
  intros R F Hj. unfold cell_at.
  destruct (getitem df c) as [s|e] eqn:G; simpl; [|reflexivity].
  rewrite series_cells_take, nth_error_take_rows, Hj; [reflexivity|].
  rewrite length_series_cells, (rectangular_getitem df n c s R G). exact F.
Qed.

(** The inner join of two rectangular frames that share no column name but
    the key. *)
Lemma merge_inner_rows (left right : DataFrame) (on : string) (a b : list Z) :
  getitem left on = OK (STime a) ->
  getitem right on = OK (STime b) ->
  rectangular left (length a) ->
  rectangular right (length b) ->
  (forall c, In c (columns left) -> In c (columns right) -> c = on) ->
  exists merged,
    merge_inner left right on = OK merged /\
    columns merged
      = (columns left
         ++ columns (filter (fun cs => negb (String.eqb (fst cs) on)) right))%list /\
    rectangular merged (length (join_pairs a b)) /\
    forall j i k,
      nth_error (join_pairs a b) j = Some (i, k) ->
      (forall c, In c (columns left) -> cell_at merged c j = cell_at left c i) /\
      (forall c, In c (columns right) -> c <> on -> cell_at merged c j = cell_at right c k).
Proof.
  intros Ga Gb Ra Rb Clash.
  assert (Fa : Forall (fun i => (i < length a)%nat) (map fst (join_pairs a b))).
  { rewrite Forall_forall. intros i Hi. apply in_map_iff in Hi.
    destruct Hi as ([i' k] & <- & H). apply In_join_pairs in H.
    destruct H as (t & H & _). simpl. apply nth_error_Some. congruence. }
  assert (Fb : Forall (fun k => (k < length b)%nat) (map snd (join_pairs a b))).
  { rewrite Forall_forall. intros k Hk. apply in_map_iff in Hk.
    destruct Hk as ([i k'] & <- & H). apply In_join_pairs in H.
    destruct H as (t & _ & H). simpl. apply nth_error_Some. congruence. }
  assert (RenL : forall c, In c (columns left) -> suffixed on right "_x" c = c).
  { intros c Hc. apply suffixed_same. intro I. apply Clash; assumption. }
  assert (RenR : forall c,
             In c (columns (filter (fun cs => negb (String.eqb (fst cs) on)) right)) ->
             suffixed on left "_y" c = c).
  { intros c Hc. apply columns_without in Hc. destruct Hc as (Hc & N).
    apply suffixed_same. intro I. apply Clash; assumption. }
  unfold merge_inner. rewrite Gb, Ga. cbv beta iota delta [bind].
  eexists. split; [reflexivity|]. split; [|split].
  - unfold columns. rewrite map_app, !map_map. simpl. f_equal.
    + apply map_ext_in. intros [c s] H. simpl. apply RenL.
      unfold columns. apply in_map_iff. exists (c, s). auto.
    + apply map_ext_in. intros [c s] H. simpl. apply RenR.
      unfold columns. apply in_map_iff. exists (c, s). auto.
  - unfold rectangular. rewrite Forall_app. split.
    + rewrite Forall_map, Forall_forall. intros [c s] H. simpl.
      rewrite series_len_take, length_map; [reflexivity|].
      unfold rectangular in Ra. rewrite Forall_forall in Ra.
      pose proof (Ra (c, s) H) as E. simpl in E. rewrite E. exact Fa.
    + rewrite Forall_map, Forall_forall. intros [c s] H. simpl.
      apply filter_In in H. destruct H as (H & _).
      rewrite series_len_take, length_map; [reflexivity|].
      unfold rectangular in Rb. rewrite Forall_forall in Rb.
      pose proof (Rb (c, s) H) as E. simpl in E. rewrite E. exact Fb.
  - intros j i k Hj.
    assert (Hi : nth_error (map fst (join_pairs a b)) j = Some i)
      by (rewrite nth_error_map, Hj; reflexivity).
    assert (Hk : nth_error (map snd (join_pairs a b)) j = Some k)
      by (rewrite nth_error_map, Hj; reflexivity).
    split.
    + intros c Hc. unfold cell_at at 1. rewrite getitem_app.
      rewrite (getitem_renamed (suffixed on right "_x")
                 (series_rows (@take_rows (map fst (join_pairs a b)))) left c RenL).
      destruct (getitem_in left c Hc) as (s & G & _).
      pose proof (cell_at_take left (length a) _ c j i Ra Fa Hi) as E.
      rewrite G in *. simpl in *. exact E.
    + intros c Hc N. unfold cell_at at 1. rewrite getitem_app.
      rewrite (getitem_renamed (suffixed on right "_x")
                 (series_rows (@take_rows (map fst (join_pairs a b)))) left c RenL).
      rewrite (getitem_not_in left c) by (intro I; apply N, Clash; assumption).
      simpl.
      rewrite (getitem_renamed (suffixed on left "_y")
                 (series_rows (@take_rows (map snd (join_pairs a b)))) _ c RenR).
      rewrite getitem_without by exact N.
      apply (cell_at_take right (length b) _ c j k Rb Fb Hk).
Qed.

Lemma pivoted_inv (df pv : DataFrame) :
  pivoted df = OK pv ->
  exists ts fs v vs,
    getitem df "timestamp" = OK (STime ts) /\
    getitem df "fuelType" = OK (SStr fs) /\
    getitem df "generation" = OK v /\
    series_num v = Some vs /\
    ~ In "timestamp" fs /\
    pv = ("timestamp", STime (group_labels Z.eqb Z.leb ts)) :: pivot_cells ts fs vs.
Proof.
  unfold pivoted, pivot_table. intro H.
  destruct (getitem df "generation") as [v|] eqn:Gv; [|discriminate].
  destruct (getitem df "timestamp") as [i|] eqn:Gt; [|discriminate].
  destruct (getitem df "fuelType") as [c|] eqn:Gf; [|discriminate].
  cbv beta iota delta [bind] in H.
  destruct i as [l|l|ts|l]; try discriminate.
  destruct c as [l|l|l|fs]; try discriminate.
  destruct (series_num v) as [vs|] eqn:Gn; try discriminate.
  unfold reset_index in H. simpl index_name in H. simpl table in H.
  simpl index_values in H. fold (pivot_cells ts fs vs) in H.
  rewrite columns_pivot_cells in H.
  destruct (existsb _ _) eqn:E; [discriminate|].
  inversion H.
  exists ts, fs, v, vs. repeat split; auto.
  intro I. apply (In_group_labels String.eqb String.leb String.eqb_eq) in I.
  assert (T : existsb (String.eqb "timestamp") (group_labels String.eqb String.leb fs) = true).
  { apply existsb_exists. exists "timestamp". split; [exact I | apply String.eqb_refl]. }
  congruence.
Qed.

Lemma rectangular_pivoted (ts : list Z) (fs : list string) (vs : list Q) :
  rectangular (("timestamp", STime (group_labels Z.eqb Z.leb ts)) :: pivot_cells ts fs vs)
              (length (group_labels Z.eqb Z.leb ts)).
Proof.
  constructor; [reflexivity|].
  unfold pivot_cells. rewrite Forall_map, Forall_forall. intros f _. simpl.
  apply length_map.
Qed.

(** C4.  [merge_datasets] joins the pivoted fuel table and the demand table
    on equal timestamps: a timestamp is in the merged table exactly when it is
    in both inputs, once per pair of rows that carry it; each merged row
    holds, column by column, the entries of one pivot row and of one demand
    row with that row's timestamp; every such pair of rows gives a merged
    row, and a row whose timestamp the other table lacks gives none (the
    demand table being rectangular and sharing no column name with the pivot
    but [timestamp]).  Timestamps {T1, T2, T3} and {T2, T3, T4} give exactly
    the rows of T2 and T3. *)
Theorem merge_inner_join :
  (forall bmrs neso ts fs v vs ns,
      getitem bmrs "timestamp" = OK (STime ts) ->
      getitem bmrs "fuelType" = OK (SStr fs) ->
      getitem bmrs "generation" = OK v ->
      series_num v = Some vs ->
      ~ In "timestamp" fs ->
      getitem neso "timestamp" = OK (STime ns) ->
      exists pv rows merged ms,
        pivoted bmrs = OK pv /\
        getitem pv "timestamp" = OK (STime rows) /\
        merge_datasets bmrs neso = OK merged /\
        getitem merged "timestamp" = OK (STime ms) /\
        nrows merged = length ms /\
        ms = flat_map (fun t => map (fun _ => t) (filter (Z.eqb t) ns)) rows /\
        (forall t, In t ms <-> In t rows /\ In t ns) /\
        (forall t, In t ms <-> In t ts /\ In t ns))
  /\
  (forall bmrs neso pv ns,
      pivoted bmrs = OK pv ->
      getitem neso "timestamp" = OK (STime ns) ->
      rectangular neso (length ns) ->
      (forall c, In c (columns pv) -> In c (columns neso) -> c = "timestamp") ->
      exists rows merged,
        getitem pv "timestamp" = OK (STime rows) /\
        merge_datasets bmrs neso = OK merged /\
        rectangular merged (length (join_pairs rows ns)) /\
        (forall j i k,
            nth_error (join_pairs rows ns) j = Some (i, k) ->
            exists t,
              nth_error rows i = Some t /\ nth_error ns k = Some t /\
              cell_at merged "timestamp" j = Some (CTime t) /\
              (forall c, In c (columns pv) -> cell_at merged c j = cell_at pv c i) /\
              (forall c, In c (columns neso) -> c <> "timestamp" ->
                         cell_at merged c j = cell_at neso c k)) /\
        (forall i k t,
            nth_error rows i = Some t -> nth_error ns k = Some t ->
            exists j, nth_error (join_pairs rows ns) j = Some (i, k)) /\
        (forall i t,
            nth_error rows i = Some t -> ~ In t ns ->
            forall j k, nth_error (join_pairs rows ns) j <> Some (i, k)) /\
        (forall k t,
            nth_error ns k = Some t -> ~ In t rows ->
            forall j i, nth_error (join_pairs rows ns) j <> Some (i, k)))
  /\
  (exists merged,
      getitem three_half_hours "timestamp"
        = OK (STime [T0; T0 + 30 * minute; T0 + 60 * minute]) /\
      getitem later_demand "timestamp"
        = OK (STime [T0 + 30 * minute; T0 + 60 * minute; T0 + 90 * minute]) /\
      merge_datasets three_half_hours later_demand = OK merged /\
      getitem merged "timestamp" = OK (STime [T0 + 30 * minute; T0 + 60 * minute]) /\
      getitem merged "WIND" = OK (SFloat [110 # 1; 120 # 1]%Q) /\
      getitem merged "SETTLEMENT_PERIOD" = OK (SInt [2; 3]) /\
      getitem merged "EMBEDDED_WIND_GENERATION" = OK (SInt [20; 21]) /\
      getitem merged "EMBEDDED_SOLAR_GENERATION" = OK (SInt [15; 16]) /\
      nrows merged = 2%nat).
Proof.
  split; [|split].
  - intros bmrs neso ts fs v vs ns Ht Hf Hv Hn Hno Hns.
    pose proof (pivoted_run bmrs ts fs v vs Ht Hf Hv Hn Hno) as Run.
    destruct (merge_inner_timestamps (pivot_cells ts fs vs) neso
                (group_labels Z.eqb Z.leb ts) ns Hns) as (merged & Hm & Hk & Hlen).
    exists (("timestamp", STime (group_labels Z.eqb Z.leb ts)) :: pivot_cells ts fs vs),
           (group_labels Z.eqb Z.leb ts), merged,
           (take_rows (map fst (join_pairs (group_labels Z.eqb Z.leb ts) ns))
                      (group_labels Z.eqb Z.leb ts)).
    split; [exact Run|]. split; [reflexivity|].
    split; [unfold merge_datasets; rewrite Run; exact Hm|].
    split; [exact Hk|]. split; [exact Hlen|].
    assert (E : forall rows,
               flat_map (fun x => map (fun _ => x)
                                      (filter (fun jb => x =? snd jb) (enumerate ns))) rows
               = flat_map (fun t => map (fun _ => t) (filter (Z.eqb t) ns)) rows).
    { intro rows. apply flat_map_ext. intro t.
      rewrite <- (map_snd_enumerate ns) at 2.
      generalize (enumerate ns). intro l.
      induction l as [|jb l IH]; simpl; auto.
      destruct (t =? snd jb); simpl; rewrite IH; reflexivity. }
    rewrite take_rows_join.
    split; [apply E|].
    split.
    + intro t. apply In_joined.
    + intro t. rewrite In_joined.
      rewrite (In_group_labels Z.eqb Z.leb Z.eqb_eq). reflexivity.
  - intros bmrs neso pv ns Hpv Hns Rn Clash.
    destruct (pivoted_inv bmrs pv Hpv) as (ts & fs & v & vs & _ & _ & _ & _ & _ & ->).
    set (rows := group_labels Z.eqb Z.leb ts) in *.
    set (pv := ("timestamp", STime rows) :: pivot_cells ts fs vs) in *.
    assert (Gk : getitem pv "timestamp" = OK (STime rows)) by reflexivity.
    destruct (merge_inner_rows pv neso "timestamp" rows ns Gk Hns
                (rectangular_pivoted ts fs vs) Rn Clash)
      as (merged & Hm & _ & Rm & Rows).
    exists rows, merged.
    split; [exact Gk|].
    split; [unfold merge_datasets; rewrite Hpv; exact Hm|].
    split; [exact Rm|].
    split; [|split; [|split]].
    + intros j i k Hj.
      destruct (Rows j i k Hj) as (Left & Right).
      assert (Hin : In (i, k) (join_pairs rows ns)) by (eapply nth_error_In; eauto).
      apply In_join_pairs in Hin. destruct Hin as (t & Hi & Hk).
      exists t. split; [exact Hi|]. split; [exact Hk|].
      split; [|split; [exact Left | exact Right]].
      rewrite (Left "timestamp") by (left; reflexivity).
      unfold cell_at. rewrite Gk. simpl. rewrite nth_error_map, Hi. reflexivity.
    + intros i k t Hi Hk. apply In_nth_error. apply In_join_pairs. eauto.
    + intros i t Hi Hno j k Hj.
      assert (Hin : In (i, k) (join_pairs rows ns)) by (eapply nth_error_In; eauto).
      apply In_join_pairs in Hin. destruct Hin as (t' & Hi' & Hk').
      apply Hno. assert (t' = t) by congruence. subst t'.
      eapply nth_error_In; eauto.
    + intros k t Hk Hno j i Hj.
      assert (Hin : In (i, k) (join_pairs rows ns)) by (eapply nth_error_In; eauto).
      apply In_join_pairs in Hin. destruct Hin as (t' & Hi' & Hk').
      apply Hno. assert (t' = t) by congruence. subst t'.
      eapply nth_error_In; eauto.
  - eexists. split; [reflexivity|]. split; [reflexivity|].
    split; [vm_compute; reflexivity|]. vm_compute. repeat split.
Qed.

Lemma merge_inner_join_witness :
  exists merged ms,
    merge_datasets three_half_hours later_demand = OK merged /\
    getitem merged "timestamp" = OK (STime ms) /\
    (forall t, In t ms <->
               In t [T0; T0 + 30 * minute; T0 + 60 * minute] /\
               In t [T0 + 30 * minute; T0 + 60 * minute; T0 + 90 * minute]) /\
    cell_at merged "timestamp" 1 = Some (CTime (T0 + 60 * minute)) /\
    cell_at merged "WIND" 1 = Some (CFloat (120 # 1)) /\
    cell_at merged "EMBEDDED_SOLAR_GENERATION" 1 = Some (CInt 16).
Proof.
  destruct (proj1 merge_inner_join three_half_hours later_demand
              [T0; T0 + 30 * minute; T0 + 60 * minute]
              ["WIND"; "WIND"; "WIND"]
              (SInt [100; 110; 120])
              [100 # 1; 110 # 1; 120 # 1]%Q
              [T0 + 30 * minute; T0 + 60 * minute; T0 + 90 * minute]
              eq_refl eq_refl eq_refl eq_refl)
    as (pv & rows & merged & ms & _ & _ & Run & Hms & _ & _ & _ & Both).
  { simpl. intros [E|[E|[E|[]]]]; discriminate E. }
  { reflexivity. }
  destruct (proj1 (proj2 merge_inner_join) three_half_hours later_demand _
              [T0 + 30 * minute; T0 + 60 * minute; T0 + 90 * minute] eq_refl eq_refl)
    as (rows' & merged' & Hrows & Run' & _ & Rows & _).
  { repeat constructor. }
  { simpl. intros c [<-|[<-|[]]] H; [reflexivity|].
    exfalso. destruct H as [E|[E|[E|[E|[E|[]]]]]]; discriminate E. }
  assert (E : merged' = merged) by congruence. subst merged'.
  vm_compute in Hrows. inversion Hrows; subst rows'; clear Hrows.
  destruct (Rows 1%nat 2%nat 1%nat eq_refl) as (t & Ht & _ & Ct & Left & Right).
  exists merged, ms. split; [exact Run|]. split; [exact Hms|]. split; [exact Both|].
  split; [|split].
  - rewrite Ct. inversion Ht. reflexivity.
  - rewrite (Left "WIND") by (simpl; tauto). reflexivity.
  - rewrite (Right "EMBEDDED_SOLAR_GENERATION") by (simpl; tauto || discriminate).
    reflexivity.
Defined.

(** ** The pipeline *)

Lemma fetch_pipeline_cases (w : World) (env : Env) :
  (exists e,
      step_fails w e /\
      snd (fetch_pipeline w env) = Raise e /\
      files (fst (fetch_pipeline w env)) = files env)
  \/
  (exists out,
      steps_succeed w out /\
      snd (fetch_pipeline w env) = OK tt /\
      files (fst (fetch_pipeline w env))
        = (fun p => if String.eqb p output_path then Some (csv_of out) else files env p) /\
      stdout (fst (fetch_pipeline w env))
        = (stdout env ++ [Line "Fetching BMRS data..."; Line "Fetching NESO data...";
                          Line "Merging datasets..."; Line "Processing data...";
                          Saved (nrows out)])%list).
Proof.
  unfold step_fails, steps_succeed, fetch_pipeline, mbind, print, lift, to_csv.
  destruct (fetch_bmrs_fuelinst w 24) as [a|e] eqn:Ha.
  2:{ left. exists e. simpl. auto. }
  destruct (fetch_neso_demand w 24) as [b|e] eqn:Hb.
  2:{ left. exists e. simpl. split; [right; left; eauto | auto]. }
  destruct (merge_datasets a b) as [m|e] eqn:Hm.
  2:{ left. exists e. simpl. split; [right; right; left; eauto 6 | auto]. }
  destruct (snd (process_merged m)) as [out|e] eqn:Hp.
  2:{ left. exists e. simpl. split; [right; right; right; eauto 8 | auto]. }
  right. exists out. simpl. repeat split; eauto 8.
  repeat rewrite <- app_assoc. reflexivity.
Qed.

(** C6.  A run in which a fetch, the merge or the aggregation raises ends with
    that exception and leaves every file as it was; a run raises only in that
    way; and a run that succeeds has replaced the output file by the CSV of
    the complete final table.  So the file is either untouched or whole. *)
Theorem fetch_pipeline_atomic (w : World) (env : Env) :
  (forall e, step_fails w e ->
             snd (fetch_pipeline w env) = Raise e /\
             files (fst (fetch_pipeline w env)) = files env) /\
  (forall e, snd (fetch_pipeline w env) = Raise e -> step_fails w e) /\
  (snd (fetch_pipeline w env) = OK tt ->
   exists out,
     steps_succeed w out /\
     forall p, files (fst (fetch_pipeline w env)) p
               = if String.eqb p output_path then Some (csv_of out) else files env p).
Proof.
  destruct (fetch_pipeline_cases w env) as [(e & F & R & K)|(out & S & R & K & _)].
  - split; [|split].
    + intros e' F'. split; [|exact K]. rewrite R. f_equal.
      unfold step_fails in F, F'.
      destruct F as [F|[(a & A & F)|[(a & b & A & B & F)|(a & b & m & A & B & M & F)]]];
      destruct F' as [F'|[(a' & A' & F')|[(a' & b' & A' & B' & F')
                                         |(a' & b' & m' & A' & B' & M' & F')]]];
      congruence.
    + intros e' R'. rewrite R in R'. inversion R'. subst e'. exact F.
    + rewrite R. discriminate.
  - split; [|split].
    + intros e F. exfalso.
      destruct S as (a & b & m & A & B & M & P).
      destruct F as [F|[(a' & A' & F)|[(a' & b' & A' & B' & F)
                                      |(a' & b' & m' & A' & B' & M' & F)]]];
        congruence.
    + rewrite R. discriminate.
    + intros _. exists out. split; [exact S|]. intro p. rewrite K. reflexivity.
Qed.

Lemma fetch_pipeline_atomic_witness :
  step_fails empty_stream_world (KeyError "settlementDate") /\
  snd (fetch_pipeline empty_stream_world stale_env) = Raise (KeyError "settlementDate") /\
  files (fst (fetch_pipeline empty_stream_world stale_env)) output_path = Some old_csv.
Proof.
  assert (F : step_fails empty_stream_world (KeyError "settlementDate"))
    by (left; reflexivity).
  destruct (proj1 (fetch_pipeline_atomic empty_stream_world stale_env) _ F) as (R & K).
  split; [exact F|]. split; [exact R|]. rewrite K. reflexivity.
Defined.

(** ** The empty join *)

Lemma merge_datasets_head (a b m : DataFrame) :
  merge_datasets a b = OK m ->
  exists ms rest, m = ("timestamp", STime ms) :: rest.
Proof.
  unfold merge_datasets, pivoted. intro H.
  bind_inv H. bind_inv Hx.
  unfold pivot_table in Hx0.
  bind_inv Hx0. bind_inv Hx0. bind_inv Hx0.
  destruct x2 as [l|l|ts|l]; try discriminate.
  destruct x3 as [l|l|l|fs]; try discriminate.
  destruct (series_num x1) as [vs|]; try discriminate.
  inversion Hx0; subst x0; clear Hx0.
  unfold reset_index in Hx. simpl index_name in Hx. simpl table in Hx. simpl index_values in Hx.
  destruct (existsb _ _); [discriminate|].
  inversion Hx; subst x; clear Hx.
  unfold merge_inner in H. bind_inv H. rewrite getitem_cons in H.
  simpl String.eqb in H. cbv iota beta delta [bind] in H.
  destruct x as [l|l|ns|l]; try discriminate.
  inversion H. eexists _, _. reflexivity.
Qed.

Lemma process_merged_nrows (ms : list Z) (rest out : DataFrame) :
  snd (process_merged (("timestamp", STime ms) :: rest)) = OK out ->
  nrows out = length ms.
Proof.
  intro H. pose proof (process_merged_returns_rounded _ _ H) as E.
  apply process_merged_state in H. destruct H as (tw & tg & tr & tf & tl & S).
  rewrite S in E. subst out.
  repeat rewrite setitem_cons_other by discriminate.
  reflexivity.
Qed.

(** C7, as amended.  When both fetches return and the join has no row, the
    merge raises nothing; if the aggregation then succeeds (the ten source
    columns are there), the run ends normally and replaces the output file by
    a CSV with the header line and no record. *)
Theorem empty_join_writes_header (w : World) (env : Env) (a b m out : DataFrame) :
  fetch_bmrs_fuelinst w 24 = OK a ->
  fetch_neso_demand w 24 = OK b ->
  merge_datasets a b = OK m ->
  nrows m = 0%nat ->
  snd (process_merged m) = OK out ->
  snd (fetch_pipeline w env) = OK tt /\
  files (fst (fetch_pipeline w env)) output_path = Some (mkCsv (columns out) []) /\
  stdout (fst (fetch_pipeline w env))
    = (stdout env ++ [Line "Fetching BMRS data..."; Line "Fetching NESO data...";
                      Line "Merging datasets..."; Line "Processing data...";
                      Saved 0])%list.
Proof.
  intros A B M Z P.
  assert (N : nrows out = 0%nat).
  { destruct (merge_datasets_head a b m M) as (ms & rest & ->).
    rewrite (process_merged_nrows ms rest out P). exact Z. }
  destruct (fetch_pipeline_cases w env) as [(e & F & _)|(out' & S & R & K & L)].
  - exfalso.
    destruct F as [F|[(a' & A' & F)|[(a' & b' & A' & B' & F)
                                    |(a' & b' & m' & A' & B' & M' & F)]]];
      congruence.
  - assert (E : out' = out).
    { destruct S as (a' & b' & m' & A' & B' & M' & P'). congruence. }
    subst out'. split; [exact R|]. rewrite K, L.
    rewrite String.eqb_refl. unfold csv_of. rewrite N. auto.
Qed.

Lemma empty_join_writes_header_witness :
  snd (fetch_pipeline disjoint_world stale_env) = OK tt /\
  files (fst (fetch_pipeline disjoint_world stale_env)) output_path
    = Some (mkCsv ["timestamp"; "BIOMASS"; "CCGT"; "COAL"; "NPSHYD"; "NUCLEAR"; "OCGT";
                   "OIL"; "WIND"; "SETTLEMENT_DATE"; "SETTLEMENT_PERIOD";
                   "EMBEDDED_WIND_GENERATION"; "EMBEDDED_SOLAR_GENERATION";
                   "TOTAL_WIND"; "TOTAL_GAS"; "TOTAL_RENEWABLE"; "TOTAL_FOSSIL_FUELS";
                   "TOTAL_LOW_CARBON"] []).
Proof.
  destruct (empty_join_writes_header disjoint_world stale_env _ _ _ _
              eq_refl eq_refl eq_refl eq_refl eq_refl) as (R & K & _).
  split; [exact R|]. exact K.
Defined.

(** C7 as stated fails: both feeds return rows, no timestamp is in both, and
    the run raises nothing: it overwrites the previous output with a file
    that has a header and no record. *)
Lemma empty_join_counterexample :
  exists a b m,
    fetch_bmrs_fuelinst disjoint_world 24 = OK a /\ nrows a = 8%nat /\
    fetch_neso_demand disjoint_world 24 = OK b /\ nrows b = 2%nat /\
    merge_datasets a b = OK m /\ nrows m = 0%nat /\
    files stale_env output_path = Some old_csv /\
    snd (fetch_pipeline disjoint_world stale_env) = OK tt /\
    option_map records (files (fst (fetch_pipeline disjoint_world stale_env)) output_path)
      = Some [].
Proof.
  eexists _, _, _.
  split; [vm_compute; reflexivity|]. split; [reflexivity|].
  split; [vm_compute; reflexivity|]. split; [reflexivity|].
  split; [vm_compute; reflexivity|]. split; [reflexivity|].
  split; [reflexivity|]. split; vm_compute; reflexivity.
Qed.

(** * Further properties of the code *)

(** ** The fetchers: failures and the window *)

Lemma getitem_raise (df : DataFrame) (k : string) (e : error) :
  getitem df k = Raise e -> e = KeyError k.
Proof.
  induction df as [|[c s] rest IH]; simpl.
  - intro H. inversion H. reflexivity.
  - destruct (String.eqb c k); [discriminate | exact IH].
Qed.

Lemma raise_for_status_spec (resp : Response) :
  (400 <= status_code resp < 600 -> raise_for_status resp = Raise HTTPError) /\
  (~ 400 <= status_code resp < 600 -> raise_for_status resp = OK tt).
Proof.
  unfold raise_for_status.
  destruct (Z.leb_spec 400 (status_code resp)), (Z.ltb_spec (status_code resp) 600);
    simpl; split; intros; try reflexivity; lia.
Qed.

Lemma period_out_of_range (p : Z) :
  5124096 <= Z.abs (p - 1) <= 307445734561825860 -> offset_ok p = false.
Proof.
  intro H. unfold offset_ok.
  rewrite (wrap64_small (p - 1)) by lia.
  rewrite wrap64_small by lia.
  destruct (in_int64_ns ((p - 1) * 30 * minute)) eqn:E; [|reflexivity].
  apply in_int64_ns_spec in E. unfold minute in E. lia.
Qed.

(** X1.  The ways [fetch_bmrs_fuelinst] fails, the clock showing a
    [datetime].  When [hours] is more than a [timedelta] holds, or the start
    of the window is no [datetime], it raises [OverflowError] before it asks
    the service anything.  Otherwise it fails
    when the request fails (with the request's exception), when the status is
    4xx or 5xx ([HTTPError], whatever the body), when the body of a good
    response is not JSON ([JSONDecodeError]), when it is the empty array
    ([KeyError] on [settlementDate]), and when the array has a period whose
    offset is more minutes than pandas holds as nanoseconds
    ([OutOfBoundsTimedelta]). *)
Theorem fetch_bmrs_fuelinst_errors (w : World) (hours : Z) :
  datetime_min <= bmrs_now w <= datetime_max ->
  (~ (- 999999999 <= hours / 24 <= 999999999 /\
      datetime_min <= bmrs_now w - timedelta_hours hours <= datetime_max) ->
   fetch_bmrs_fuelinst w hours = Raise OverflowError) /\
  (- 999999999 <= hours / 24 <= 999999999 ->
   datetime_min <= bmrs_now w - timedelta_hours hours <= datetime_max ->
   (forall e,
       bmrs_get w (strftime_seconds (bmrs_now w - timedelta_hours hours))
                  (strftime_seconds (bmrs_now w)) = Raise e ->
       fetch_bmrs_fuelinst w hours = Raise e) /\
   (forall resp,
       bmrs_get w (strftime_seconds (bmrs_now w - timedelta_hours hours))
                  (strftime_seconds (bmrs_now w)) = OK resp ->
       (400 <= status_code resp < 600 ->
        fetch_bmrs_fuelinst w hours = Raise HTTPError) /\
       (~ 400 <= status_code resp < 600 -> body resp = NotJSON ->
        fetch_bmrs_fuelinst w hours = Raise JSONDecodeError) /\
       (~ 400 <= status_code resp < 600 -> body resp = JSONArray [] ->
        fetch_bmrs_fuelinst w hours = Raise (KeyError "settlementDate")) /\
       (forall r rs x,
           ~ 400 <= status_code resp < 600 -> body resp = JSONArray (r :: rs) ->
           (forall y, In y (r :: rs) -> int64 (settlementPeriod y) = true) ->
           In x (r :: rs) ->
           5124096 <= Z.abs (settlementPeriod x - 1) <= 307445734561825860 ->
           fetch_bmrs_fuelinst w hours = Raise OutOfBoundsTimedelta))).
Proof.
  intros _. split.
  - intro N. unfold fetch_bmrs_fuelinst. rewrite (window_start_raise _ _ N). reflexivity.
  - intros Hd Hs. pose proof (window_start_run _ _ Hd Hs) as Hw.
    split.
    + intros e H. unfold fetch_bmrs_fuelinst. rewrite Hw. simpl. rewrite H. reflexivity.
    + intros resp H.
      destruct (raise_for_status_spec resp) as (Bad & Good).
      split; [|split; [|split]].
      * intro S. unfold fetch_bmrs_fuelinst. rewrite Hw. simpl. rewrite H. simpl.
        rewrite (Bad S). reflexivity.
      * intros S B. unfold fetch_bmrs_fuelinst. rewrite Hw. simpl. rewrite H. simpl.
        rewrite (Good S). simpl. unfold json. rewrite B. reflexivity.
      * intros S B. unfold fetch_bmrs_fuelinst. rewrite Hw. simpl. rewrite H. simpl.
        rewrite (Good S). simpl. unfold json. rewrite B. reflexivity.
      * intros r rs x S B _ Hx Hp.
        rewrite (fetch_bmrs_fuelinst_reply w hours _ resp r rs Hw H (Good S) B).
        assert (E : forallb offset_ok (map settlementPeriod (r :: rs)) = false).
        { destruct (forallb offset_ok (map settlementPeriod (r :: rs))) eqn:E;
            [|reflexivity].
          rewrite forallb_forall in E.
          rewrite <- (E (settlementPeriod x)) by (apply in_map; exact Hx).
          apply period_out_of_range. exact Hp. }
        rewrite E. reflexivity.
Qed.

Ltac closed := vm_compute; intuition congruence.

Lemma fetch_bmrs_fuelinst_errors_witness :
  fetch_bmrs_fuelinst unavailable_world 10000000000 = Raise OverflowError /\
  fetch_bmrs_fuelinst unavailable_world 24 = Raise HTTPError /\
  fetch_bmrs_fuelinst empty_stream_world 24 = Raise (KeyError "settlementDate") /\
  fetch_bmrs_fuelinst far_period_world 24 = Raise OutOfBoundsTimedelta.
Proof.
  assert (Hd : - 999999999 <= 24 / 24 <= 999999999) by closed.
  assert (Hn : forall now, now = T0 \/ now = T0 + 45 * minute ->
                           datetime_min <= now <= datetime_max)
    by (intros now [->| ->]; closed).
  assert (Hs : forall now, now = T0 \/ now = T0 + 45 * minute ->
                           datetime_min <= now - timedelta_hours 24 <= datetime_max)
    by (intros now [->| ->]; closed).
  split; [|split; [|split]].
  - apply (proj1 (fetch_bmrs_fuelinst_errors unavailable_world 10000000000
                    (Hn _ (or_intror eq_refl)))).
    closed.
  - apply (proj1 (proj2 (proj2 (fetch_bmrs_fuelinst_errors unavailable_world 24
                                  (Hn _ (or_intror eq_refl)))
                               Hd (Hs _ (or_intror eq_refl)))
                        _ eq_refl)).
    closed.
  - apply (proj1 (proj2 (proj2 (proj2 (proj2 (fetch_bmrs_fuelinst_errors
                                                empty_stream_world 24
                                                (Hn _ (or_introl eq_refl)))
                                             Hd (Hs _ (or_introl eq_refl)))
                                      _ eq_refl)))).
    + closed.
    + reflexivity.
  - apply (proj2 (proj2 (proj2 (proj2 (proj2 (fetch_bmrs_fuelinst_errors
                                                far_period_world 24
                                                (Hn _ (or_intror eq_refl)))
                                             Hd (Hs _ (or_intror eq_refl)))
                                      _ eq_refl)))
                 (mkFuelInst T0 1 "WIND" 100)
                 [mkFuelInst T0 307445734561825861 "WIND" 100]
                 (mkFuelInst T0 307445734561825861 "WIND" 100)).
    + closed.
    + reflexivity.
    + intros y [<-|[<-|[]]]; reflexivity.
    + right. left. reflexivity.
    + closed.
Defined.

(** X2.  On a good response with a non-empty array whose period offsets and
    timestamps are within the range of pandas, the clock and the start of
    the window being instants pandas holds, [fetch_bmrs_fuelinst] returns the
    five-column frame of exactly the objects whose timestamp lies between
    [now - hours] and [now], both ends included, in the order of the array;
    a negative [hours] leaves none. *)
Theorem fetch_bmrs_fuelinst_window (w : World) (hours : Z) (resp : Response)
        (r : FuelInst) (rs : list FuelInst) :
  in_int64_ns (bmrs_now w) = true ->
  in_int64_ns (bmrs_now w - timedelta_hours hours) = true ->
  bmrs_get w (strftime_seconds (bmrs_now w - timedelta_hours hours))
             (strftime_seconds (bmrs_now w)) = OK resp ->
  raise_for_status resp = OK tt ->
  body resp = JSONArray (r :: rs) ->
  forallb row_ok (r :: rs) = true ->
  exists kept,
    fetch_bmrs_fuelinst w hours = OK (fuel_frame kept) /\
    kept = filter (fun x => (bmrs_now w - timedelta_hours hours <=? stamp x)
                            && (stamp x <=? bmrs_now w)) (r :: rs) /\
    (forall x, In x kept <->
               In x (r :: rs) /\
               bmrs_now w - timedelta_hours hours <= stamp x <= bmrs_now w) /\
    nrows (fuel_frame kept) = length kept /\
    (hours < 0 -> kept = []).
Proof.
  intros Hnow Hstart Hget Hst Hbody Hok.
  pose proof (fetch_bmrs_fuelinst_run w hours _ resp r rs
                (window_start_pandas _ _ Hnow Hstart) Hget Hst Hbody Hok) as Run.
  cbv zeta in Run.
  eexists. split; [exact Run|]. split; [reflexivity|]. split; [|split].
  - intro x. rewrite filter_In, andb_true_iff, Z.leb_le, Z.leb_le. tauto.
  - unfold fuel_frame, nrows, series_len. apply length_map.
  - intro Neg.
    assert (E : forall l,
               filter (fun x => (bmrs_now w - timedelta_hours hours <=? stamp x)
                                && (stamp x <=? bmrs_now w)) l = []).
    { induction l as [|x l IH]; simpl; auto.
      destruct (Z.leb_spec (bmrs_now w - timedelta_hours hours) (stamp x));
        destruct (Z.leb_spec (stamp x) (bmrs_now w)); simpl; auto.
      unfold timedelta_hours, hour, minute in *. lia. }
    apply E.
Qed.

Lemma fetch_bmrs_fuelinst_window_witness :
  fetch_bmrs_fuelinst three_days_world 24
  = OK (fuel_frame [mkFuelInst T0 1 "WIND" 100; mkFuelInst T0 2 "WIND" 110]).
Proof.
  destruct (fetch_bmrs_fuelinst_window three_days_world 24 _ _ _
              eq_refl eq_refl eq_refl eq_refl eq_refl eq_refl)
    as (kept & Run & K & _).
  rewrite Run, K. reflexivity.
Defined.

Lemma In_missing_columns (df : DataFrame) (keys : list string) (c : string) :
  In c (missing_columns df keys) <-> In c keys /\ getitem df c = Raise (KeyError c).
Proof.
  unfold missing_columns. rewrite filter_In. split; intros (H & G); split; auto.
  - destruct (getitem df c) as [s|e] eqn:E; [discriminate|].
    apply getitem_raise in E as ->. reflexivity.
  - rewrite G. reflexivity.
Qed.

(** X3.  [fetch_neso_demand] passes on the exception of a failed download;
    when the download lacks some of its four columns it raises one
    [KeyError] that names every column it lacks, in the order the function
    lists them; on a download that has the four, the dates as datetimes and
    the periods as integers, with offsets and timestamps within the range of
    pandas, the clock and the start of the window being instants pandas
    holds, it returns; and what it returns has exactly five columns, the four
    it selects, as the download has them within the window, and [timestamp],
    any other column of the download being dropped. *)
Theorem fetch_neso_demand_shape (w : World) (hours : Z) :
  (forall e, neso_read_csv w = Raise e -> fetch_neso_demand w hours = Raise e) /\
  (forall csv,
      neso_read_csv w = OK csv ->
      missing_columns csv neso_columns <> [] ->
      fetch_neso_demand w hours
      = Raise (KeyErrorNotInIndex (missing_columns csv neso_columns))) /\
  (forall csv c,
      In c (missing_columns csv neso_columns) <->
      In c neso_columns /\ getitem csv c = Raise (KeyError c)) /\
  (forall csv D P wind solar,
      neso_read_csv w = OK csv ->
      getitem csv "SETTLEMENT_DATE" = OK (STime D) ->
      getitem csv "SETTLEMENT_PERIOD" = OK (SInt P) ->
      getitem csv "EMBEDDED_WIND_GENERATION" = OK wind ->
      getitem csv "EMBEDDED_SOLAR_GENERATION" = OK solar ->
      columns_ok D P = true ->
      in_int64_ns (neso_now w) = true ->
      in_int64_ns (neso_now w - timedelta_hours hours) = true ->
      exists df,
        fetch_neso_demand w hours = OK df /\
        columns df = (neso_columns ++ ["timestamp"])%list /\
        df = df_mask (demand_frame D P wind solar)
                     (map (fun t => (neso_now w - timedelta_hours hours <=? t)
                                    && (t <=? neso_now w))
                          (zip_with stamp_of D P))) /\
  (forall df,
      fetch_neso_demand w hours = OK df ->
      columns df = (neso_columns ++ ["timestamp"])%list /\
      exists csv D P wind solar,
        neso_read_csv w = OK csv /\
        getitem csv "SETTLEMENT_DATE" = OK (STime D) /\
        getitem csv "SETTLEMENT_PERIOD" = OK (SInt P) /\
        getitem csv "EMBEDDED_WIND_GENERATION" = OK wind /\
        getitem csv "EMBEDDED_SOLAR_GENERATION" = OK solar /\
        df = df_mask (demand_frame D P wind solar)
                     (map (fun t => (neso_now w - timedelta_hours hours <=? t)
                                    && (t <=? neso_now w))
                          (zip_with stamp_of D P))).
Proof.
  split; [|split; [|split; [|split]]].
  - intros e H. unfold fetch_neso_demand. rewrite H. reflexivity.
  - intros csv H M.
    unfold fetch_neso_demand. rewrite H. cbv beta iota delta [bind].
    fold neso_columns. rewrite (select_raise csv neso_columns M). reflexivity.
  - intros csv c. apply In_missing_columns.
  - intros csv D P wind solar Hcsv HD HP HW HS Hok Hnow Hstart.
    pose proof (fetch_neso_demand_run w hours _ csv D P wind solar
                  Hcsv HD HP HW HS Hok (window_start_pandas _ _ Hnow Hstart)) as Run.
    cbv zeta in Run.
    eexists. split; [exact Run|]. split; reflexivity.
  - intros df H.
    destruct (fetch_neso_demand_inv w hours df H)
      as (csv & D & P & wind & solar & Hcsv & HD & HP & HW & HS & -> & _).
    split; [reflexivity|].
    exists csv, D, P, wind, solar. auto 10.
Qed.

Lemma fetch_neso_demand_shape_witness :
  fetch_neso_demand unavailable_world 24 = Raise ParserError /\
  fetch_neso_demand no_solar_world 24
  = Raise (KeyErrorNotInIndex ["EMBEDDED_SOLAR_GENERATION"]) /\
  fetch_neso_demand no_embedded_world 24
  = Raise (KeyErrorNotInIndex ["EMBEDDED_WIND_GENERATION"; "EMBEDDED_SOLAR_GENERATION"]) /\
  exists df,
    fetch_neso_demand three_days_world 24 = OK df /\
    columns df = ["SETTLEMENT_DATE"; "SETTLEMENT_PERIOD"; "EMBEDDED_WIND_GENERATION";
                  "EMBEDDED_SOLAR_GENERATION"; "timestamp"].
Proof.
  split; [|split; [|split]].
  - exact (proj1 (fetch_neso_demand_shape unavailable_world 24) _ eq_refl).
  - apply (proj1 (proj2 (fetch_neso_demand_shape no_solar_world 24)) _ eq_refl).
    discriminate.
  - apply (proj1 (proj2 (fetch_neso_demand_shape no_embedded_world 24)) _ eq_refl).
    discriminate.
  - destruct (proj1 (proj2 (proj2 (proj2 (fetch_neso_demand_shape three_days_world 24))))
                _ _ _ _ _ eq_refl eq_refl eq_refl eq_refl eq_refl
                eq_refl eq_refl eq_refl)
      as (df & Run & Cols & _).
    exists df. split; [exact Run | exact Cols].
Defined.

Lemma in_filter_window (lo hi : Z) (l : list Z) (t : Z) :
  In t (filter (fun t => (lo <=? t) && (t <=? hi)) l) -> lo <= t <= hi.
Proof.
  rewrite filter_In, andb_true_iff, Z.leb_le, Z.leb_le. tauto.
Qed.

(** X4.  Whatever either fetcher returns has a datetime [timestamp] column,
    and every timestamp in it lies between [now - hours] and [now], both ends
    included. *)
Theorem fetch_window_sound (w : World) (hours : Z) (df : DataFrame) :
  (fetch_bmrs_fuelinst w hours = OK df ->
   exists T,
     getitem df "timestamp" = OK (STime T) /\
     forall t, In t T -> bmrs_now w - timedelta_hours hours <= t <= bmrs_now w) /\
  (fetch_neso_demand w hours = OK df ->
   exists T,
     getitem df "timestamp" = OK (STime T) /\
     forall t, In t T -> neso_now w - timedelta_hours hours <= t <= neso_now w).
Proof.
  split; intro H.
  - destruct (fetch_bmrs_fuelinst_inv w hours df H)
      as (resp & r & rs & _ & _ & _ & _ & _ & _ & ->).
    eexists. split; [apply timestamp_of_fuel_frame|].
    intros t Ht. apply in_map_iff in Ht. destruct Ht as (x & <- & Hx).
    apply filter_In in Hx. destruct Hx as (_ & Hx).
    rewrite andb_true_iff, Z.leb_le, Z.leb_le in Hx. exact Hx.
  - destruct (fetch_neso_demand_inv w hours df H)
      as (csv & D & P & wind & solar & _ & _ & _ & _ & _ & -> & _).
    eexists. split.
    + rewrite getitem_df_mask. simpl. rewrite mask_filter_pred. reflexivity.
    + intros t. apply in_filter_window.
Qed.

Lemma fetch_window_sound_witness :
  exists df T,
    fetch_neso_demand three_days_world 24 = OK df /\
    getitem df "timestamp" = OK (STime T) /\
    forall t, In t T -> T0 + 45 * minute - 24 * hour <= t <= T0 + 45 * minute.
Proof.
  destruct (proj2 (fetch_window_sound three_days_world 24 _) eq_refl) as (T & HT & In_w).
  eexists. exists T. split; [reflexivity|]. split; [exact HT|]. exact In_w.
Defined.

(** ** process_merged: missing columns and what is left alone *)

Ltac missing G Hfm :=
  inversion Hfm; subst;
  let E := fresh "E" in
  pose proof (getitem_raise _ _ _ G) as E; subst;
  split; [run_merged; frame; rewrite G; reflexivity
         | split; [simpl; tauto | exact G]].

Ltac present Hnum c s G N :=
  assert (N : numeric (2 ^ 60) s) by (apply (Hnum c s); [simpl; tauto | exact G]).

Lemma process_merged_first_missing (df : DataFrame) (c : string) :
  (forall c' s, In c' source_columns -> getitem df c' = OK s -> numeric (2 ^ 60) s) ->
  first_missing df = Some c ->
  snd (process_merged df) = Raise (KeyError c) /\
  In c source_columns /\
  getitem df c = Raise (KeyError c).
Proof.
  intros Hnum Hfm. unfold first_missing in Hfm. simpl in Hfm.
  destruct (getitem df "WIND") as [w|e] eqn:Gw; simpl in Hfm; [|missing Gw Hfm].
  present Hnum "WIND" w Gw Nw.
  destruct (getitem df "EMBEDDED_WIND_GENERATION") as [sew|e] eqn:Gew; simpl in Hfm;
    [|missing Gew Hfm].
  present Hnum "EMBEDDED_WIND_GENERATION" sew Gew New.
  sum (2 ^ 60) (2 ^ 60) w sew Nw New stw Atw Ntw Rtw.
  destruct (getitem df "CCGT") as [cc|e] eqn:Gcc; simpl in Hfm; [|missing Gcc Hfm].
  present Hnum "CCGT" cc Gcc Ncc.
  destruct (getitem df "OCGT") as [oc|e] eqn:Goc; simpl in Hfm; [|missing Goc Hfm].
  present Hnum "OCGT" oc Goc Noc.
  sum (2 ^ 60) (2 ^ 60) cc oc Ncc Noc stg Atg Ntg Rtg.
  destruct (getitem df "EMBEDDED_SOLAR_GENERATION") as [ses|e] eqn:Ges; simpl in Hfm;
    [|missing Ges Hfm].
  present Hnum "EMBEDDED_SOLAR_GENERATION" ses Ges Nes.
  sum (2 ^ 60 + 2 ^ 60) (2 ^ 60) stw ses Ntw Nes s1 A1 N1 R1.
  destruct (getitem df "NPSHYD") as [np|e] eqn:Gnp; simpl in Hfm; [|missing Gnp Hfm].
  present Hnum "NPSHYD" np Gnp Nnp.
  sum (2 ^ 60 + 2 ^ 60 + 2 ^ 60) (2 ^ 60) s1 np N1 Nnp str Atr Ntr Rtr.
  destruct (getitem df "COAL") as [co|e] eqn:Gco; simpl in Hfm; [|missing Gco Hfm].
  present Hnum "COAL" co Gco Nco.
  sum (2 ^ 60 + 2 ^ 60) (2 ^ 60) stg co Ntg Nco s2 A2 N2 R2.
  destruct (getitem df "OIL") as [oi|e] eqn:Goi; simpl in Hfm; [|missing Goi Hfm].
  present Hnum "OIL" oi Goi Noi.
  sum (2 ^ 60 + 2 ^ 60 + 2 ^ 60) (2 ^ 60) s2 oi N2 Noi stf Atf Ntf Rtf.
  destruct (getitem df "BIOMASS") as [bi|e] eqn:Gbi; simpl in Hfm; [|missing Gbi Hfm].
  present Hnum "BIOMASS" bi Gbi Nbi.
  sum (2 ^ 60 + 2 ^ 60 + 2 ^ 60 + 2 ^ 60) (2 ^ 60) str bi Ntr Nbi s3 A3 N3 R3.
  destruct (getitem df "NUCLEAR") as [nu|e] eqn:Gnu; simpl in Hfm; [|missing Gnu Hfm].
  discriminate Hfm.
Qed.

(** X5.  On a table whose source columns, where present, are numeric,
    [process_merged] raises [KeyError] for the first source column, in its
    reading order, that the table lacks; and a run of the pipeline whose
    merged table is such a table ends with that [KeyError] and leaves every
    file as it was. *)
Theorem missing_column_aborts :
  (forall df c,
      (forall c' s, In c' source_columns -> getitem df c' = OK s -> numeric (2 ^ 60) s) ->
      first_missing df = Some c ->
      snd (process_merged df) = Raise (KeyError c) /\
      In c source_columns /\
      getitem df c = Raise (KeyError c)) /\
  (forall w env a b m c,
      fetch_bmrs_fuelinst w 24 = OK a ->
      fetch_neso_demand w 24 = OK b ->
      merge_datasets a b = OK m ->
      (forall c' s, In c' source_columns -> getitem m c' = OK s -> numeric (2 ^ 60) s) ->
      first_missing m = Some c ->
      snd (fetch_pipeline w env) = Raise (KeyError c) /\
      files (fst (fetch_pipeline w env)) = files env).
Proof.
  split; [exact process_merged_first_missing|].
  intros w env a b m c A B M Hnum Hfm.
  destruct (process_merged_first_missing m c Hnum Hfm) as (P & _).
  destruct (fetch_pipeline_cases w env) as [(e & F & R & K)|(out & S & _)].
  - split; [|exact K]. rewrite R. f_equal.
    destruct F as [F|[(a' & A' & F)|[(a' & b' & A' & B' & F)
                                    |(a' & b' & m' & A' & B' & M' & F)]]];
      congruence.
  - exfalso. destruct S as (a' & b' & m' & A' & B' & M' & P'). congruence.
Qed.

Ltac numeric_columns Hc :=
  repeat (destruct Hc as [<-|Hc];
          [match goal with
           | |- context [getitem ?m ?c] =>
               let r := eval vm_compute in (getitem m c) in
               change (getitem m c) with r
           end;
           cbv beta iota;
           first [exact I | repeat (apply Forall_cons; [lia|]); apply Forall_nil]|]);
  contradiction.

Lemma missing_column_aborts_witness :
  snd (process_merged no_oil_row) = Raise (KeyError "OIL") /\
  snd (fetch_pipeline no_oil_world stale_env) = Raise (KeyError "OIL") /\
  files (fst (fetch_pipeline no_oil_world stale_env)) output_path = Some old_csv.
Proof.
  assert (N : forall df : DataFrame,
             (forall c, In c source_columns ->
                        match getitem df c with
                        | OK (SFloat _) => True
                        | OK (SInt l) => Forall (fun z => Z.abs z <= 2 ^ 60) l
                        | OK _ => False
                        | Raise _ => True
                        end) ->
             forall c s, In c source_columns -> getitem df c = OK s -> numeric (2 ^ 60) s).
  { intros df H c s Hc G. specialize (H c Hc). rewrite G in H.
    destruct s; simpl; auto. }
  split; [|].
  - apply (proj1 missing_column_aborts no_oil_row "OIL"); [|reflexivity].
    apply N. intros c Hc. simpl in Hc. numeric_columns Hc.
  - destruct (proj2 missing_column_aborts no_oil_world stale_env _ _ _ "OIL"
                    eq_refl eq_refl eq_refl) as (R & K).
    + apply N. intros c Hc. simpl in Hc. numeric_columns Hc.
    + reflexivity.
    + split; [exact R|]. rewrite K. reflexivity.
Defined.

Lemma columns_setitem (df : DataFrame) (k : string) (s : Series) :
  exists added,
    columns (setitem df k s) = (columns df ++ added)%list /\
    forall c, In c added -> c = k.
Proof.
  induction df as [|[c0 s0] rest IH]; simpl.
  - exists [k]. split; [reflexivity|]. intros c [<-|[]]. reflexivity.
  - destruct (String.eqb c0 k); simpl.
    + exists []. rewrite app_nil_r. split; [reflexivity|]. intros c [].
    + destruct IH as (a & E & Ha). exists a. rewrite E. split; [reflexivity|exact Ha].
Qed.

Lemma columns_setitem_total (df d : DataFrame) (k : string) (s : Series) :
  In k total_columns ->
  (exists added, columns d = (columns df ++ added)%list /\
                 forall c, In c added -> In c total_columns) ->
  exists added, columns (setitem d k s) = (columns df ++ added)%list /\
                forall c, In c added -> In c total_columns.
Proof.
  intros Hk (a & E & Ha).
  destruct (columns_setitem d k s) as (b & Eb & Hb).
  exists (a ++ b)%list. rewrite Eb, E, app_assoc. split; [reflexivity|].
  intros c Hc. apply in_app_or in Hc. destruct Hc as [Hc|Hc].
  - apply Ha, Hc.
  - rewrite (Hb c Hc). exact Hk.
Qed.

(** X6.  [process_merged] assigns to the five aggregate columns and to
    nothing else: whether it returns or raises, every column of the caller's
    table with another name is what it was before the call, and the table's
    columns afterwards are the columns before, in the same order, followed
    only by aggregate names. *)
Theorem process_merged_assigns_totals_only (df : DataFrame) :
  (forall c, ~ In c total_columns ->
             getitem (fst (process_merged df)) c = getitem df c) /\
  (exists added,
      columns (fst (process_merged df)) = (columns df ++ added)%list /\
      forall c, In c added -> In c total_columns).
Proof.
  split.
  - intros c H. apply process_merged_other_columns, H.
  - run_merged. step_merged; cbv beta iota; simpl fst;
      repeat (apply columns_setitem_total; [simpl; tauto|]);
      (exists []; rewrite app_nil_r; split; [reflexivity|intros c []]).
Qed.

Lemma process_merged_assigns_totals_only_witness :
  getitem (fst (process_merged no_oil_row)) "WIND" = OK (SFloat [100 # 1]%Q) /\
  getitem (fst (process_merged scenario_row)) "timestamp" = OK (STime [T0]).
Proof.
  split.
  - rewrite (proj1 (process_merged_assigns_totals_only no_oil_row) "WIND");
      [reflexivity|].
    simpl. intros [E|[E|[E|[E|[E|[]]]]]]; discriminate E.
  - rewrite (proj1 (process_merged_assigns_totals_only scenario_row) "timestamp");
      [reflexivity|].
    simpl. intros [E|[E|[E|[E|[E|[]]]]]]; discriminate E.
Defined.

(** X7.  When [process_merged] returns, the table had all ten source columns,
    and every column of the result that is not one of the five aggregates is
    the column of the input, rounded to 2 decimals if it holds floats and
    untouched otherwise. *)
Theorem process_merged_returns_sources (df out : DataFrame) :
  snd (process_merged df) = OK out ->
  (forall c, In c source_columns -> exists s, getitem df c = OK s) /\
  (forall c, ~ In c total_columns ->
             getitem out c = match getitem df c with
                             | OK s => OK (series_round 2 s)
                             | Raise e => Raise e
                             end) /\
  (forall c l, ~ In c total_columns ->
               (getitem df c = OK (STime l) -> getitem out c = OK (STime l)) /\
               (getitem df c = OK (SInt l) -> getitem out c = OK (SInt l))).
Proof.
  intro H.
  assert (Shape : forall c, ~ In c total_columns ->
                            getitem out c = match getitem df c with
                                            | OK s => OK (series_round 2 s)
                                            | Raise e => Raise e
                                            end).
  { intros c Hc. rewrite (process_merged_returns_rounded df out H).
    rewrite getitem_df_round, (process_merged_other_columns df c Hc).
    reflexivity. }
  split; [|split].
  - clear Shape. revert H. run_merged. step_merged; cbv beta iota; simpl snd;
      try discriminate.
    intros _ c Hc. simpl in Hc.
    repeat (destruct Hc as [<-|Hc]; [eauto|]). contradiction.
  - exact Shape.
  - intros c l Hc. split; intro G; rewrite (Shape c Hc), G; reflexivity.
Qed.

Lemma process_merged_returns_sources_witness :
  exists out,
    snd (process_merged scenario_row) = OK out /\
    getitem out "timestamp" = OK (STime [T0]) /\
    getitem out "EMBEDDED_WIND_GENERATION" = OK (SInt [20]).
Proof.
  eexists. split; [reflexivity|].
  destruct (process_merged_returns_sources scenario_row _ eq_refl) as (_ & _ & Keep).
  split.
  - apply (proj1 (Keep "timestamp" [T0]
                       ltac:(simpl; intros [E|[E|[E|[E|[E|[]]]]]]; discriminate E))).
    reflexivity.
  - apply (proj2 (Keep "EMBEDDED_WIND_GENERATION" [20]
                       ltac:(simpl; intros [E|[E|[E|[E|[E|[]]]]]]; discriminate E))).
    reflexivity.
Defined.

(** ** process_merged: accuracy of the returned aggregates *)



(** ** process_merged: rows are aggregated one by one *)










(** ** merge_datasets: the order of the rows *)

Section PlaceSorted.
Context {A : Type} (leb : A -> A -> bool).
Hypothesis leb_total : forall x y, leb x y = true \/ leb y x = true.

Let le (x y : A) : Prop := leb x y = true.

Lemma place_sorted (x : A) (l : list A) : Sorted le l -> Sorted le (place leb x l).
Proof.
  induction l as [|y l IH]; simpl; intro S.
  - repeat constructor.
  - destruct (leb x y) eqn:E.
    + constructor; [exact S|]. constructor. exact E.
    + assert (Hyx : le y x) by (destruct (leb_total x y); [congruence | assumption]).
      inversion S as [|? ? S' Hd]; subst.
      constructor; [apply IH; exact S'|].
      destruct l as [|z l]; simpl.
      * constructor. exact Hyx.
      * destruct (leb x z); constructor; [exact Hyx|].
        inversion Hd. assumption.
Qed.

Lemma ascending_sorted (l : list A) : Sorted le (ascending leb l).
Proof.
  induction l as [|x l IH]; simpl; [constructor | apply place_sorted; exact IH].
Qed.
End PlaceSorted.

Lemma group_labels_Z_sorted (ts : list Z) :
  StronglySorted Z.lt (group_labels Z.eqb Z.leb ts).
Proof.
  pose proof (NoDup_group_labels Z.eqb Z.leb Z.eqb_eq ts) as ND.
  assert (S : StronglySorted Z.le (group_labels Z.eqb Z.leb ts)).
  { apply Sorted_StronglySorted; [intros x y z; apply Z.le_trans|].
    unfold group_labels.
    assert (T : forall x y, (x <=? y) = true \/ (y <=? x) = true)
      by (intros x y; rewrite !Z.leb_le; lia).
    pose proof (ascending_sorted Z.leb T (distinct Z.eqb ts)) as S.
    induction S as [|x l S IH Hd]; constructor; auto.
    destruct Hd; constructor. apply Z.leb_le. assumption. }
  induction S as [|x l S IH F]; constructor.
  - apply IH. inversion ND. assumption.
  - inversion ND as [|? ? Hx _]; subst.
    rewrite Forall_forall in *. intros y Hy.
    specialize (F y Hy). assert (x <> y) by (intro E; subst; contradiction). lia.
Qed.

Lemma StronglySorted_app {A : Type} (R : A -> A -> Prop) (l1 l2 : list A) :
  StronglySorted R l1 -> StronglySorted R l2 ->
  (forall x y, In x l1 -> In y l2 -> R x y) ->
  StronglySorted R (l1 ++ l2).
Proof.
  intros S1 S2 H. induction S1 as [|x l1 S1 IH F]; simpl; [exact S2|].
  constructor.
  - apply IH. intros a b Ha Hb. apply H; [right; exact Ha | exact Hb].
  - rewrite Forall_forall in *. intros y Hy. apply in_app_or in Hy.
    destruct Hy as [Hy|Hy]; [apply F; exact Hy | apply H; [left; reflexivity | exact Hy]].
Qed.

Lemma joined_sorted (R : Z -> Z -> Prop) (block : Z -> list Z) (rows : list Z) :
  StronglySorted R rows ->
  (forall t x, In x (block t) -> x = t) ->
  (forall t, StronglySorted R (block t)) ->
  StronglySorted R (flat_map block rows).
Proof.
  intros S Hb Sb. induction S as [|t rows S IH F]; simpl; [constructor|].
  apply StronglySorted_app; [apply Sb | exact IH |].
  intros x y Hx Hy. apply Hb in Hx. subst x.
  apply in_flat_map in Hy. destruct Hy as (u & Hu & Hy). apply Hb in Hy. subst y.
  rewrite Forall_forall in F. apply F. exact Hu.
Qed.

Lemma filter_eqb_NoDup (t : Z) (ns : list Z) :
  NoDup ns -> filter (Z.eqb t) ns = [] \/ filter (Z.eqb t) ns = [t].
Proof.
  induction 1 as [|x ns Hx ND IH]; simpl; [left; reflexivity|].
  destruct (Z.eqb_spec t x) as [->|N]; [|exact IH].
  right. f_equal.
  destruct IH as [E|E]; [exact E|].
  exfalso. apply Hx.
  assert (I : In x (filter (Z.eqb x) ns)) by (rewrite E; left; reflexivity).
  apply filter_In in I. tauto.
Qed.

Lemma joined_rows (rows ns : list Z) :
  take_rows (map fst (join_pairs rows ns)) rows
  = flat_map (fun t => map (fun _ => t) (filter (Z.eqb t) ns)) rows.
Proof.
  rewrite take_rows_join. apply flat_map_ext. intro t.
  rewrite <- (map_snd_enumerate ns) at 2.
  generalize (enumerate ns). intro l.
  induction l as [|jb l IH]; simpl; auto.
  destruct (t =? snd jb); simpl; rewrite IH; reflexivity.
Qed.

(** X10.  The rows of the table [merge_datasets] returns are in
    chronological order, and when the demand table has each timestamp once,
    so has the merged table: its timestamps strictly increase. *)
Theorem merge_datasets_chronological
        (bmrs neso : DataFrame) (ts : list Z) (fs : list string) (v : Series)
        (vs : list Q) (ns : list Z) :
  getitem bmrs "timestamp" = OK (STime ts) ->
  getitem bmrs "fuelType" = OK (SStr fs) ->
  getitem bmrs "generation" = OK v ->
  series_num v = Some vs ->
  ~ In "timestamp" fs ->
  getitem neso "timestamp" = OK (STime ns) ->
  exists merged ms,
    merge_datasets bmrs neso = OK merged /\
    getitem merged "timestamp" = OK (STime ms) /\
    nrows merged = length ms /\
    StronglySorted Z.le ms /\
    (NoDup ns -> StronglySorted Z.lt ms /\ NoDup ms).
Proof.
  intros Ht Hf Hv Hn Hno Hns.
  pose proof (pivoted_run bmrs ts fs v vs Ht Hf Hv Hn Hno) as Run.
  destruct (merge_inner_timestamps (pivot_cells ts fs vs) neso
              (group_labels Z.eqb Z.leb ts) ns Hns) as (merged & Hm & Hk & Hlen).
  exists merged. eexists.
  split; [unfold merge_datasets; rewrite Run; exact Hm|].
  split; [exact Hk|]. split; [exact Hlen|].
  rewrite joined_rows.
  pose proof (group_labels_Z_sorted ts) as S.
  assert (Same : forall t x, In x (map (fun _ : Z => t) (filter (Z.eqb t) ns)) -> x = t).
  { intros t x Hx. apply in_map_iff in Hx. destruct Hx as (? & E & _). auto. }
  split.
  - apply joined_sorted; [| exact Same |].
    + clear - S. induction S as [|x l S IH F]; constructor; auto.
      rewrite Forall_forall in *. intros y Hy. specialize (F y Hy). lia.
    + intro t. generalize (filter (Z.eqb t) ns). intro l.
      induction l as [|a l IH]; simpl; constructor; auto.
      rewrite Forall_forall. intros x Hx. apply in_map_iff in Hx.
      destruct Hx as (? & <- & _). lia.
  - intro ND.
    assert (SL : StronglySorted Z.lt
                   (flat_map (fun t => map (fun _ => t) (filter (Z.eqb t) ns))
                             (group_labels Z.eqb Z.leb ts))).
    { apply joined_sorted; [exact S | exact Same |].
      intro t. destruct (filter_eqb_NoDup t ns ND) as [E|E]; rewrite E; simpl;
        repeat constructor. }
    split; [exact SL|].
    clear - SL. induction SL as [|x l SL IH F]; constructor; auto.
    rewrite Forall_forall in F. intro Hx. specialize (F x Hx). lia.
Qed.

Lemma merge_datasets_chronological_witness :
  exists merged ms,
    merge_datasets three_half_hours later_demand = OK merged /\
    getitem merged "timestamp" = OK (STime ms) /\
    StronglySorted Z.lt ms.
Proof.
  destruct (merge_datasets_chronological three_half_hours later_demand
              [T0; T0 + 30 * minute; T0 + 60 * minute]
              ["WIND"; "WIND"; "WIND"]
              (SInt [100; 110; 120])
              [100 # 1; 110 # 1; 120 # 1]%Q
              [T0 + 30 * minute; T0 + 60 * minute; T0 + 90 * minute]
              eq_refl eq_refl eq_refl eq_refl)
    as (merged & ms & Run & Hms & _ & _ & Strict).
  { simpl. intros [E|[E|[E|[]]]]; discriminate E. }
  { reflexivity. }
  exists merged, ms. split; [exact Run|]. split; [exact Hms|].
  apply Strict.
  repeat (constructor; [vm_compute; intuition discriminate|]). constructor.
Defined.

(** ** merge_datasets: what a merged row holds *)

(** X11.  Every row of the merged table is one row of the pivoted fuel table
    and one row of the demand table with the same timestamp, side by side:
    the row holds, column by column, the entries of both; and every such pair
    of rows gives a row.  (The demand table is rectangular and shares no
    column name with the pivot but [timestamp].) *)
Theorem merge_datasets_rows (bmrs neso pv : DataFrame) (ns : list Z) :
  pivoted bmrs = OK pv ->
  getitem neso "timestamp" = OK (STime ns) ->
  rectangular neso (length ns) ->
  (forall c, In c (columns pv) -> In c (columns neso) -> c = "timestamp") ->
  exists rows merged,
    getitem pv "timestamp" = OK (STime rows) /\
    merge_datasets bmrs neso = OK merged /\
    rectangular merged (length (join_pairs rows ns)) /\
    (forall i k t,
        nth_error rows i = Some t -> nth_error ns k = Some t ->
        In (i, k) (join_pairs rows ns)) /\
    forall j i k,
      nth_error (join_pairs rows ns) j = Some (i, k) ->
      (exists t,
          nth_error rows i = Some t /\ nth_error ns k = Some t /\
          cell_at merged "timestamp" j = Some (CTime t)) /\
      (forall c, In c (columns pv) -> cell_at merged c j = cell_at pv c i) /\
      (forall c, In c (columns neso) -> cell_at merged c j = cell_at neso c k).
Proof.
  intros Hpv Hns Rn Clash.
  destruct (pivoted_inv bmrs pv Hpv) as (ts & fs & v & vs & _ & _ & _ & _ & _ & ->).
  set (rows := group_labels Z.eqb Z.leb ts) in *.
  set (pv := ("timestamp", STime rows) :: pivot_cells ts fs vs) in *.
  assert (Gk : getitem pv "timestamp" = OK (STime rows)) by reflexivity.
  destruct (merge_inner_rows pv neso "timestamp" rows ns Gk Hns
              (rectangular_pivoted ts fs vs) Rn Clash)
    as (merged & Hm & _ & Rm & Rows).
  exists rows, merged.
  split; [exact Gk|].
  split; [unfold merge_datasets; rewrite Hpv; exact Hm|].
  split; [exact Rm|].
  split; [intros i k t Hi Hk; apply In_join_pairs; eauto|].
  intros j i k Hj.
  destruct (Rows j i k Hj) as (Left & Right).
  assert (Hin : In (i, k) (join_pairs rows ns)) by (eapply nth_error_In; eauto).
  apply In_join_pairs in Hin. destruct Hin as (t & Hi & Hk).
  assert (Ct : cell_at merged "timestamp" j = Some (CTime t)).
  { rewrite (Left "timestamp") by (left; reflexivity).
    unfold cell_at. rewrite Gk. simpl. rewrite nth_error_map, Hi. reflexivity. }
  split; [exists t; auto|]. split; [exact Left|].
  intros c Hc. destruct (String.eqb_spec c "timestamp") as [->|N].
  - rewrite Ct. unfold cell_at. rewrite Hns. simpl. rewrite nth_error_map, Hk. reflexivity.
  - apply Right; assumption.
Qed.

Lemma merge_datasets_rows_witness :
  exists merged,
    merge_datasets three_half_hours later_demand = OK merged /\
    cell_at merged "timestamp" 0 = Some (CTime (T0 + 30 * minute)) /\
    cell_at merged "WIND" 0 = Some (CFloat (110 # 1)) /\
    cell_at merged "EMBEDDED_WIND_GENERATION" 0 = Some (CInt 20).
Proof.
  destruct (merge_datasets_rows three_half_hours later_demand _
              [T0 + 30 * minute; T0 + 60 * minute; T0 + 90 * minute] eq_refl eq_refl)
    as (rows & merged & Hrows & Run & _ & _ & Rows).
  { repeat constructor. }
  { simpl. intros c [<-|[<-|[]]] H; [reflexivity|].
    exfalso. destruct H as [E|[E|[E|[E|[E|[]]]]]]; discriminate E. }
  vm_compute in Hrows. inversion Hrows; subst rows; clear Hrows.
  destruct (Rows 0%nat 1%nat 0%nat eq_refl) as ((t & Ht & _ & Ct) & Left & Right).
  exists merged. split; [exact Run|].
  split; [|split].
  - rewrite Ct. inversion Ht. reflexivity.
  - rewrite (Left "WIND") by (simpl; tauto). reflexivity.
  - rewrite (Right "EMBEDDED_WIND_GENERATION") by (simpl; tauto). reflexivity.
Defined.

(** ** merge_datasets: the columns, and the ways it fails *)

(** X12.  The merged table has the column [timestamp], then one column per
    fuel type of the input, each once and in alphabetical order, then the
    columns of the demand table other than [timestamp], in their order; a
    column neither table has is not in it.  (The demand table is rectangular
    and shares no column name with the pivot but [timestamp].) *)
Theorem merge_datasets_layout (bmrs neso pv : DataFrame) (ns : list Z) :
  pivoted bmrs = OK pv ->
  getitem neso "timestamp" = OK (STime ns) ->
  rectangular neso (length ns) ->
  (forall c, In c (columns pv) -> In c (columns neso) -> c = "timestamp") ->
  exists fs labels merged,
    getitem bmrs "fuelType" = OK (SStr fs) /\
    merge_datasets bmrs neso = OK merged /\
    columns merged
      = ("timestamp" :: labels
         ++ filter (fun c => negb (String.eqb c "timestamp")) (columns neso))%list /\
    NoDup labels /\
    (forall f, In f labels <-> In f fs) /\
    Sorted (fun x y => String.leb x y = true) labels /\
    (forall c, ~ In c fs -> c <> "timestamp" -> ~ In c (columns neso) ->
               getitem merged c = Raise (KeyError c)).
Proof.
  intros Hpv Hns Rn Clash.
  destruct (pivoted_inv bmrs pv Hpv) as (ts & fs & v & vs & _ & Hf & _ & _ & _ & ->).
  set (rows := group_labels Z.eqb Z.leb ts) in *.
  set (pv := ("timestamp", STime rows) :: pivot_cells ts fs vs) in *.
  assert (Gk : getitem pv "timestamp" = OK (STime rows)) by reflexivity.
  destruct (merge_inner_rows pv neso "timestamp" rows ns Gk Hns
              (rectangular_pivoted ts fs vs) Rn Clash)
    as (merged & Hm & Cols & _ & _).
  assert (Layout : columns merged
            = ("timestamp" :: group_labels String.eqb String.leb fs
               ++ filter (fun c => negb (String.eqb c "timestamp")) (columns neso))%list).
  { rewrite Cols. unfold pv. unfold columns at 1. simpl map.
    fold (columns (pivot_cells ts fs vs)). rewrite columns_pivot_cells.
    simpl. do 2 f_equal.
    clear. induction neso as [|[c s] rest IH]; simpl; [reflexivity|].
    destruct (String.eqb c "timestamp"); simpl; rewrite IH; reflexivity. }
  exists fs, (group_labels String.eqb String.leb fs), merged.
  split; [exact Hf|].
  split; [unfold merge_datasets; rewrite Hpv; exact Hm|].
  split; [exact Layout|].
  split; [apply NoDup_group_labels, String.eqb_eq|].
  split; [intro f; apply In_group_labels, String.eqb_eq|].
  split; [apply ascending_sorted, String.leb_total|].
  intros c Hc Nt Hn. apply getitem_not_in. rewrite Layout.
  intros [E|I]; [symmetry in E; contradiction|].
  apply in_app_or in I. destruct I as [I|I].
  - apply Hc. apply (In_group_labels String.eqb String.leb String.eqb_eq). exact I.
  - apply filter_In in I. tauto.
Qed.

Lemma merge_datasets_layout_witness :
  exists merged labels,
    merge_datasets (fuel_frame (fuels T0 1)) later_demand = OK merged /\
    columns merged
      = ("timestamp" :: labels
         ++ ["SETTLEMENT_DATE"; "SETTLEMENT_PERIOD"; "EMBEDDED_WIND_GENERATION";
             "EMBEDDED_SOLAR_GENERATION"])%list /\
    In "OIL" labels /\
    getitem merged "PS" = Raise (KeyError "PS").
Proof.
  destruct (merge_datasets_layout (fuel_frame (fuels T0 1)) later_demand _
              [T0 + 30 * minute; T0 + 60 * minute; T0 + 90 * minute] eq_refl eq_refl)
    as (fs & labels & merged & Hf & Run & Cols & _ & Mem & _ & Miss).
  { repeat constructor. }
  { simpl. intros c H1 H2.
    repeat (destruct H1 as [<-|H1];
            [try reflexivity;
             exfalso; destruct H2 as [E|[E|[E|[E|[E|[]]]]]]; discriminate E|]).
    contradiction. }
  vm_compute in Hf. inversion Hf; subst fs; clear Hf.
  exists merged, labels. split; [exact Run|].
  split; [exact Cols|].
  split; [apply Mem; simpl; tauto|].
  apply Miss.
  - simpl. intros [E|[E|[E|[E|[E|[E|[E|[E|[]]]]]]]]]; discriminate E.
  - discriminate.
  - simpl. intros [E|[E|[E|[E|[E|[]]]]]]; discriminate E.
Defined.

(** X13.  [merge_datasets] raises [KeyError] when the fuel table lacks its
    [generation] column, or has it and lacks [timestamp], or has both and
    lacks [fuelType]; it raises [KeyError] on [timestamp] when the pivot
    succeeds and the demand table has no such column, and [ValueError] when a
    fuel type is itself called [timestamp]. *)
Theorem merge_datasets_errors (bmrs neso : DataFrame) :
  (forall e, getitem bmrs "generation" = Raise e ->
             merge_datasets bmrs neso = Raise (KeyError "generation")) /\
  (forall v e, getitem bmrs "generation" = OK v ->
               getitem bmrs "timestamp" = Raise e ->
               merge_datasets bmrs neso = Raise (KeyError "timestamp")) /\
  (forall v t e, getitem bmrs "generation" = OK v ->
                 getitem bmrs "timestamp" = OK t ->
                 getitem bmrs "fuelType" = Raise e ->
                 merge_datasets bmrs neso = Raise (KeyError "fuelType")) /\
  (forall pv e, pivoted bmrs = OK pv ->
                getitem neso "timestamp" = Raise e ->
                merge_datasets bmrs neso = Raise (KeyError "timestamp")) /\
  (forall ts fs v vs,
      getitem bmrs "timestamp" = OK (STime ts) ->
      getitem bmrs "fuelType" = OK (SStr fs) ->
      getitem bmrs "generation" = OK v ->
      series_num v = Some vs ->
      In "timestamp" fs ->
      merge_datasets bmrs neso = Raise ValueError).
Proof.
  split; [|split; [|split; [|split]]].
  - intros e G. apply getitem_raise in G as E. subst e.
    unfold merge_datasets, pivoted, pivot_table. rewrite G. reflexivity.
  - intros v e Gv G. apply getitem_raise in G as E. subst e.
    unfold merge_datasets, pivoted, pivot_table. rewrite Gv, G. reflexivity.
  - intros v t e Gv Gt G. apply getitem_raise in G as E. subst e.
    unfold merge_datasets, pivoted, pivot_table. rewrite Gv, Gt, G. reflexivity.
  - intros pv e Hpv G. apply getitem_raise in G as E. subst e.
    unfold merge_datasets. rewrite Hpv. cbv beta iota delta [bind].
    unfold merge_inner. rewrite G. reflexivity.
  - intros ts fs v vs Gt Gf Gv Gn I.
    unfold merge_datasets, pivoted.
    rewrite (pivot_table_run bmrs ts fs v vs Gt Gf Gv Gn).
    cbv beta iota delta [bind]. unfold reset_index.
    simpl index_name. simpl table. rewrite columns_pivot_cells.
    assert (E : existsb (String.eqb "timestamp") (group_labels String.eqb String.leb fs)
                = true).
    { apply existsb_exists. exists "timestamp". split; [|apply String.eqb_refl].
      apply In_group_labels; [apply String.eqb_eq | exact I]. }
    rewrite E. reflexivity.
Qed.

Lemma merge_datasets_errors_witness :
  merge_datasets scenario_row later_demand = Raise (KeyError "generation") /\
  merge_datasets three_half_hours [("SETTLEMENT_PERIOD", SInt [1])]
  = Raise (KeyError "timestamp").
Proof.
  split.
  - exact (proj1 (merge_datasets_errors scenario_row later_demand)
                 (KeyError "generation") eq_refl).
  - exact (proj1 (proj2 (proj2 (proj2 (merge_datasets_errors three_half_hours
                                         [("SETTLEMENT_PERIOD", SInt [1])]))))
                 _ (KeyError "timestamp") eq_refl eq_refl).
Defined.

(** ** The pivot does not depend on the order of the rows *)

Lemma string_leb_trans (a b c : string) :
  String.leb a b = true -> String.leb b c = true -> String.leb a c = true.
Proof.
  unfold String.leb.
  revert b c. induction a as [|x a IH]; intros [|y b] [|z c]; simpl; auto;
    try discriminate.
  unfold Ascii.compare.
  destruct (N.compare_spec (Ascii.N_of_ascii x) (Ascii.N_of_ascii y)) as [E1|L1|G1];
    destruct (N.compare_spec (Ascii.N_of_ascii y) (Ascii.N_of_ascii z)) as [E2|L2|G2];
    destruct (N.compare_spec (Ascii.N_of_ascii x) (Ascii.N_of_ascii z)) as [E3|L3|G3];
    try discriminate; try lia; auto.
  apply IH.
Qed.

Section SortedUnique.
Context {A : Type} (le : A -> A -> Prop).
Hypothesis le_antisym : forall x y, le x y -> le y x -> x = y.

Lemma sorted_perm_eq (l1 l2 : list A) :
  StronglySorted le l1 -> StronglySorted le l2 -> Permutation l1 l2 -> l1 = l2.
Proof.
  intro S1. revert l2. induction S1 as [|x l1 S1 IH F1]; intros l2 S2 P.
  - apply Permutation_nil in P. auto.
  - destruct S2 as [|y l2 S2 F2].
    + apply Permutation_sym, Permutation_nil in P. discriminate.
    + assert (E : x = y).
      { assert (Iy : In y (x :: l1))
          by (eapply Permutation_in; [symmetry; exact P | left; reflexivity]).
        assert (Ix : In x (y :: l2))
          by (eapply Permutation_in; [exact P | left; reflexivity]).
        rewrite Forall_forall in F1, F2.
        destruct Iy as [Iy|Iy]; [exact Iy|].
        destruct Ix as [Ix|Ix]; [symmetry; exact Ix|].
        apply le_antisym; [apply F1; exact Iy | apply F2; exact Ix]. }
      subst y. f_equal. apply IH; [exact S2|].
      eapply Permutation_cons_inv. exact P.
Qed.
End SortedUnique.

Section LabelsUnique.
Context {A : Type} (eqb leb : A -> A -> bool).
Hypothesis eqb_eq : forall x y, eqb x y = true <-> x = y.
Hypothesis leb_total : forall x y, leb x y = true \/ leb y x = true.
Hypothesis leb_trans : forall x y z, leb x y = true -> leb y z = true -> leb x z = true.
Hypothesis leb_antisym : forall x y, leb x y = true -> leb y x = true -> x = y.

Lemma group_labels_perm (l l' : list A) :
  Permutation l l' -> group_labels eqb leb l = group_labels eqb leb l'.
Proof.
  intro P. unfold group_labels.
  apply (sorted_perm_eq (fun x y => leb x y = true) leb_antisym).
  - apply Sorted_StronglySorted; [exact leb_trans | apply ascending_sorted, leb_total].
  - apply Sorted_StronglySorted; [exact leb_trans | apply ascending_sorted, leb_total].
  - rewrite !ascending_perm.
    apply NoDup_Permutation; try apply NoDup_distinct; try exact eqb_eq.
    intro x. rewrite !(In_distinct eqb leb eqb_eq). split; apply Permutation_in; auto.
    symmetry. exact P.
Qed.
End LabelsUnique.

Lemma group_as_filter (t : Z) (f : string) (ts : list Z) (fs : list string) (vs : list Q) :
  group t f ts fs vs
  = map (fun r => snd (snd r))
        (filter (fun r => (t =? fst r) && String.eqb f (fst (snd r)))
                (combine ts (combine fs vs))).
Proof.
  revert fs vs. induction ts as [|t' ts IH]; intros [|f' fs] [|v vs]; simpl; auto.
  destruct ((t =? t') && String.eqb f f'); simpl; rewrite IH; reflexivity.
Qed.

Lemma filter_perm {A : Type} (p : A -> bool) (l l' : list A) :
  Permutation l l' -> Permutation (filter p l) (filter p l').
Proof.
  induction 1 as [|x l l' P IH|x y l|l l' l'' P1 IH1 P2 IH2]; simpl.
  - constructor.
  - destruct (p x); [constructor|]; exact IH.
  - destruct (p x), (p y); try reflexivity. apply perm_swap.
  - etransitivity; eauto.
Qed.

Lemma fsum_from (l : list Q) (a : Q) : (fold_left Qplus l a == a + fsum l)%Q.
Proof.
  unfold fsum. revert a. induction l as [|x l IH]; intro a; simpl.
  - ring.
  - rewrite IH, (IH (0 + x)%Q). ring.
Qed.

Lemma fsum_perm (l l' : list Q) : Permutation l l' -> (fsum l == fsum l')%Q.
Proof.
  induction 1 as [|x l l' P IH|x y l|l l' l'' P1 IH1 P2 IH2].
  - reflexivity.
  - unfold fsum. simpl. rewrite !fsum_from, IH. reflexivity.
  - unfold fsum. simpl. rewrite !fsum_from. ring.
  - etransitivity; eauto.
Qed.

Lemma mean_or_perm (fill : Q) (g g' : list Q) :
  Permutation g g' -> mean_or fill g = mean_or fill g'.
Proof.
  intro P. destruct g as [|x g], g' as [|y g'].
  - reflexivity.
  - apply Permutation_nil in P. discriminate.
  - apply Permutation_sym, Permutation_nil in P. discriminate.
  - unfold mean_or. apply Qred_complete.
    rewrite (fsum_perm _ _ P), (Permutation_length P). reflexivity.
Qed.

Lemma map_fst_zip {A B : Type} (l1 : list A) (l2 : list B) :
  length l1 = length l2 -> map fst (combine l1 l2) = l1.
Proof.
  revert l2. induction l1 as [|a l1 IH]; intros [|b l2] H; simpl in *; try discriminate; auto.
  f_equal. apply IH. lia.
Qed.

Lemma map_snd_zip {A B : Type} (l1 : list A) (l2 : list B) :
  length l1 = length l2 -> map snd (combine l1 l2) = l2.
Proof.
  revert l2. induction l1 as [|a l1 IH]; intros [|b l2] H; simpl in *; try discriminate; auto.
  f_equal. apply IH. lia.
Qed.

(** X14.  The pivot does not depend on the order in which the fuel rows
    come: two long tables whose rows are a rearrangement of one another give
    the same pivot, hence the same merged table with any demand table. *)
Theorem pivot_order_independent
        (df df' : DataFrame) (ts ts' : list Z) (fs fs' : list string)
        (v v' : Series) (vs vs' : list Q) :
  getitem df "timestamp" = OK (STime ts) ->
  getitem df "fuelType" = OK (SStr fs) ->
  getitem df "generation" = OK v ->
  series_num v = Some vs ->
  length ts = length fs -> length fs = length vs ->
  getitem df' "timestamp" = OK (STime ts') ->
  getitem df' "fuelType" = OK (SStr fs') ->
  getitem df' "generation" = OK v' ->
  series_num v' = Some vs' ->
  length ts' = length fs' -> length fs' = length vs' ->
  Permutation (combine ts (combine fs vs)) (combine ts' (combine fs' vs')) ->
  pivot_table df "timestamp" "fuelType" "generation" (0 # 1)
    = pivot_table df' "timestamp" "fuelType" "generation" (0 # 1) /\
  pivoted df = pivoted df' /\
  forall neso, merge_datasets df neso = merge_datasets df' neso.
Proof.
  intros Gt Gf Gv Gn L1 L2 Gt' Gf' Gv' Gn' L1' L2' P.
  assert (Pt : Permutation ts ts').
  { rewrite <- (map_fst_zip ts (combine fs vs)), <- (map_fst_zip ts' (combine fs' vs')).
    - apply Permutation_map. exact P.
    - rewrite length_combine. lia.
    - rewrite length_combine. lia. }
  assert (Pf : Permutation fs fs').
  { rewrite <- (map_fst_zip fs vs L2), <- (map_fst_zip fs' vs' L2').
    rewrite <- (map_snd_zip ts (combine fs vs)), <- (map_snd_zip ts' (combine fs' vs')).
    - apply Permutation_map, Permutation_map. exact P.
    - rewrite length_combine. lia.
    - rewrite length_combine. lia. }
  assert (Rows : group_labels Z.eqb Z.leb ts = group_labels Z.eqb Z.leb ts').
  { apply group_labels_perm; auto.
    - apply Z.eqb_eq.
    - intros x y. rewrite !Z.leb_le. lia.
    - intros x y z. rewrite !Z.leb_le. lia.
    - intros x y. rewrite !Z.leb_le. lia. }
  assert (Labels : group_labels String.eqb String.leb fs
                   = group_labels String.eqb String.leb fs').
  { apply group_labels_perm; auto.
    - apply String.eqb_eq.
    - apply String.leb_total.
    - apply string_leb_trans.
    - apply String.leb_antisym. }
  assert (Cells : pivot_cells ts fs vs = pivot_cells ts' fs' vs').
  { unfold pivot_cells. rewrite Rows, Labels. apply map_ext. intro f.
    do 2 f_equal. apply map_ext. intro t.
    apply mean_or_perm. rewrite !group_as_filter.
    apply Permutation_map, filter_perm. exact P. }
  assert (E : pivot_table df "timestamp" "fuelType" "generation" (0 # 1)
              = pivot_table df' "timestamp" "fuelType" "generation" (0 # 1)).
  { rewrite (pivot_table_run df ts fs v vs Gt Gf Gv Gn).
    rewrite (pivot_table_run df' ts' fs' v' vs' Gt' Gf' Gv' Gn').
    rewrite Rows, Cells. reflexivity. }
  split; [exact E|].
  assert (E' : pivoted df = pivoted df') by (unfold pivoted; rewrite E; reflexivity).
  split; [exact E'|].
  intro neso. unfold merge_datasets. rewrite E'. reflexivity.
Qed.

Lemma pivot_order_independent_witness :
  pivoted (fuel_frame [mkFuelInst T0 2 "WIND" 110; mkFuelInst T0 1 "CCGT" 200;
                       mkFuelInst T0 1 "WIND" 100])
  = pivoted (fuel_frame [mkFuelInst T0 1 "WIND" 100; mkFuelInst T0 2 "WIND" 110;
                         mkFuelInst T0 1 "CCGT" 200]).
Proof.
  refine (proj1 (proj2 (pivot_order_independent
                          (fuel_frame [mkFuelInst T0 2 "WIND" 110; mkFuelInst T0 1 "CCGT" 200;
                                       mkFuelInst T0 1 "WIND" 100])
                          (fuel_frame [mkFuelInst T0 1 "WIND" 100; mkFuelInst T0 2 "WIND" 110;
                                       mkFuelInst T0 1 "CCGT" 200])
                          _ _ _ _ _ _ _ _
                          eq_refl eq_refl eq_refl eq_refl eq_refl eq_refl
                          eq_refl eq_refl eq_refl eq_refl eq_refl eq_refl _))).
  simpl.
  eapply perm_trans; [apply perm_skip, perm_swap|]. apply perm_swap.
Defined.

(** ** The tables stay rectangular, up to the file *)

Lemma length_mask_filter {A B : Type} (m : list bool) (l1 : list A) (l2 : list B) :
  length l1 = length l2 -> length (mask_filter m l1) = length (mask_filter m l2).
Proof.
  revert l1 l2. induction m as [|b m IH]; intros [|a l1] [|c l2] H; simpl in *;
    try discriminate; auto.
  destruct b; simpl; rewrite (IH l1 l2) by lia; reflexivity.
Qed.

Lemma series_len_mask (m : list bool) (s : Series) (n : nat) :
  series_len s = n ->
  series_len (series_mask m s) = length (mask_filter m (seq 0 n)).
Proof.
  intro H. destruct s as [l|l|l|l]; simpl in *;
    apply length_mask_filter; rewrite length_seq; exact H.
Qed.

Lemma rectangular_df_mask (df : DataFrame) (m : list bool) (n : nat) :
  rectangular df n -> rectangular (df_mask df m) (length (mask_filter m (seq 0 n))).
Proof.
  unfold rectangular, df_mask. rewrite Forall_map. apply Forall_impl.
  intros [c s] H. simpl in *. apply (series_len_mask m s n H).
Qed.

Lemma rectangular_setitem (df : DataFrame) (n : nat) (k : string) (s : Series) :
  rectangular df n -> series_len s = n -> rectangular (setitem df k s) n.
Proof.
  intros R H. induction R as [|[c s0] rest Hc R IH]; simpl.
  - repeat constructor. exact H.
  - destruct (String.eqb c k); constructor; auto.
Qed.

Lemma rectangular_df_round (d : nat) (df : DataFrame) (n : nat) :
  rectangular df n -> rectangular (df_round d df) n.
Proof.
  unfold rectangular, df_round. rewrite Forall_map. apply Forall_impl.
  intros [c s] H. simpl in *. destruct s; simpl in *; auto.
  rewrite length_map. exact H.
Qed.

Lemma series_add_len (x y s : Series) (n : nat) :
  series_len x = n -> series_len y = n -> series_add x y = OK s -> series_len s = n.
Proof.
  intros Hx Hy.
  destruct x as [x|x|x|x], y as [y|y|y|y]; simpl in *; intro H; try discriminate;
    try (inversion H; simpl; rewrite length_zip_with, ?length_map; lia);
    unfold add_objects in H; simpl in H;
    destruct x, y; simpl in *; try discriminate; inversion H; simpl; lia.
Qed.

Lemma keeps_bind {A B : Type} (n : nat) (Q : A -> Prop) (R : B -> Prop)
      (c : Mut A) (k : A -> Mut B) :
  keeps n Q c -> (forall a, Q a -> keeps n R (k a)) -> keeps n R (mbind c k).
Proof.
  intros Hc Hk df Rd. unfold mbind.
  destruct (Hc df Rd) as (R1 & Q1).
  destruct (c df) as [df' [a|e]]; simpl in *.
  - apply (Hk a (Q1 a eq_refl) df' R1).
  - split; [exact R1 | discriminate].
Qed.

Lemma keeps_col (n : nat) (k : string) : keeps n (fun s => series_len s = n) (col k).
Proof.
  intros df R. unfold col. simpl. split; [exact R|].
  intros s G. eapply rectangular_getitem; eauto.
Qed.

Lemma keeps_add (n : nat) (x y : Series) :
  series_len x = n -> series_len y = n ->
  keeps n (fun s => series_len s = n) (lift (series_add x y)).
Proof.
  intros Hx Hy df R. unfold lift. simpl. split; [exact R|].
  intros s H. exact (series_add_len x y s n Hx Hy H).
Qed.

Lemma keeps_assign (n : nat) (k : string) (s : Series) :
  series_len s = n -> keeps n (fun _ => True) (assign k s).
Proof.
  intros H df R. unfold assign. simpl. split; [|auto].
  apply rectangular_setitem; assumption.
Qed.

Lemma keeps_add2 (n : nat) (a b : string) :
  keeps n (fun s => series_len s = n) (add2 a b).
Proof.
  unfold add2.
  eapply keeps_bind; [apply keeps_col|]. intros x Hx.
  eapply keeps_bind; [apply keeps_col|]. intros y Hy.
  apply keeps_add; assumption.
Qed.

Lemma keeps_add3 (n : nat) (a b c : string) :
  keeps n (fun s => series_len s = n) (add3 a b c).
Proof.
  unfold add3.
  eapply keeps_bind; [apply keeps_col|]. intros x Hx.
  eapply keeps_bind; [apply keeps_col|]. intros y Hy.
  eapply keeps_bind; [apply keeps_add; assumption|]. intros xy Hxy.
  eapply keeps_bind; [apply keeps_col|]. intros z Hz.
  apply keeps_add; assumption.
Qed.

Lemma keeps_process_merged (n : nat) :
  keeps n (fun out => rectangular out n) process_merged.
Proof.
  unfold process_merged.
  eapply keeps_bind; [apply keeps_add2|]. intros tw Htw.
  eapply keeps_bind; [apply keeps_assign; exact Htw|]. intros _ _.
  eapply keeps_bind; [apply keeps_add2|]. intros tg Htg.
  eapply keeps_bind; [apply keeps_assign; exact Htg|]. intros _ _.
  eapply keeps_bind; [apply keeps_add3|]. intros tr Htr.
  eapply keeps_bind; [apply keeps_assign; exact Htr|]. intros _ _.
  eapply keeps_bind; [apply keeps_add3|]. intros tf Htf.
  eapply keeps_bind; [apply keeps_assign; exact Htf|]. intros _ _.
  eapply keeps_bind; [apply keeps_add3|]. intros tl Htl.
  eapply keeps_bind; [apply keeps_assign; exact Htl|]. intros _ _.
  intros df R. unfold rounded. simpl. split; [exact R|].
  intros out H. inversion H. apply rectangular_df_round. exact R.
Qed.

Lemma merge_inner_rectangular (left right merged : DataFrame) (on : string) (a b : list Z) :
  getitem left on = OK (STime a) ->
  getitem right on = OK (STime b) ->
  rectangular left (length a) ->
  rectangular right (length b) ->
  merge_inner left right on = OK merged ->
  rectangular merged (length (join_pairs a b)).
Proof.
  intros Ga Gb Ra Rb.
  assert (Fa : Forall (fun i => (i < length a)%nat) (map fst (join_pairs a b))).
  { rewrite Forall_forall. intros i Hi. apply in_map_iff in Hi.
    destruct Hi as ([i' k] & <- & H). apply In_join_pairs in H.
    destruct H as (t & H & _). simpl. apply nth_error_Some. congruence. }
  assert (Fb : Forall (fun k => (k < length b)%nat) (map snd (join_pairs a b))).
  { rewrite Forall_forall. intros k Hk. apply in_map_iff in Hk.
    destruct Hk as ([i k'] & <- & H). apply In_join_pairs in H.
    destruct H as (t & _ & H). simpl. apply nth_error_Some. congruence. }
  unfold merge_inner. rewrite Gb, Ga. cbv beta iota delta [bind].
  intro H. inversion H; subst merged; clear H.
  unfold rectangular. rewrite Forall_app. split.
  - rewrite Forall_map, Forall_forall. intros [c s] H. simpl.
    rewrite series_len_take, length_map; [reflexivity|].
    unfold rectangular in Ra. rewrite Forall_forall in Ra.
    pose proof (Ra (c, s) H) as E. simpl in E. rewrite E. exact Fa.
  - rewrite Forall_map, Forall_forall. intros [c s] H. simpl.
    apply filter_In in H. destruct H as (H & _).
    rewrite series_len_take, length_map; [reflexivity|].
    unfold rectangular in Rb. rewrite Forall_forall in Rb.
    pose proof (Rb (c, s) H) as E. simpl in E. rewrite E. exact Fb.
Qed.

Lemma row_at_length (df : DataFrame) (n i : nat) :
  rectangular df n -> (i < n)%nat -> length (row_at df i) = length df.
Proof.
  intros R Hi. unfold row_at.
  induction R as [|[c s] rest Hs R IH]; simpl; [reflexivity|].
  simpl in Hs. rewrite length_app, IH.
  destruct (nth_error (series_cells s) i) eqn:E; [reflexivity|].
  apply nth_error_None in E. rewrite length_series_cells in E. lia.
Qed.

Lemma csv_of_rectangular (df : DataFrame) (n : nat) :
  rectangular df n ->
  Forall (fun r => length r = length (header (csv_of df))) (records (csv_of df)) /\
  length (records (csv_of df)) = nrows df.
Proof.
  intro R. unfold csv_of. simpl. split.
  - rewrite Forall_map, Forall_forall. intros i Hi. apply in_seq in Hi.
    unfold columns. rewrite length_map.
    destruct df as [|[c s] rest]; [simpl in Hi; lia|].
    apply (row_at_length _ n); [exact R|].
    inversion R; subst. simpl in *. lia.
  - rewrite length_map, length_seq. reflexivity.
Qed.

Lemma columns_df_round (d : nat) (df : DataFrame) : columns (df_round d df) = columns df.
Proof.
  unfold columns, df_round. rewrite map_map. reflexivity.
Qed.

Lemma In_columns_setitem (df : DataFrame) (k c : string) (s : Series) :
  c = k \/ In c (columns df) -> In c (columns (setitem df k s)).
Proof.
  induction df as [|[c0 s0] rest IH]; simpl.
  - intros [->|[]]. left. reflexivity.
  - destruct (String.eqb_spec c0 k) as [->|N]; simpl.
    + intros [->|[E|H]]; auto.
    + intros [->|[E|H]]; auto.
Qed.

Lemma merge_datasets_rectangular (a b m : DataFrame) (n : nat) :
  rectangular b n ->
  merge_datasets a b = OK m ->
  exists k, rectangular m k.
Proof.
  intros Rb M. unfold merge_datasets in M.
  destruct (pivoted a) as [pv|] eqn:Hpv; [|discriminate].
  cbv beta iota delta [bind] in M.
  destruct (pivoted_inv a pv Hpv) as (ts & fs & v & vs & _ & _ & _ & _ & _ & ->).
  assert (Gk : getitem (("timestamp", STime (group_labels Z.eqb Z.leb ts))
                          :: pivot_cells ts fs vs) "timestamp"
               = OK (STime (group_labels Z.eqb Z.leb ts))) by reflexivity.
  destruct (getitem b "timestamp") as [[l|l|ns|l]|e] eqn:Gb;
    try (unfold merge_inner in M; rewrite Gb in M; simpl in M; discriminate).
  exists (length (join_pairs (group_labels Z.eqb Z.leb ts) ns)).
  eapply merge_inner_rectangular; [exact Gk | exact Gb | apply rectangular_pivoted | | exact M].
  pose proof (rectangular_getitem b n "timestamp" (STime ns) Rb Gb) as E.
  simpl in E. rewrite E. exact Rb.
Qed.

Lemma fetch_neso_demand_rectangular (w : World) (hours : Z) (b : DataFrame) :
  (forall csv, neso_read_csv w = OK csv -> exists n, rectangular csv n) ->
  fetch_neso_demand w hours = OK b ->
  exists n, rectangular b n.
Proof.
  intros Hcsv H.
  destruct (fetch_neso_demand_inv w hours b H)
    as (csv & D & P & wind & solar & Gcsv & GD & GP & GW & GS & -> & _).
  destruct (Hcsv csv Gcsv) as (n & R).
  eexists. apply rectangular_df_mask with (n := n).
  pose proof (rectangular_getitem csv n _ _ R GD) as LD.
  pose proof (rectangular_getitem csv n _ _ R GP) as LP.
  pose proof (rectangular_getitem csv n _ _ R GW) as LW.
  pose proof (rectangular_getitem csv n _ _ R GS) as LS.
  simpl in LD, LP.
  unfold demand_frame. repeat constructor; simpl; auto.
  rewrite length_zip_with. lia.
Qed.

(** X15.  When a run succeeds (the download being a rectangular table), the
    file it has written is a rectangular CSV: its header starts with
    [timestamp] and contains the five aggregate columns, every record has as
    many entries as the header, and the number of rows the run reports is the
    number of records in the file. *)
Theorem fetch_pipeline_writes_table (w : World) (env : Env) :
  (forall csv, neso_read_csv w = OK csv -> exists n, rectangular csv n) ->
  snd (fetch_pipeline w env) = OK tt ->
  exists file,
    files (fst (fetch_pipeline w env)) output_path = Some file /\
    hd_error (header file) = Some "timestamp" /\
    (forall c, In c total_columns -> In c (header file)) /\
    Forall (fun r => length r = length (header file)) (records file) /\
    stdout (fst (fetch_pipeline w env))
      = (stdout env ++ [Line "Fetching BMRS data..."; Line "Fetching NESO data...";
                        Line "Merging datasets..."; Line "Processing data...";
                        Saved (length (records file))])%list.
Proof.
  intros Hcsv Ok.
  destruct (fetch_pipeline_cases w env) as [(e & _ & R & _)|(out & S & _ & K & L)];
    [congruence|].
  destruct S as (a & b & m & A & B & M & P).
  destruct (fetch_neso_demand_rectangular w 24 b Hcsv B) as (nb & Rb).
  destruct (merge_datasets_rectangular a b m nb Rb M) as (k & Rm).
  destruct (keeps_process_merged k m Rm) as (_ & Rout).
  specialize (Rout out P).
  destruct (csv_of_rectangular out k Rout) as (Rect & Count).
  exists (csv_of out).
  split; [rewrite K, String.eqb_refl; reflexivity|].
  pose proof (process_merged_returns_rounded m out P) as E.
  destruct (process_merged_state m out P) as (tw & tg & tr & tf & tl & St).
  rewrite St in E.
  split; [|split; [|split]].
  - destruct (merge_datasets_head a b m M) as (ms & rest & ->).
    rewrite E. repeat rewrite setitem_cons_other by discriminate. reflexivity.
  - intros c Hc. unfold csv_of. simpl header. rewrite E, columns_df_round.
    simpl in Hc.
    destruct Hc as [<-|[<-|[<-|[<-|[<-|[]]]]]];
      repeat first [ apply In_columns_setitem; left; reflexivity
                   | apply In_columns_setitem; right ].
  - exact Rect.
  - rewrite L, Count. reflexivity.
Qed.

Lemma fetch_pipeline_writes_table_witness :
  exists file,
    files (fst (fetch_pipeline scenario_world stale_env)) output_path = Some file /\
    Forall (fun r => length r = length (header file)) (records file) /\
    length (records file) = 1%nat.
Proof.
  destruct (fetch_pipeline_writes_table scenario_world stale_env) as (file & F & _ & _ & R & _).
  - intros csv H. exists 3%nat. vm_compute in H. inversion H. repeat constructor.
  - reflexivity.
  - exists file. split; [exact F|]. split; [exact R|].
    vm_compute in F. inversion F. reflexivity.
Defined.

(** ** What a failed run has printed *)

(** X16.  A run announces each step before it takes it and prints nothing
    after a failure: the console shows one progress line if the stream fetch
    raised, two if the download did, three if the merge did, four if the
    aggregation did, and the row count only when the file has been
    written. *)
Theorem fetch_pipeline_progress (w : World) (env : Env) :
  (forall e, fetch_bmrs_fuelinst w 24 = Raise e ->
             stdout (fst (fetch_pipeline w env))
             = (stdout env ++ [Line "Fetching BMRS data..."])%list) /\
  (forall a e, fetch_bmrs_fuelinst w 24 = OK a ->
               fetch_neso_demand w 24 = Raise e ->
               stdout (fst (fetch_pipeline w env))
               = (stdout env ++ [Line "Fetching BMRS data...";
                                 Line "Fetching NESO data..."])%list) /\
  (forall a b e, fetch_bmrs_fuelinst w 24 = OK a ->
                 fetch_neso_demand w 24 = OK b ->
                 merge_datasets a b = Raise e ->
                 stdout (fst (fetch_pipeline w env))
                 = (stdout env ++ [Line "Fetching BMRS data...";
                                   Line "Fetching NESO data...";
                                   Line "Merging datasets..."])%list) /\
  (forall a b m e, fetch_bmrs_fuelinst w 24 = OK a ->
                   fetch_neso_demand w 24 = OK b ->
                   merge_datasets a b = OK m ->
                   snd (process_merged m) = Raise e ->
                   stdout (fst (fetch_pipeline w env))
                   = (stdout env ++ [Line "Fetching BMRS data...";
                                     Line "Fetching NESO data...";
                                     Line "Merging datasets...";
                                     Line "Processing data..."])%list) /\
  (forall n, In (Saved n) (stdout (fst (fetch_pipeline w env))) ->
             ~ In (Saved n) (stdout env) ->
             snd (fetch_pipeline w env) = OK tt).
Proof.
  unfold fetch_pipeline, mbind, print, lift, to_csv.
  split; [|split; [|split; [|split]]].
  - intros e A. rewrite A. reflexivity.
  - intros a e A B. rewrite A. simpl. rewrite B. simpl.
    rewrite <- app_assoc. reflexivity.
  - intros a b e A B M. rewrite A. simpl. rewrite B. simpl. rewrite M. simpl.
    repeat rewrite <- app_assoc. reflexivity.
  - intros a b m e A B M P. rewrite A. simpl. rewrite B. simpl. rewrite M. simpl.
    rewrite P. simpl. repeat rewrite <- app_assoc. reflexivity.
  - intros n I Old.
    destruct (fetch_bmrs_fuelinst w 24) as [a|e]; simpl in *.
    2:{ apply in_app_or in I. destruct I as [I|[I|[]]]; [contradiction | discriminate]. }
    destruct (fetch_neso_demand w 24) as [b|e]; simpl in *.
    2:{ repeat (apply in_app_or in I; destruct I as [I|[I|[]]]; [|discriminate]).
        contradiction. }
    destruct (merge_datasets a b) as [m|e]; simpl in *.
    2:{ repeat (apply in_app_or in I; destruct I as [I|[I|[]]]; [|discriminate]).
        contradiction. }
    destruct (snd (process_merged m)) as [out|e]; simpl in *.
    2:{ repeat (apply in_app_or in I; destruct I as [I|[I|[]]]; [|discriminate]).
        contradiction. }
    reflexivity.
Qed.

Lemma fetch_pipeline_progress_witness :
  stdout (fst (fetch_pipeline no_solar_world stale_env))
  = [Line "Fetching BMRS data..."; Line "Fetching NESO data..."].
Proof.
  exact (proj1 (proj2 (fetch_pipeline_progress no_solar_world stale_env))
               _ (KeyErrorNotInIndex ["EMBEDDED_SOLAR_GENERATION"]) eq_refl eq_refl).
Defined.
